(** * Agentic_Resell: price parsing, statistics, sufficiency metrics and the
      iterative refinement workflow

    A shallow embedding of
    - [src/resell_app/price_calculation.py] ([_parse_price],
      [PriceCalculator.calculate_from_evaluation]),
    - [src/resell_app/tools/metrics_tools.py] ([EvaluationMetricsTool._run]),
    - [src/resell_app/workflow.py] ([ResellWorkflow._parse], [run],
      [_finalize]),
    together with the Python built-ins these functions rely on.  Further
    on it embeds the summary that [_finalize] writes, the request logic of
    [src/resell_app/tools/vision_tool.py] ([QwenVisionTool._run]), the
    link collection and the extraction of
    [src/resell_app/market_search.py] ([MarketSearch._run]) and the paths
    under which the scraper, the workflow and
    [src/resell_app/tools/file_read_tool.py] find the data file.

    Python values are dynamically typed; they are embedded as the inductive
    type [value] (the shapes [json.loads] produces).  Python [str] is a list
    of Unicode code points, Python [float] is Rocq's primitive binary64
    [float], Python [int] is [Z].  Exceptions are explicit: a computation
    that can raise returns a [result]. *)

From Stdlib Require Import ZArith NArith List String Ascii Bool Lia Floats.
From Stdlib Require Import DecimalString Sorting.Permutation Sorting.Sorted.
Import ListNotations.

Set Warnings "-inexact-float,-register-all".
Local Open Scope string_scope.
Local Open Scope list_scope.
Local Open Scope Z_scope.

(** ** Python built-ins *)

Module Py.

(** *** Strings: sequences of Unicode code points *)

Definition codepoint := N.
Definition ustr := list codepoint.

(** An ASCII literal of this file as a Python string. *)
Definition lit (s : string) : ustr := map N_of_ascii (list_ascii_of_string s).

Definition EURO : codepoint := 0x20AC%N.   (* '€' *)
Definition NBSP : codepoint := 0xA0%N.     (* '\xa0' *)
Definition DOT : codepoint := 46%N.        (* '.' *)
Definition COMMA : codepoint := 44%N.      (* ',' *)

Fixpoint ustr_eqb (a b : ustr) : bool :=
  match a, b with
  | [], [] => true
  | x :: a', y :: b' => N.eqb x y && ustr_eqb a' b'
  | _, _ => false
  end.

(** [str.isspace] for one character (Unicode 14.0, CPython 3.11): the set
    [str.strip()] removes. *)
Definition whitespace : list codepoint :=
  [ 0x9; 0xA; 0xB; 0xC; 0xD; 0x1C; 0x1D; 0x1E; 0x1F; 0x20; 0x85; 0xA0;
    0x1680; 0x2000; 0x2001; 0x2002; 0x2003; 0x2004; 0x2005; 0x2006; 0x2007;
    0x2008; 0x2009; 0x200A; 0x2028; 0x2029; 0x202F; 0x205F; 0x3000 ]%N.

Definition isspace (c : codepoint) : bool := existsb (N.eqb c) whitespace.

(** The zero digit of every block of Unicode decimal digits (general
    category Nd, Unicode 14.0): each block is ten consecutive code points
    with values 0..9.  This is the class [\d] of [re] on [str] patterns and
    the digits [float()] accepts. *)
Definition decimal_zeros : list codepoint :=
  [ 0x30; 0x660; 0x6F0; 0x7C0; 0x966; 0x9E6; 0xA66; 0xAE6; 0xB66; 0xBE6;
    0xC66; 0xCE6; 0xD66; 0xDE6; 0xE50; 0xED0; 0xF20; 0x1040; 0x1090; 0x17E0;
    0x1810; 0x1946; 0x19D0; 0x1A80; 0x1A90; 0x1B50; 0x1BB0; 0x1C40; 0x1C50;
    0xA620; 0xA8D0; 0xA900; 0xA9D0; 0xA9F0; 0xAA50; 0xABF0; 0xFF10; 0x104A0;
    0x10D30; 0x11066; 0x110F0; 0x11136; 0x111D0; 0x112F0; 0x11450; 0x114D0;
    0x11650; 0x116C0; 0x11730; 0x118E0; 0x11950; 0x11C50; 0x11D50; 0x11DA0;
    0x16A60; 0x16AC0; 0x16B50; 0x1D7CE; 0x1D7D8; 0x1D7E2; 0x1D7EC; 0x1D7F6;
    0x1E140; 0x1E2F0; 0x1E950; 0x1FBF0 ]%N.

Fixpoint decimal_in (zeros : list codepoint) (c : codepoint) : option Z :=
  match zeros with
  | [] => None
  | z :: zs =>
      if (N.leb z c && N.ltb c (z + 10))%N
      then Some (Z.of_N (c - z)) else decimal_in zs c
  end.

(** [unicodedata.decimal(c)], [None] when [c] is not a decimal digit. *)
Definition decimal_value (c : codepoint) : option Z := decimal_in decimal_zeros c.

Definition isdecimal (c : codepoint) : bool :=
  match decimal_value c with Some _ => true | None => false end.

Fixpoint dropwhile {A} (p : A -> bool) (l : list A) : list A :=
  match l with
  | [] => []
  | x :: l' => if p x then dropwhile p l' else l
  end.

Fixpoint takewhile {A} (p : A -> bool) (l : list A) : list A :=
  match l with
  | [] => []
  | x :: l' => if p x then x :: takewhile p l' else []
  end.

(** [s.strip()] *)
Definition lstrip (s : ustr) : ustr := dropwhile isspace s.
Definition rstrip (s : ustr) : ustr := rev (dropwhile isspace (rev s)).
Definition strip (s : ustr) : ustr := rstrip (lstrip s).

Fixpoint is_prefix (p s : ustr) : bool :=
  match p, s with
  | [], _ => true
  | x :: p', y :: s' => N.eqb x y && is_prefix p' s'
  | _ :: _, [] => false
  end.

(** [s.replace(old, new)] for a non-empty [old]: the occurrences of [old]
    are found from the left and do not overlap.  [skip] counts the
    characters of a found occurrence still to be dropped. *)
Fixpoint replace_from (old new : ustr) (skip : nat) (s : ustr) : ustr :=
  match s with
  | [] => []
  | c :: s' =>
      match skip with
      | S k => replace_from old new k s'
      | O =>
          if is_prefix old s
          then new ++ replace_from old new (List.length old - 1) s'
          else c :: replace_from old new O s'
      end
  end.

(** With an empty [old], Python inserts [new] before every character and
    at the end. *)
Definition replace (old new s : ustr) : ustr :=
  match old with
  | [] => flat_map (fun c => new ++ [c]) s ++ new
  | _ :: _ => replace_from old new O s
  end.

(** [c in s] for a one-character [c]. *)
Definition contains (c : codepoint) (s : ustr) : bool := existsb (N.eqb c) s.

(** *** Exceptions *)

Inductive exn_class :=
| RecursionError | ValueError | TypeError | AttributeError | IndexError
| OverflowError | OtherException.

(** An exception with its class and [str(e)]. *)
Record exn := mkExn { exn_cls : exn_class; exn_msg : ustr }.

Inductive result (A : Type) :=
| Ok (a : A)
| Raise (e : exn).
Arguments Ok {A} a.
Arguments Raise {A} e.

Definition bind {A B} (c : result A) (k : A -> result B) : result B :=
  match c with
  | Ok a => k a
  | Raise e => Raise e
  end.

Declare Scope py_scope.
Delimit Scope py_scope with py.
Notation "x <- c ;; k" := (bind c (fun x => k))
  (at level 61, c at next level, right associativity) : py_scope.

Definition raise {A} (cls : exn_class) (msg : string) : result A :=
  Raise (mkExn cls (lit msg)).

Fixpoint mapM {A B} (f : A -> result B) (l : list A) : result (list B) :=
  match l with
  | [] => Ok []
  | x :: l' =>
      match f x with
      | Raise e => Raise e
      | Ok y => match mapM f l' with
                | Raise e => Raise e
                | Ok ys => Ok (y :: ys)
                end
      end
  end.

(** *** Values *)

Inductive value :=
| VNone
| VBool (b : bool)
| VInt (z : Z)
| VFloat (f : float)
| VStr (s : ustr)
| VList (l : list value)
| VDict (d : list (ustr * value)).

(** A [dict] with [str] keys, in insertion order. *)
Definition dict := list (ustr * value).

Fixpoint lookup (k : ustr) (d : dict) : option value :=
  match d with
  | [] => None
  | (k', v) :: d' => if ustr_eqb k k' then Some v else lookup k d'
  end.

(** [k in d] *)
Definition has_key (k : ustr) (d : dict) : bool :=
  match lookup k d with Some _ => true | None => false end.

(** [d.get(k, default)] and [d.get(k)] *)
Definition get_default (d : dict) (k : string) (default : value) : value :=
  match lookup (lit k) d with Some v => v | None => default end.
Definition get (d : dict) (k : string) : value := get_default d k VNone.

(** [d[k] = v]: an existing key keeps its position, a new key goes last. *)
Fixpoint setitem (k : ustr) (v : value) (d : dict) : dict :=
  match d with
  | [] => [(k, v)]
  | (k', v') :: d' =>
      if ustr_eqb k k' then (k, v) :: d' else (k', v') :: setitem k v d'
  end.

(** [list(d.values())] and [list(d.keys())] *)
Definition values (d : dict) : list value := map snd d.
Definition keys (d : dict) : list ustr := map fst d.

(** [{**d, k1: v1, ...}] *)
Definition extend (d : dict) (kvs : list (string * value)) : dict :=
  fold_left (fun acc kv => setitem (lit (fst kv)) (snd kv) acc) kvs d.

(** A dict display [{k1: v1, ...}]; the keys are distinct string
    literals. *)
Definition mkdict (kvs : list (string * value)) : dict :=
  map (fun kv => (lit (fst kv), snd kv)) kvs.

(** [type(v).__name__] *)
Definition type_name (v : value) : ustr :=
  lit match v with
      | VNone => "NoneType" | VBool _ => "bool" | VInt _ => "int"
      | VFloat _ => "float" | VStr _ => "str" | VList _ => "list"
      | VDict _ => "dict"
      end.

Definition quoted (s : ustr) : ustr := lit "'" ++ s ++ lit "'".

(** [v.get]: only a [dict] has the method. *)
Definition as_dict (v : value) : result dict :=
  match v with
  | VDict d => Ok d
  | _ => Raise (mkExn AttributeError
           (quoted (type_name v) ++ lit " object has no attribute 'get'"))
  end.

(** The elements [for x in v] visits: a list's items, a string's
    characters, a dict's keys. *)
Definition iterate (v : value) : result (list value) :=
  match v with
  | VList l => Ok l
  | VStr s => Ok (map (fun c => VStr [c]) s)
  | VDict d => Ok (map VStr (keys d))
  | _ => Raise (mkExn TypeError
           (quoted (type_name v) ++ lit " object is not iterable"))
  end.

(** [len(v)] *)
Definition len (v : value) : result Z :=
  match v with
  | VList l => Ok (Z.of_nat (List.length l))
  | VStr s => Ok (Z.of_nat (List.length s))
  | VDict d => Ok (Z.of_nat (List.length d))
  | _ => Raise (mkExn TypeError
           (lit "object of type " ++ quoted (type_name v) ++ lit " has no len()"))
  end.

(** Truth value testing. *)
Definition truthy (v : value) : bool :=
  match v with
  | VNone => false
  | VBool b => b
  | VInt z => negb (Z.eqb z 0)
  | VFloat f => negb (PrimFloat.eqb f 0)
  | VStr s => match s with [] => false | _ => true end
  | VList l => match l with [] => false | _ => true end
  | VDict d => match d with [] => false | _ => true end
  end.

(** [a or b] *)
Definition or_ (a b : value) : value := if truthy a then a else b.

(** [v is True] and [v is None] *)
Definition is_True (v : value) : bool :=
  match v with VBool true => true | _ => false end.
Definition is_None (v : value) : bool :=
  match v with VNone => true | _ => false end.

(** [v == "..."] against a string literal: only an equal [str] compares
    equal. *)
Definition eq_lit (v : value) (s : string) : bool :=
  match v with VStr u => ustr_eqb u (lit s) | _ => false end.

(** [str(z)] for an [int]. *)
Definition str_of_int (z : Z) : ustr := lit (NilZero.string_of_int (Z.to_int z)).

(** *** Floats (IEEE 754 binary64) *)

(** The double nearest to [m / d] (ties to even, overflow to infinity) for
    integers [m >= 0] and [d > 0] of any size: the quotient is computed
    with enough bits and rounded once. *)
Definition nearest_quotient (m d : Z) : float :=
  match m with
  | Zpos _ =>
      let '(q, e, l) := SFdiv_core_binary prec emax m 0 d 0 in
      SF2Prim (binary_round_aux prec emax false q e l)
  | _ => PrimFloat.zero
  end.

(** The double nearest to the decimal [m * 10^-k], as [float()] and
    [round()] convert a decimal string; [m >= 0]. *)
Definition nearest_decimal (m : Z) (k : nat) : float :=
  nearest_quotient m (10 ^ Z.of_nat k).

(** [a / b] on [int]s with [a >= 0] and [b > 0]: correctly rounded. *)
Definition int_truediv (a b : Z) : float := nearest_quotient a b.

(** [float(z)] for an [int]: the nearest double, [OverflowError] when it
    is out of range. *)
Definition float_of_int (z : Z) : result float :=
  match binary_normalize prec emax z 0 false with
  | S754_infinity _ => raise OverflowError "int too large to convert to float"
  | sf => Ok (SF2Prim sf)
  end.

(** The value of a digit string in base ten, most significant digit
    first; [None] when a character is not a decimal digit. *)
Fixpoint digits_value (acc : Z) (s : ustr) : option Z :=
  match s with
  | [] => Some acc
  | c :: s' =>
      match decimal_value c with
      | Some d => digits_value (10 * acc + d) s'
      | None => None
      end
  end.

(** [float(s)] for a string [s] of decimal digits and dots, the only
    strings [_parse_price] passes to it: digits with at most one dot and at
    least one digit, else [ValueError]. *)
Definition float_of_str (s : ustr) : result float :=
  let ip := takewhile isdecimal s in
  let rest := dropwhile isdecimal s in
  let fp := match rest with [] => [] | _ :: t => t end in
  let well_formed :=
    match rest with
    | [] => true
    | c :: t => N.eqb c DOT && forallb isdecimal t
    end in
  match ip ++ fp, well_formed, digits_value 0 (ip ++ fp) with
  | _ :: _, true, Some m => Ok (nearest_decimal m (List.length fp))
  | _, _, _ => raise ValueError "could not convert string to float"
  end.

(** [round(x, ndigits)] for [ndigits >= 0]: the exact value of [x] is
    rounded to [ndigits] decimals, ties to even, and the decimal is
    converted back to the nearest double; infinities and NaN are returned
    unchanged. *)
Definition round_ (x : float) (ndigits : nat) : float :=
  match Prim2SF x with
  | S754_finite s m e =>
      let num := Zpos m * 10 ^ Z.of_nat ndigits * 2 ^ Z.max e 0 in
      let den := 2 ^ Z.max (- e) 0 in
      let q := num / den in
      let r := num mod den in
      let n := if 2 * r <? den then q
               else if den <? 2 * r then q + 1
               else if Z.even q then q else q + 1 in
      let y := nearest_decimal n ndigits in
      if s then PrimFloat.opp y else y
  | _ => x
  end.

(** *** Numbers: [bool], [int] and [float] *)

Inductive number :=
| NInt (z : Z)
| NFloat (f : float).

Definition as_number (v : value) : option number :=
  match v with
  | VBool b => Some (NInt (if b then 1 else 0))
  | VInt z => Some (NInt z)
  | VFloat f => Some (NFloat f)
  | _ => None
  end.

(** Exact comparison of an [int] with a finite or infinite [float];
    [None] for NaN, which is unordered. *)
Definition compare_int_float (z : Z) (f : float) : option comparison :=
  match Prim2SF f with
  | S754_nan => None
  | S754_zero _ => Some (Z.compare z 0)
  | S754_infinity s => Some (if s then Gt else Lt)
  | S754_finite s m e =>
      let sm := if s then Zneg m else Zpos m in
      Some (Z.compare (z * 2 ^ Z.max (- e) 0) (sm * 2 ^ Z.max e 0))
  end.

(** [a > b] on numbers: exact, an [int] is not rounded to a [float]. *)
Definition number_gt (a b : number) : bool :=
  match a, b with
  | NInt x, NInt y => Z.gtb x y
  | NFloat x, NFloat y => PrimFloat.ltb y x
  | NInt x, NFloat y =>
      match compare_int_float x y with Some Gt => true | _ => false end
  | NFloat x, NInt y =>
      match compare_int_float y x with Some Lt => true | _ => false end
  end.

(** [a + b] on numbers. *)
Definition number_add (a b : number) : result value :=
  match a, b with
  | NInt x, NInt y => Ok (VInt (x + y))
  | NFloat x, NFloat y => Ok (VFloat (x + y)%float)
  | NInt x, NFloat y =>
      (fx <- float_of_int x ;; Ok (VFloat (fx + y)%float))%py
  | NFloat x, NInt y =>
      (fy <- float_of_int y ;; Ok (VFloat (x + fy)%float))%py
  end.

(** The message of [str + x] and [list + x] for an [x] of another
    type. *)
Definition cannot_concatenate (kind : string) (b : value) : exn :=
  mkExn TypeError
    (lit "can only concatenate " ++ lit kind ++ lit " (not " ++
     [34%N] ++ type_name b ++ [34%N] ++ lit ") to " ++ lit kind).

(** [a + b]: numbers are added, two [str] or two [list] are concatenated,
    anything else is a [TypeError]. *)
Definition add (a b : value) : result value :=
  match as_number a, as_number b with
  | Some x, Some y => number_add x y
  | _, _ =>
      match a, b with
      | VStr s, VStr t => Ok (VStr (s ++ t))
      | VList l, VList m => Ok (VList (l ++ m))
      | VStr _, _ => Raise (cannot_concatenate "str" b)
      | VList _, _ => Raise (cannot_concatenate "list" b)
      | _, _ => Raise (mkExn TypeError
                  (lit "unsupported operand type(s) for +: " ++
                   quoted (type_name a) ++ lit " and " ++ quoted (type_name b)))
      end
  end.

(** Lexicographic [s > t] on strings, by code point. *)
Fixpoint ustr_gtb (s t : ustr) : bool :=
  match s, t with
  | [], _ => false
  | _ :: _, [] => true
  | x :: s', y :: t' =>
      if N.eqb x y then ustr_gtb s' t' else N.ltb y x
  end.

(** [min(l)] and [max(l)]: the first smallest, the first largest. *)
Definition min_ (l : list float) : result float :=
  match l with
  | [] => raise ValueError "min() arg is an empty sequence"
  | x :: t => Ok (fold_left (fun m y => if PrimFloat.ltb y m then y else m) t x)
  end.

Definition max_ (l : list float) : result float :=
  match l with
  | [] => raise ValueError "max() arg is an empty sequence"
  | x :: t => Ok (fold_left (fun m y => if PrimFloat.ltb m y then y else m) t x)
  end.

(** [sorted(l)]: a stable sort by [<]. *)
Fixpoint insert_sorted (x : float) (l : list float) : list float :=
  match l with
  | [] => [x]
  | y :: l' => if PrimFloat.ltb y x then y :: insert_sorted x l' else x :: l
  end.

Definition sorted (l : list float) : list float := fold_right insert_sorted [] l.


(** [statistics.median(data)] *)
Definition median (data : list float) : result float :=
  let data := sorted data in
  let n := List.length data in
  if Nat.eqb n 0 then raise OtherException "no median for empty data"
  else if Nat.eqb (n mod 2) 1 then Ok (nth (n / 2) data PrimFloat.zero)
  else
    let i := (n / 2)%nat in
    Ok ((nth (i - 1) data PrimFloat.zero + nth i data PrimFloat.zero) / 2)%float.

(** *** The part of the runtime that is not modelled

    [json.loads], [json.dumps], [str()] of a float, list or dict, and the
    ordering of two lists are taken as they are: the development holds for
    every implementation of them. *)
Class Runtime := {
  (** [json.loads(s)]; [None] when it raises. *)
  json_loads : ustr -> option value;
  (** [json.dumps(v)] and [json.dumps(v, indent=n)] *)
  json_dumps : option Z -> value -> ustr;
  (** [str(v)] for a [float], a [list] or a [dict]. *)
  repr_other : value -> ustr;
  (** [l > m] for two lists. *)
  list_gt : list value -> list value -> result bool
}.

Section WithRuntime.
Context {rt : Runtime}.

(** [str(v)] *)
Definition str (v : value) : ustr :=
  match v with
  | VNone => lit "None"
  | VBool true => lit "True"
  | VBool false => lit "False"
  | VInt z => str_of_int z
  | VStr s => s
  | VFloat _ | VList _ | VDict _ => repr_other v
  end.

(** [a > b] *)
Definition gt (a b : value) : result bool :=
  match as_number a, as_number b with
  | Some x, Some y => Ok (number_gt x y)
  | _, _ =>
      match a, b with
      | VStr s, VStr t => Ok (ustr_gtb s t)
      | VList l, VList m => list_gt l m
      | _, _ => Raise (mkExn TypeError
                  (lit "'>' not supported between instances of " ++
                   quoted (type_name a) ++ lit " and " ++ quoted (type_name b)))
      end
  end.

End WithRuntime.

End Py.

Import Py.
Local Open Scope py_scope.

(** ** price_calculation.py *)

Module PriceCalculation.
Section WithRuntime.
Context {rt : Runtime}.

(** The character class [[\d\.,]] of [_PRICE_RE]. *)
Definition price_char (c : codepoint) : bool :=
  isdecimal c || N.eqb c DOT || N.eqb c COMMA.

(** [_PRICE_RE.search(s)]: the leftmost match of [[\d\.,]+], which is
    greedy; [None] when no character of the class occurs. *)
Definition _PRICE_RE_search (s : ustr) : option ustr :=
  match takewhile price_char (dropwhile (fun c => negb (price_char c)) s) with
  | [] => None
  | m => Some m
  end.

(** The locale rule applied to the matched run. *)
Definition normalize (num : ustr) : ustr :=
  if contains DOT num && contains COMMA num then
    replace [COMMA] [DOT] (replace [DOT] [] num)
  else if contains COMMA num && negb (contains DOT num) then
    replace [COMMA] [DOT] num
  else num.

(** The four [replace] calls and the second [strip]. *)
Definition strip_tokens (s : ustr) : ustr :=
  let s := replace [EURO] [] s in
  let s := replace [EURO] [] s in
  let s := replace (lit "VB") [] s in
  let s := replace [NBSP] [] s in
  strip s.

Definition _parse_price (price_str : value) : result float :=
  match price_str with
  | VStr s0 =>
      if negb (truthy price_str) then raise ValueError "invalid price"
      else
        let s := strip_tokens (strip s0) in
        match _PRICE_RE_search s with
        | None => raise ValueError "no numeric part"
        | Some num =>
            match float_of_str (normalize num) with
            | Ok f => Ok f
            | Raise _ => raise ValueError "could not parse"
            end
        end
  | _ => raise ValueError "invalid price"
  end.

(** The three accumulators of the loop of [calculate_from_evaluation]. *)
Record collected := mkCollected {
  prices : list float;
  prices_from_matches : list float;
  parsed_count : Z
}.

(** [it.get('price') or it.get('price_str') or ''] *)
Definition price_field (it : dict) : value :=
  or_ (or_ (get it "price") (get it "price_str")) (VStr []).

(** One pass of the loop body.  [it.get] is outside the [try], so an item
    that is not a dict raises; a price that does not parse is skipped. *)
Definition collect (acc : collected) (it : value) : result collected :=
  d <- as_dict it ;;
  match _parse_price (VStr (str (price_field d))) with
  | Ok p =>
      Ok {| prices := prices acc ++ [p];
            parsed_count := parsed_count acc + 1;
            prices_from_matches :=
              if is_True (get d "is_match")
              then prices_from_matches acc ++ [p]
              else prices_from_matches acc |}
  | Raise _ => Ok acc
  end.

Fixpoint collect_all (acc : collected) (items : list value) : result collected :=
  match items with
  | [] => Ok acc
  | it :: rest => acc' <- collect acc it ;; collect_all acc' rest
  end.

(** [{'min': ..., 'max': ..., 'median': ...}] when [ps] is not empty,
    else [None]. *)
Definition price_statistics (ps : list float) : result value :=
  match ps with
  | [] => Ok VNone
  | _ :: _ =>
      lo <- min_ ps ;;
      hi <- max_ ps ;;
      med <- median ps ;;
      Ok (VDict (mkdict [("min", VFloat (round_ lo 2));
                         ("max", VFloat (round_ hi 2));
                         ("median", VFloat (round_ med 2))]))
  end.

Definition calculate_from_evaluation (evaluation_payload : dict) : result dict :=
  let items :=
    or_ (get_default evaluation_payload "individual_results_evaluation" (VList []))
        (VList []) in
  its <- iterate items ;;
  acc <- collect_all (mkCollected [] [] 0) its ;;
  count_listings <- len items ;;
  stats_all <- price_statistics (prices acc) ;;
  stats_matches <- price_statistics (prices_from_matches acc) ;;
  Ok (mkdict [("count_prices_parsed", VInt (parsed_count acc));
              ("count_listings", VInt count_listings);
              ("price_statistics_all", stats_all);
              ("price_statistics_matches", stats_matches)]).

(** The aggregates in closed form, to state what the loop computes. *)

(** The price of a listing, when its price field parses. *)
Definition parsed_price (listing : dict) : option float :=
  match _parse_price (VStr (str (price_field listing))) with
  | Ok p => Some p
  | Raise _ => None
  end.

Definition parses (listing : dict) : bool :=
  match parsed_price listing with Some _ => true | None => false end.

(** The prices of the listings that parse, in order. *)
Definition parsed_prices (listings : list dict) : list float :=
  flat_map (fun d => match parsed_price d with Some p => [p] | None => [] end)
           listings.

(** [it.get('is_match') is True] *)
Definition flagged (listing : dict) : bool := is_True (get listing "is_match").

(** The payload [{"individual_results_evaluation": listings}]. *)
Definition payload_of (listings : list dict) : dict :=
  mkdict [("individual_results_evaluation", VList (map VDict listings))].

End WithRuntime.
End PriceCalculation.

(** ** tools/metrics_tools.py *)

Module MetricsTools.
Section WithRuntime.
Context {rt : Runtime}.

(** The condition of the counting generator: [isinstance(i, dict) and
    (i.get("is_match") is True or i.get("match_status") is True)]. *)
Definition is_positive (i : value) : bool :=
  match i with
  | VDict d => is_True (get d "is_match") || is_True (get d "match_status")
  | _ => false
  end.

(** [pct = round((pos / total * 100), 2) if total > 0 else 0.0] *)
Definition match_percentage (pos total : Z) : float :=
  if total >? 0 then round_ (int_truediv pos total * 100)%float 2
  else PrimFloat.zero.

(** [is_sufficient = (pct >= 50 and pos >= 3)]; comparing a float with
    the small int [50] compares it with the double [50.0]. *)
Definition is_sufficient (pct : float) (pos : Z) : bool :=
  PrimFloat.leb 50 pct && (pos >=? 3).

(** The dict [_run] serialises, from step 2 on: [items] is a non-empty
    list. *)
Definition metrics (items : list value) : dict :=
  let pos := Z.of_nat (List.length (filter is_positive items)) in
  let total := Z.of_nat (List.length items) in
  let pct := match_percentage pos total in
  mkdict [("metric_type", VStr (lit "search_quality"));
          ("count_positive", VInt pos);
          ("count_negative", VInt (total - pos));
          ("match_percentage", VFloat pct);
          ("total_listings", VInt total);
          ("overall_sufficiency",
           VStr (lit (if is_sufficient pct pos
                      then "sufficient" else "not sufficient")))].

Definition error_result (msg : string) : dict := mkdict [("error", VStr (lit msg))].

Definition _run (evaluations : value) : ustr :=
  let parsed :=
    match evaluations with
    | VStr text => json_loads text
    | _ => Some evaluations
    end in
  match parsed with
  | None => json_dumps None (VDict (error_result "Input must be a valid JSON list."))
  | Some (VList (i :: items)) => json_dumps (Some 2) (VDict (metrics (i :: items)))
  | Some _ => json_dumps None (VDict (error_result "Empty dataset provided."))
  end.

End WithRuntime.
End MetricsTools.

(** ** workflow.py

    [run] is a function of what its collaborators answer.  The files it
    writes ([_save], the summary of [_finalize]), [time.sleep] and the
    progress it prints are left out; of the printed lines only the banner
    of each iteration is kept, as the list of attempts of a run. *)

Module Workflow.

(** What a crew's [kickoff] returns: the raw text of every task and the
    raw text of the last one. *)
Record crew_output := mkOutput {
  tasks_output : list ustr;
  raw : ustr
}.

(** The scraped-data file as [run] finds it in one iteration. *)
Inductive file_state :=
| Missing
| Unreadable
| Content (scraped_data : value).

(** The collaborators of [ResellWorkflow]: the three crews of [self.app]
    and the data file the market search writes.  A collaborator is not a
    function of its inputs alone, so those called in the loop take the
    iteration in which they are called as their first argument.  The call
    of [self.market_search.run] itself is left out: its result is only
    printed and its exceptions are swallowed, and what it leaves behind is
    read from [scraper_file]. *)
Record App := mkApp {
  analysis_and_query_crew : dict -> result crew_output;
  query_regeneration_crew : Z -> dict -> result crew_output;
  evaluation_crew : Z -> dict -> result crew_output;
  scraper_file : Z -> file_state;
  scraper_file_path : ustr
}.

Section WithRuntime.
Context {rt : Runtime}.

(** [_parse(raw)] *)
Definition _parse (raw : ustr) : value :=
  let cleaned := replace (lit "```") [] (replace (lit "```json") [] (strip raw)) in
  match json_loads cleaned with
  | Some v => v
  | None => VStr (strip raw)
  end.

(** [_finalize]: the dict it returns.  The artifacts it writes are not part
    of the model. *)
Definition _finalize (success : bool) (iter : value) (best : dict)
    (hist : list value) (img_analysis : value) : dict :=
  mkdict [("success", VBool success);
          ("best_iteration", iter);
          ("item_description",
           match img_analysis with
           | VDict d => get d "description"
           | _ => VNone
           end);
          ("best_result", VDict best);
          ("history", VList hist)].

(** The dict returned when phase 1 fails. *)
Definition failure (error : value) : dict :=
  mkdict [("success", VBool false);
          ("error", error);
          ("item_description", VNone);
          ("best_iteration", VInt 0);
          ("best_result", VDict []);
          ("history", VList [])].

(** The variables of [run] that live across iterations. *)
Record state := mkState {
  history : list value;
  best_res : dict;
  current_query_json : ustr;
  feedback : value;
  all_unique_matches : dict
}.

(** How one pass of the loop body ends: the loop goes on ([continue] or the
    end of the body), or [run] returns. *)
Inductive flow :=
| Next (st : state)
| Return (final : dict).

(** The filter of [current_matches]:
    [item.get("is_match") or item.get("match_status")]. *)
Definition is_current_match (item : dict) : bool :=
  truthy (or_ (get item "is_match") (get item "match_status")).

(** [for m in current_matches: all_unique_matches[str(m.get("id"))] = m] *)
Definition merge (all_unique_matches : dict) (current_matches : list dict) : dict :=
  fold_left (fun acc m => setitem (str (get m "id")) (VDict m) acc)
            current_matches all_unique_matches.

(** The items of [eval_data.get("individual_results_evaluation", [])], each
    of which must have [get]. *)
Definition evaluated_items (eval_data : dict) : result (list dict) :=
  items <- iterate (get_default eval_data "individual_results_evaluation" (VList [])) ;;
  mapM as_dict items.

(** [len([e for e in ... if cond(e)])] *)
Definition count_where (cond : dict -> bool) (eval_data : dict) : result value :=
  items <- evaluated_items eval_data ;;
  Ok (VInt (Z.of_nat (List.length (filter cond items)))).

(** The data file check of step 3: [true] when the evaluation goes ahead.
    A truthy value without [len] makes the [print] raise inside the [try]. *)
Definition data_ready (f : file_state) : bool :=
  match f with
  | Missing | Unreadable => false
  | Content scraped_data =>
      truthy scraped_data &&
      match len scraped_data with Ok _ => true | Raise _ => false end
  end.

Section Run.
Variable app : App.
Variable inputs : dict.

(** The dict [step_res] of one completed iteration. *)
Definition step_result (i : Z) (query : value) (eval_data : dict)
    (count_positive count_negative total_listings match_pct : value)
    (stats : dict) : dict :=
  mkdict [("iteration", VInt i);
          ("query", query);
          ("evaluation", VDict eval_data);
          ("count_positive", count_positive);
          ("count_negative", count_negative);
          ("total_listings", total_listings);
          ("match_percentage", match_pct);
          ("price_statistics", VDict stats)].

(** Steps 4 and 5 of an iteration, after [eval_data] is known to be a
    dict. *)
Definition record_evaluation (img_analysis : value) (i : Z) (query : value)
    (eval_data : dict) (st : state) : result flow :=
  items <- evaluated_items eval_data ;;
  let current_matches := filter is_current_match items in
  let all_unique_matches := merge (all_unique_matches st) current_matches in
  stats <- PriceCalculation.calculate_from_evaluation
             (mkdict [("individual_results_evaluation",
                       VList (values all_unique_matches))]) ;;
  let count_positive := get eval_data "count_positive" in
  let count_negative := get eval_data "count_negative" in
  let total_listings := get eval_data "total_listings" in
  let match_pct := get_default eval_data "match_percentage" (VInt 0) in
  count_positive <-
    (if is_None count_positive
     then count_where (fun e => truthy (get e "is_match")) eval_data
     else Ok count_positive) ;;
  count_negative <-
    (if is_None count_negative
     then count_where (fun e => negb (truthy (get e "is_match"))) eval_data
     else Ok count_negative) ;;
  total_listings <-
    (if is_None total_listings
     then add count_positive count_negative
     else Ok total_listings) ;;
  let step_res :=
    step_result i query eval_data count_positive count_negative
                total_listings match_pct stats in
  let history := history st ++ [VDict step_res] in
  better <- gt match_pct (get_default (best_res st) "match_percentage" (VInt (-1))) ;;
  let best_res := if better then step_res else best_res st in
  if eq_lit (get eval_data "overall_sufficiency") "sufficient" then
    Ok (Return (_finalize true (VInt i) best_res history img_analysis))
  else
    Ok (Next {| history := history;
                best_res := best_res;
                current_query_json := current_query_json st;
                feedback := get_default eval_data "query_improvement_feedback"
                                        (VStr (lit "None"));
                all_unique_matches := all_unique_matches |}).

(** Step 1: for [i > 1] the query is regenerated; [None] when the crew
    raises and the iteration is skipped. *)
Definition refine_query (img_analysis : value) (i : Z) (st : state) : option state :=
  if i >? 1 then
    match query_regeneration_crew app i
            (extend inputs [("iteration", VInt i);
                            ("feedback", feedback st);
                            ("image_analysis", VStr (json_dumps None img_analysis))])
    with
    | Ok res_gen =>
        Some {| history := history st;
                best_res := best_res st;
                current_query_json := raw res_gen;
                feedback := feedback st;
                all_unique_matches := all_unique_matches st |}
    | Raise _ => None
    end
  else Some st.

(** [query_data.get("search_query", str(query_data)) if
    isinstance(query_data, dict) else str(query_data)] *)
Definition query_of (query_data : value) : value :=
  match query_data with
  | VDict d => get_default d "search_query" (VStr (str query_data))
  | _ => VStr (str query_data)
  end.

(** One pass of the body of [for i in range(1, 4)]. *)
Definition iteration (img_analysis : value) (i : Z) (st : state) : result flow :=
  match refine_query img_analysis i st with
  | None => Ok (Next st)
  | Some st =>
      let query := query_of (_parse (current_query_json st)) in
      if negb (data_ready (scraper_file app i)) then Ok (Next st)
      else
        match evaluation_crew app i
                (extend inputs [("image_analysis", VStr (json_dumps None img_analysis));
                                ("search_query", query);
                                ("scraped_data_file", VStr (scraper_file_path app));
                                ("feedback", feedback st)])
        with
        | Raise _ => Ok (Next st)
        | Ok eval_res =>
            let eval_data :=
              match _parse (raw eval_res) with
              | VDict d => d
              | _ => mkdict [("individual_results_evaluation", VList [])]
              end in
            record_evaluation img_analysis i query eval_data st
        end
  end.

(** What a run does: the iterations it entered, in order, and what it
    returned or raised. *)
Record outcome := mkOutcome {
  attempts : list Z;
  returned : result dict
}.

(** The loop over the remaining indices [indices] of [range(1, 4)], and
    the [return] after it. *)
Fixpoint loop (img_analysis : value) (indices : list Z) (st : state) : outcome :=
  match indices with
  | [] =>
      mkOutcome []
        (Ok (_finalize false (get_default (best_res st) "iteration" (VInt 0))
                       (best_res st) (history st) img_analysis))
  | i :: rest =>
      match iteration img_analysis i st with
      | Raise e => mkOutcome [i] (Raise e)
      | Ok (Return final) => mkOutcome [i] (Ok final)
      | Ok (Next st') =>
          let o := loop img_analysis rest st' in
          mkOutcome (i :: attempts o) (returned o)
      end
  end.

(** [range(1, 4)] *)
Definition range_1_4 : list Z := [1; 2; 3].

(** The [try] block of phase 1. *)
Definition analyse : result (crew_output * value) :=
  res_p1 <- analysis_and_query_crew app
              (extend inputs [("iteration", VInt 1);
                              ("image_analysis", VStr (lit "Context"));
                              ("feedback", VStr (lit "None"))]) ;;
  match nth_error (tasks_output res_p1) 0 with
  | Some raw0 => Ok (res_p1, _parse raw0)
  | None => raise IndexError "list index out of range"
  end.

(** [str(e)[:200]] *)
Definition truncated (e : exn) : ustr := firstn 200 (exn_msg e).

Definition initial_state (query_json : ustr) : state :=
  {| history := [];
     best_res := mkdict [("match_percentage", VInt 0)];  (* [initial_best] below *)
     current_query_json := query_json;
     feedback := VStr (lit "None");
     all_unique_matches := [] |}.

(** [img_analysis.get("error")] when [isinstance(img_analysis, dict) and
    "error" in img_analysis]. *)
Definition reported_error (img_analysis : value) : option value :=
  match img_analysis with
  | VDict d => if has_key (lit "error") d then Some (get d "error") else None
  | _ => None
  end.

Definition run : outcome :=
  match analyse with
  | Raise e =>
      mkOutcome []
        (Ok (failure
               (match exn_cls e with
                | RecursionError => VStr (lit "maximum recursion depth exceeded")
                | _ => VStr (truncated e)
                end)))
  | Ok (res_p1, img_analysis) =>
      match reported_error img_analysis with
      | Some error => mkOutcome [] (Ok (failure error))
      | None =>
          match nth_error (tasks_output res_p1) 1 with
          | Some raw1 => loop img_analysis range_1_4 (initial_state raw1)
          | None => mkOutcome [] (raise IndexError "list index out of range")
          end
      end
  end.

End Run.

(** The history read back, to state what a run has recorded. *)

(** A field of a history entry. *)
Definition entry_field (h : value) (k : string) : value :=
  match h with
  | VDict step_res => get step_res k
  | _ => VNone
  end.

Definition iterations (hist : list value) : list value :=
  map (fun h => entry_field h "iteration") hist.

Definition percentages (hist : list value) : list value :=
  map (fun h => entry_field h "match_percentage") hist.

(** The best-result tracker after one more history entry: the entry
    replaces it when its percentage is greater. *)
Definition track (best : dict) (h : value) : dict :=
  match h with
  | VDict step_res =>
      match gt (get_default step_res "match_percentage" (VInt 0))
               (get_default best "match_percentage" (VInt (-1))) with
      | Ok true => step_res
      | _ => best
      end
  | _ => best
  end.

Definition initial_best : dict := mkdict [("match_percentage", VInt 0)].

Definition tracked (hist : list value) : dict := fold_left track hist initial_best.

(** The matches of the evaluation a history entry holds. *)
Definition matches_of (h : value) : list dict :=
  match entry_field h "evaluation" with
  | VDict eval_data =>
      match evaluated_items eval_data with
      | Ok items => filter is_current_match items
      | Raise _ => []
      end
  | _ => []
  end.

(** The accumulator after the evaluations of a history. *)
Definition accumulated (hist : list value) : dict :=
  fold_left (fun acc h => merge acc (matches_of h)) hist [].

(** The listings of an accumulator, in its order. *)
Definition listings_of (acc : dict) : list dict :=
  flat_map (fun v => match v with VDict d => [d] | _ => [] end) (values acc).

(** Every history entry holds the statistics of the accumulator as it was
    after that entry's evaluation. *)
Definition stats_recorded (hist : list value) : Prop :=
  forall k h, nth_error hist k = Some h ->
    exists stats,
      entry_field h "price_statistics" = VDict stats /\
      PriceCalculation.calculate_from_evaluation
        (mkdict [("individual_results_evaluation",
                  VList (values (accumulated (firstn (S k) hist))))])
        = Ok stats.

(** The loop invariant: the tracker and the accumulator are what the
    history gives. *)
Record consistent (st : state) : Prop := mkConsistent {
  tracker_ok : best_res st = tracked (history st);
  accumulator_ok : all_unique_matches st = accumulated (history st);
  statistics_ok : stats_recorded (history st)
}.

(** Two states that differ in the current query only. *)
Definition same_progress (st st' : state) : Prop :=
  history st' = history st /\ best_res st' = best_res st /\
  all_unique_matches st' = all_unique_matches st /\ feedback st' = feedback st.

(** The count an absent metric is replaced by. *)
Definition recount (cond : dict -> bool) (items : list dict) : value :=
  VInt (Z.of_nat (List.length (filter cond items))).

End WithRuntime.

(** [l] is [m] with some elements left out. *)
Inductive subseq {A : Type} : list A -> list A -> Prop :=
| subseq_nil : subseq [] []
| subseq_skip (x : A) (l m : list A) : subseq l m -> subseq l (x :: m)
| subseq_take (x : A) (l m : list A) : subseq l m -> subseq (x :: l) (x :: m).

(** [l] is a beginning of [m]. *)
Definition prefix {A : Type} (l m : list A) : Prop := exists rest, m = l ++ rest.

(** The history and the tracker as one pass of the loop body leaves
    them. *)
Definition history_after (fl : flow) : list value :=
  match fl with
  | Next st => history st
  | Return final => match get final "history" with VList h => h | _ => [] end
  end.


Definition returns (fl : flow) : bool :=
  match fl with Next _ => false | Return _ => true end.

(** A percentage that is the integer [z], as an [int] or as a [float]. *)
Definition float_of_Z (z : Z) : float := SF2Prim (binary_normalize prec emax z 0 false).
Definition is_percent (z : Z) (v : value) : Prop :=
  v = VInt z \/ v = VFloat (float_of_Z z).

Section WithRuntime.
Context {rt : Runtime}.

(** What the loop returns when it starts with the history [old], makes
    the attempts [attempted] and appends the entries [new]: the new entries
    belong to attempts that found data, in order, and either all of
    [indices] were
    attempted and the result is the one of exhaustion, or the last attempt
    [i] completed and was sufficient. *)
Definition loop_result (app : App) (img_analysis : value)
    (indices attempted : list Z) (old new : list value) (final : dict) : Prop :=
  exists js,
    iterations new = map VInt js /\ subseq js attempted /\
    Forall (fun j => data_ready (scraper_file app j) = true) js /\
    stats_recorded (old ++ new) /\
    ((attempted = indices /\
      final = _finalize false
                (get_default (tracked (old ++ new)) "iteration" (VInt 0))
                (tracked (old ++ new)) (old ++ new) img_analysis) \/
     (exists i js' before,
        js = js' ++ [i] /\ attempted = before ++ [i] /\
        final = _finalize true (VInt i) (tracked (old ++ new)) (old ++ new)
                          img_analysis)).

End WithRuntime.

(** Every value of the dict is a dict. *)
Definition holds_dicts (d : dict) : Prop :=
  Forall (fun v => exists m, v = VDict m) (values d).

(** The reading of the accumulator in which every accumulated listing
    counts as a match for the statistics: the entry [k] of the history
    would hold, as [price_statistics_matches], the statistics of every
    accumulated listing whose price parses. *)
Definition matches_cover_accumulator : Prop :=
  forall (rt : Runtime) (app : App) (inputs final : dict)
         (hist : list value) (k : nat) (h : value) (stats : dict),
    returned (run app inputs) = Ok final ->
    get final "history" = VList hist ->
    nth_error hist k = Some h ->
    entry_field h "price_statistics" = VDict stats ->
    PriceCalculation.price_statistics
      (PriceCalculation.parsed_prices
         (listings_of (accumulated (firstn (S k) hist))))
    = Ok (get stats "price_statistics_matches").

(** The reading of step 6 in which every absent metric is recomputed from
    the [is_match] flags: an absent percentage would be recorded as the
    percentage of the listings whose flag is true, and an absent verdict
    would stop the loop exactly when that percentage and count are
    sufficient. *)
Definition absent_metrics_recomputed : Prop :=
  forall (rt : Runtime) (img : value) (i : Z) (query : value)
         (eval_data : dict) (st : state) (fl : flow) (items : list dict),
    record_evaluation img i query eval_data st = Ok fl ->
    evaluated_items eval_data = Ok items ->
    let pos := Z.of_nat (List.length
                 (filter (fun e => truthy (get e "is_match")) items)) in
    let total := Z.of_nat (List.length items) in
    (lookup (lit "match_percentage") eval_data = None ->
     exists h,
       history_after fl = history st ++ [h] /\
       entry_field h "match_percentage" =
         VFloat (MetricsTools.match_percentage pos total)) /\
    (lookup (lit "overall_sufficiency") eval_data = None ->
     returns fl =
       MetricsTools.is_sufficient (MetricsTools.match_percentage pos total) pos).

End Workflow.

(** ** Concrete inputs for the closed examples *)

Module Fixtures.
Import Workflow.

Definition QUOTE : codepoint := 34%N.

Fixpoint join (sep : ustr) (parts : list ustr) : ustr :=
  match parts with
  | [] => []
  | [p] => p
  | p :: rest => p ++ sep ++ join sep rest
  end.

(** A JSON text of a value without floats whose strings need no
    escapes. *)
Fixpoint json_text (v : value) : ustr :=
  match v with
  | VNone => lit "null"
  | VBool true => lit "true"
  | VBool false => lit "false"
  | VInt z => str_of_int z
  | VFloat _ => lit "NaN"
  | VStr s => [QUOTE] ++ s ++ [QUOTE]
  | VList l => lit "[" ++ join (lit ", ") (map json_text l) ++ lit "]"
  | VDict d =>
      lit "{" ++
      join (lit ", ")
           (map (fun kv : ustr * value => let (k, x) := kv in
                           [QUOTE] ++ k ++ [QUOTE] ++ lit ": " ++ json_text x) d)
      ++ lit "}"
  end.

(** A runtime whose [json.loads] knows the JSON texts of the values
    [known] and raises on any other text. *)
Definition table_runtime (known : list value) : Runtime :=
  {| json_loads := fun text => lookup text (map (fun v => (json_text v, v)) known);
     json_dumps := fun _ v => json_text v;
     repr_other := json_text;
     list_gt := fun _ _ => raise TypeError "not comparable" |}.

Definition euro (amount : string) : value := VStr (lit amount ++ lit " " ++ [EURO]).

(** The three listings of the statistics example. *)
Definition three_listings : list dict :=
  [ mkdict [("price", euro "120"); ("is_match", VBool true)];
    mkdict [("price", VStr (lit "xyz")); ("is_match", VBool false)];
    mkdict [("price", euro "1.234,56"); ("is_match", VBool true)] ].

(** Eight evaluated items of which five are matches. *)
Definition five_of_eight : list value :=
  repeat (VDict (mkdict [("is_match", VBool true)])) 5%nat ++
  repeat (VDict (mkdict [("is_match", VBool false)])) 3%nat.

(** A product profile and a query, as the analysis crew writes them. *)
Definition profile : value := VDict (mkdict [("description", VStr (lit "bike"))]).
Definition query : value := VDict (mkdict [("search_query", VStr (lit "bike"))]).

(** An application whose crews answer with the JSON text of given values:
    the analysis with [img_analysis] and [query], the evaluation of
    iteration [i] with [evals i], and whose data file is [files i]. *)
Definition scripted (img_analysis : value) (evals : Z -> result value)
    (files : Z -> file_state) : App :=
  {| analysis_and_query_crew := fun _ =>
       Ok (mkOutput [json_text img_analysis; json_text query] (json_text query));
     query_regeneration_crew := fun _ _ =>
       Ok (mkOutput [json_text query] (json_text query));
     evaluation_crew := fun i _ =>
       match evals i with
       | Ok v => Ok (mkOutput [json_text v] (json_text v))
       | Raise e => Raise e
       end;
     scraper_file := files;
     scraper_file_path := lit "kleinanzeigen_items.json" |}.

Definition crew_down : exn := mkExn OtherException (lit "crew failed").

Definition data_found : Z -> file_state :=
  fun _ => Content (VList [VDict (mkdict [("id", VStr (lit "a"))])]).
Definition no_data : Z -> file_state := fun _ => Missing.

(** An evaluation that reports a percentage and nothing else. *)
Definition percent (n : Z) : value := VDict (mkdict [("match_percentage", VInt n)]).

(** Evaluations by iteration: [a] in the first, [b] in the second, [c] in
    the third; [None] for a crew that raises. *)
Definition by_iteration (a b c : option value) (i : Z) : result value :=
  match (if i =? 1 then a else if i =? 2 then b else c) with
  | Some v => Ok v
  | None => Raise crew_down
  end.

(** Percentages 40, 40, 55. *)
Definition evals_40_40_55 := by_iteration (Some (percent 40)) (Some (percent 40)) (Some (percent 55)).
(** A percentage of 0, an evaluation without a percentage, and a third
    attempt that fails. *)
Definition evals_zero := by_iteration (Some (percent 0)) (Some (VDict [])) None.

(** An evaluation of four matching listings that reports no metrics. *)
Definition listing (id price : string) (flag : string) : value :=
  VDict (mkdict [("id", VStr (lit id)); ("price", euro price); (flag, VBool true)]).
Definition four_matches : dict :=
  mkdict [("individual_results_evaluation",
           VList [listing "a" "100" "is_match"; listing "b" "110" "is_match";
                  listing "c" "120" "is_match"; listing "d" "130" "is_match"])].

(** The same evaluation with a reported percentage. *)
Definition four_matches_100 : dict :=
  four_matches ++ mkdict [("match_percentage", VInt 100)].

(** An evaluation whose only listing is a match through [match_status]. *)
Definition match_by_status : dict :=
  mkdict [("individual_results_evaluation", VList [listing "a" "120" "match_status"])].


(** An image analysis that reports an error of 201 characters. *)
Definition long_message : ustr := repeat 120%N 201%nat.
Definition image_error : value := VDict (mkdict [("error", VStr long_message)]).

(** An image analysis in the shape the vision tool reports an error. *)
Definition status_error : value :=
  VDict (mkdict [("status", VStr (lit "ERROR"));
                 ("reason", VStr (lit "No accessible images found"))]).

Definition known : list value :=
  [profile; query; image_error; status_error; percent 0; percent 40; percent 55;
   percent 60; VDict []; VDict four_matches; VDict match_by_status].

#[local] Instance runtime : Runtime := table_runtime known.

End Fixtures.

(** ** The price format in closed form

    What [_parse_price] makes of the run the regex matched, stated on the
    run itself: its digits, its decimal separator and the digits behind
    it. *)

Module PriceFormat.
Import PriceCalculation.

(** The decimal separator of a run: the comma when the run has one, else
    the dot. *)
Definition separator (num : ustr) : codepoint :=
  if contains COMMA num then COMMA else DOT.

Definition occurrences (c : codepoint) (s : ustr) : nat :=
  List.length (filter (N.eqb c) s).

Definition digits (s : ustr) : ustr := filter isdecimal s.

(** The digits behind the first separator. *)
Definition decimals (num : ustr) : ustr :=
  digits (tl (dropwhile (fun c => negb (N.eqb c (separator num))) num)).

(** The number a string of decimal digits writes. *)
Definition number_of (ds : ustr) : Z :=
  match digits_value 0 ds with Some m => m | None => 0 end.

(** At most one separator and at least one digit. *)
Definition well_formed (num : ustr) : bool :=
  (occurrences (separator num) num <=? 1)%nat &&
  match digits num with [] => false | _ :: _ => true end.

Definition price_of_run (num : ustr) : result float :=
  if well_formed num
  then Ok (nearest_decimal (number_of (digits num)) (List.length (decimals num)))
  else raise ValueError "could not parse".



End PriceFormat.

(** ** The half rule of the sufficiency verdict, checked by enumeration *)

Module HalfRule.

(** For [pos] matches of [total] items the rounded percentage reaches 50
    exactly when the matches are at least half. *)
Definition holds (total pos : nat) : bool :=
  Bool.eqb
    (PrimFloat.leb 50 (MetricsTools.match_percentage (Z.of_nat pos) (Z.of_nat total)))
    (total <=? 2 * pos)%nat.

Definition holds_upto (n : nat) : bool :=
  forallb (fun total => forallb (holds total) (seq 0 (S total))) (seq 1 n).

End HalfRule.

(** ** The history read back, continued *)

Module History.
Import Workflow.

(** A [bool], an [int] or a [float]. *)
Definition numeric (v : value) : bool :=
  match as_number v with Some _ => true | None => false end.

(** The verdict of the evaluation a history entry holds. *)
Definition reports_sufficient (h : value) : bool :=
  match entry_field h "evaluation" with
  | VDict eval_data => eq_lit (get eval_data "overall_sufficiency") "sufficient"
  | _ => false
  end.

(** An entry the loop went on after. *)
Definition passed (h : value) : Prop :=
  numeric (entry_field h "match_percentage") = true /\
  reports_sufficient h = false.

(** [count_listings] of the statistics a history entry holds. *)
Definition count_listings_of (h : value) : value :=
  match entry_field h "price_statistics" with
  | VDict stats => get stats "count_listings"
  | _ => VNone
  end.

(** The statistics [calculate_from_evaluation] returns: [None] or the
    three rounded numbers. *)
Definition statistics_shape (v : value) : Prop :=
  v = VNone \/
  exists lo hi med,
    v = VDict (mkdict [("min", VFloat lo); ("max", VFloat hi);
                       ("median", VFloat med)]).


Definition is_float (v : value) : bool :=
  match v with VFloat _ => true | _ => false end.

Definition is_int (v : value) : bool :=
  match v with VInt _ => true | _ => false end.

(** Percentages of one kind: all floats, as the sufficiency tool reports
    them, or all ints. *)
Definition one_kind (vs : list value) : Prop :=
  forallb is_float vs = true \/ forallb is_int vs = true.

(** The percentage the tracker is compared by. *)
Definition tracked_percentage (best : dict) : value :=
  get_default best "match_percentage" (VInt (-1)).

End History.

(** ** workflow.py: the summary [_finalize] writes

    [item_price], the dict saved as [item_price.json].  [best] is a dict, so
    [(best or {})] has [get] and gives what [best] gives. *)

Module Summary.

Definition item_price (best : dict) (img_analysis : value) : result dict :=
  let item_name :=
    match img_analysis with
    | VDict d => or_ (or_ (get d "item_name") (get d "name")) (get d "title")
    | _ => VNone
    end in
  let condition :=
    match img_analysis with
    | VDict d => get d "condition"
    | _ => VNone
    end in
  let description :=
    match img_analysis with
    | VDict d => or_ (get d "description") (get d "item_description")
    | _ => VNone
    end in
  price_stats <- as_dict (or_ (get best "price_statistics") (VDict [])) ;;
  stats_src <- as_dict (or_ (or_ (get price_stats "price_statistics_matches")
                                 (get price_stats "price_statistics_all"))
                            (VDict [])) ;;
  let min_v := get stats_src "min" in
  let max_v := get stats_src "max" in
  let median := get stats_src "median" in
  let range_v :=
    if negb (is_None min_v) && negb (is_None max_v)
    then VList [min_v; max_v] else VList [] in
  Ok (mkdict [("item_name", item_name);
              ("condition", condition);
              ("description", description);
              ("range", range_v);
              ("median", median)]).

End Summary.

(** ** The calculator's inputs and outputs read back *)

Module Calculator.

Definition is_dict (v : value) : bool :=
  match v with VDict _ => true | _ => false end.

(** What the calculator returns when there is nothing to count. *)
Definition nothing_counted : dict :=
  mkdict [("count_prices_parsed", VInt 0);
          ("count_listings", VInt 0);
          ("price_statistics_all", VNone);
          ("price_statistics_matches", VNone)].

End Calculator.

(** ** Further concrete inputs *)

Module Samples.
Import Workflow Fixtures.

(** An evaluation that reports a sufficient verdict. *)
Definition sufficient_75 : value :=
  VDict (mkdict [("match_percentage", VInt 75);
                 ("overall_sufficiency", VStr (lit "sufficient"))]).


(** An evaluation of three listings, two of them flagged, that reports no
    counts. *)
Definition two_of_three : dict :=
  mkdict [("individual_results_evaluation",
           VList [listing "a" "100" "is_match"; listing "b" "110" "is_match";
                  VDict (mkdict [("id", VStr (lit "c")); ("price", euro "500");
                                 ("is_match", VBool false)])])].

(** An evaluation at 60 percent with a sufficient verdict. *)
Definition sufficient_60 : value :=
  VDict (mkdict [("match_percentage", VInt 60);
                 ("overall_sufficiency", VStr (lit "sufficient"))]).

(** Two matching listings in one evaluation, a third one in the next. *)
Definition first_two : dict :=
  mkdict [("individual_results_evaluation",
           VList [listing "a" "100" "is_match"; listing "b" "110" "is_match"]);
          ("match_percentage", VInt 40)].

Definition then_one : dict :=
  mkdict [("individual_results_evaluation",
           VList [listing "c" "120" "is_match"]);
          ("match_percentage", VInt 40)].

Definition known : list value :=
  [profile; query; sufficient_75; percent 40; VDict four_matches_100;
   VDict match_by_status; percent 60; sufficient_60; VDict first_two;
   VDict then_one].

Definition runtime : Runtime := table_runtime known.

(** A sufficient verdict in the first iteration. *)
Definition evals_sufficient_first :=
  by_iteration (Some sufficient_75) (Some (percent 40)) (Some (percent 40)).


(** Two matches, then one more, then a crew that fails. *)
Definition evals_two_then_one :=
  by_iteration (Some (VDict first_two)) (Some (VDict then_one)) None.

(** Four matches at 100 percent, then one match already known, then a
    crew that fails. *)
Definition evals_four_then_one :=
  by_iteration (Some (VDict four_matches_100)) (Some (VDict match_by_status)) None.

(** An application whose analysis crew raises, and one whose analysis crew
    returns the output of one task only. *)
Definition analysis_down : App :=
  {| analysis_and_query_crew := fun _ => Raise crew_down;
     query_regeneration_crew := fun _ _ => Raise crew_down;
     evaluation_crew := fun _ _ => Raise crew_down;
     scraper_file := no_data;
     scraper_file_path := lit "kleinanzeigen_items.json" |}.

Definition analysis_only : App :=
  {| analysis_and_query_crew := fun _ =>
       Ok (mkOutput [json_text profile] (json_text profile));
     query_regeneration_crew := fun _ _ => Raise crew_down;
     evaluation_crew := fun _ _ => Raise crew_down;
     scraper_file := no_data;
     scraper_file_path := lit "kleinanzeigen_items.json" |}.

End Samples.

(** ** More of Python's [str] *)

Module Text.

Definition BACKTICK : codepoint := 96%N.
Definition DASH : codepoint := 45%N.
Definition SLASH : codepoint := 47%N.

(** [p in s] for two strings. *)
Fixpoint is_infix (p s : ustr) : bool :=
  match s with
  | [] => is_prefix p []
  | _ :: s' => is_prefix p s || is_infix p s'
  end.

(** [s.split(sep)] for a one-character [sep]: never an empty list. *)
Fixpoint split (sep : codepoint) (s : ustr) : list ustr :=
  match s with
  | [] => [[]]
  | c :: s' =>
      if N.eqb c sep then [] :: split sep s'
      else match split sep s' with
           | p :: ps => (c :: p) :: ps
           | [] => [[c]]
           end
  end.

(** [s.split(sep)[-1]] *)
Definition last_field (sep : codepoint) (s : ustr) : ustr := last (split sep s) [].

End Text.

(** ** tools/vision_tool.py

    [QwenVisionTool._run] as a function of what its collaborators answer.
    The tool may call itself once more; a collaborator takes the depth of
    the call it serves as its first argument. *)

Module VisionTool.
Import Text.

Record Vision := mkVision {
  (** The body of the [try] of step 4 for one element of [image_urls]: the
      data URI appended to [content], [None] when nothing is appended (no
      file, no response, an exception). *)
  load_image : nat -> value -> option ustr;
  (** The chat completion of step 5 on the loaded images: the content of
      the first choice, or the exception raised on the way. *)
  chat : nat -> list ustr -> result ustr
}.

(** What a call did: the image lists sent to the model, in order, and the
    string returned. *)
Record answer := mkAnswer {
  requests : list (list ustr);
  output : ustr
}.

Section WithRuntime.
Context {rt : Runtime}.
Variable vision : Vision.

(** [json.dumps({"status": "ERROR", "reason": reason})] *)
Definition error_json (reason : ustr) : ustr :=
  json_dumps None (VDict (mkdict [("status", VStr (lit "ERROR"));
                                  ("reason", VStr reason)])).

(** Step 1: a string is decoded as JSON, else split at its commas. *)
Definition sanitize (image_urls : value) : value :=
  match image_urls with
  | VStr s =>
      match json_loads s with
      | Some v => v
      | None =>
          VList (map VStr (filter (fun u => truthy (VStr u))
                                  (map strip (split COMMA s))))
      end
  | _ => image_urls
  end.

(** The images of step 4, in the order of [image_urls]. *)
Definition loaded (depth : nat) (image_urls : list value) : list ustr :=
  flat_map (fun url => match load_image vision depth url with
                       | Some image => [image]
                       | None => []
                       end) image_urls.

(** The body of [_run(image_urls)], with [self._run] as [again]. *)
Definition call (again : value -> option answer) (depth : nat)
    (image_urls : value) : option answer :=
  match sanitize image_urls with
  | VList [] =>
      Some (mkAnswer [] (error_json (lit "No image URLs provided")))
  | VList urls =>
      let image_urls := firstn 4 urls in
      match loaded depth image_urls with
      | [] => Some (mkAnswer [] (error_json (lit "No accessible images found")))
      | images =>
          match chat vision depth images with
          | Raise e =>
              Some (mkAnswer [images] (error_json (firstn 200 (exn_msg e))))
          | Ok text =>
              let result :=
                strip (replace (lit "```") [] (replace (lit "```json") [] text)) in
              let invalid :=
                error_json (lit "Invalid JSON response from model: "
                            ++ firstn 100 result) in
              match json_loads result with
              | Some (VDict result_json) =>
                  if eq_lit (get result_json "status") "ERROR" &&
                     (1 <? List.length image_urls)%nat
                  then
                    match again (VList [hd VNone image_urls]) with
                    | Some retried =>
                        Some (mkAnswer (images :: requests retried)
                                       (output retried))
                    | None => None
                    end
                  else Some (mkAnswer [images] result)
              | _ => Some (mkAnswer [images] invalid)
              end
          end
      end
  | _ => Some (mkAnswer [] (error_json (lit "image_urls must be a list")))
  end.

(** [_run(image_urls)]; [None] when [fuel] nested calls do not suffice. *)
Fixpoint _run (fuel depth : nat) (image_urls : value) : option answer :=
  match fuel with
  | O => None
  | S fuel' => call (_run fuel' (S depth)) depth image_urls
  end.

End WithRuntime.
End VisionTool.

(** ** market_search.py

    Steps 2 to 4 of [MarketSearch._run] as a function of what the site
    answers.  [item_links] is a set; it is kept as the list of its elements
    in the order they were added. *)

Module MarketSearch.
Import Text.

Definition BASE_URL : ustr := lit "https://www.kleinanzeigen.de".
Definition max_pages : Z := 10.

(** A listing page: the status code, the texts of [#viewad-title],
    [#viewad-price] and [#viewad-description-text] ([None] without the
    element) and the elements of [set(imgs)] as the loop visits them. *)
Record listing_page := mkListing {
  status_code : Z;
  title : option ustr;
  price : option ustr;
  description : option ustr;
  images : list ustr
}.

Record Site := mkSite {
  (** For a search URL: the status code and, for every [article.aditem],
      the [href] of its main link ([None] without such a link); or the
      exception raised on the way. *)
  search_page : ustr -> result (Z * list (option ustr));
  (** For the URL of a listing: its page, or the exception raised. *)
  listing : ustr -> result listing_page
}.

Section WithSite.
Variable site : Site.

Definition search_url (search_query : ustr) (page : Z) : ustr :=
  BASE_URL ++ lit "/s-" ++ replace (lit " ") (lit "-") search_query
           ++ lit "/k0?page=" ++ str_of_int page.

(** [item_links.add(full_link)] *)
Definition add (x : ustr) (s : list ustr) : list ustr :=
  if existsb (ustr_eqb x) s then s else s ++ [x].

(** The loop over the articles of one page; it breaks when the target is
    reached. *)
Fixpoint scan (min_items : Z) (articles : list (option ustr))
    (item_links : list ustr) : list ustr :=
  match articles with
  | [] => item_links
  | art :: rest =>
      match art with
      | Some href =>
          if truthy (VStr href) then
            let full_link := BASE_URL ++ href in
            if is_infix (lit "/s-anzeige/") full_link then
              let item_links := add full_link item_links in
              if Z.of_nat (List.length item_links) >=? min_items then item_links
              else scan min_items rest item_links
            else scan min_items rest item_links
          else scan min_items rest item_links
      | None => scan min_items rest item_links
      end
  end.

(** The links collected and the search URLs requested, in order. *)
Record crawl := mkCrawl {
  item_links : list ustr;
  requested : list ustr
}.

(** The [while] loop of step 3; [None] when [fuel] passes do not
    suffice. *)
Fixpoint paginate (fuel : nat) (search_query : ustr) (min_items page : Z)
    (c : crawl) : option crawl :=
  if (Z.of_nat (List.length (item_links c)) <? min_items) && (page <=? max_pages)
  then
    match fuel with
    | O => None
    | S fuel' =>
        let url := search_url search_query page in
        let c := mkCrawl (item_links c) (requested c ++ [url]) in
        match search_page site url with
        | Raise _ => Some c
        | Ok (status, articles) =>
            if negb (status =? 200) then Some c
            else
              match articles with
              | [] => Some c
              | _ :: _ =>
                  let links := scan min_items articles (item_links c) in
                  let c := mkCrawl links (requested c) in
                  if Z.of_nat (List.length links) >=? min_items then Some c
                  else paginate fuel' search_query min_items (page + 1) c
              end
        end
    end
  else Some c.

(** A link the scraper keeps, and the state of the crawl between two
    pages. *)
Definition kept (link : ustr) : Prop :=
  is_infix (lit "/s-anzeige/") link = true /\ is_prefix BASE_URL link = true.

Definition sound (min_items : Z) (c : crawl) : Prop :=
  Z.of_nat (List.length (item_links c)) <= min_items /\
  NoDup (item_links c) /\ Forall kept (item_links c).

(** Steps 2 and 3: [min_items = max(5, min_items)], then the pages from
    the first on. *)
Definition collect_links (fuel : nat) (search_query : ustr) (min_items : Z)
    : option crawl :=
  paginate fuel search_query (Z.max 5 min_items) 1 (mkCrawl [] []).

(** [link.split('/')[-1].split('-')[-1] if '-' in link else f"item_{i}"] *)
Definition item_id (link : ustr) (i : Z) : ustr :=
  if contains DASH link then last_field DASH (last_field SLASH link)
  else lit "item_" ++ str_of_int i.

(** [url.replace("$_35.JPG", "$_59.JPG").replace("$_57.JPG", "$_59.JPG")] *)
Definition hq_url (url : ustr) : ustr :=
  replace (lit "$_57.JPG") (lit "$_59.JPG")
          (replace (lit "$_35.JPG") (lit "$_59.JPG") url).

(** One pass of the loop of step 4: the dict appended to [dataset],
    [None] when the listing is skipped. *)
Definition extract (i : Z) (link : ustr) : option dict :=
  match listing site link with
  | Raise _ => None
  | Ok page =>
      if negb (status_code page =? 200) then None
      else
        match title page with
        | None => None
        | Some title_text =>
            Some (mkdict
              [("id", VStr (item_id link i));
               ("title", VStr (strip title_text));
               ("price", VStr (match price page with
                               | Some p => strip p
                               | None => lit "N/A"
                               end));
               ("description", VStr (match description page with
                                     | Some d => strip d
                                     | None => []
                                     end));
               ("url", VStr link);
               ("local_images", VList []);
               ("remote_images",
                VList (map (fun url => VStr (hq_url url))
                           (filter (fun url => truthy (VStr url)) (images page))))])
        end
  end.

(** [for i, link in enumerate(target_links)] from the index [i] on. *)
Fixpoint extract_all (i : Z) (target_links : list ustr) : list dict :=
  match target_links with
  | [] => []
  | link :: rest =>
      match extract i link with
      | Some item => item :: extract_all (i + 1) rest
      | None => extract_all (i + 1) rest
      end
  end.

(** [dataset] for [target_links = list(item_links)[:min_items]], where
    [links] is [list(item_links)]: the elements of the set in the order
    Python lists them. *)
Definition dataset (min_items : Z) (links : list ustr) : list dict :=
  extract_all 0 (firstn (Z.to_nat (Z.max 5 min_items)) links).

End WithSite.
End MarketSearch.

(** ** Where the scraped data lives

    The three places that name the data file, with [pathlib] paths as
    lists of components. *)

Module Paths.

Definition path := list ustr.

(** [p.parent] *)
Definition parent (p : path) : path := removelast p.

(** [p / name] *)
Definition joinpath (p : path) (name : string) : path := p ++ [lit name].

(** [MarketSearch._run]: the file the scraper writes, for the module file
    [file] and the field [output_folder]. *)
Definition written_by_scraper (file : path) (output_folder : string) : path :=
  joinpath (joinpath (parent (parent (parent file))) output_folder)
           "kleinanzeigen_items.json".

(** [ResellWorkflow.__init__]: [self.scraper_file]. *)
Definition read_by_workflow (file : path) : path :=
  joinpath (joinpath (parent (parent (parent file))) "Kleinanzeigen_Data")
           "kleinanzeigen_items.json".

(** [UTF8FileReadTool._run] without a [file_path]. *)
Definition read_by_tool (file : path) : path :=
  joinpath (joinpath (parent (parent (parent (parent file)))) "Kleinanzeigen_Data")
           "kleinanzeigen_items.json".

End Paths.

(** ** Concrete collaborators for the tools *)

Module ToolSamples.
Import Fixtures.

(** A loader that finds every URL given as a string, and a model that
    reports an error whatever it is shown. *)
Definition strict_vision : VisionTool.Vision :=
  {| VisionTool.load_image :=
       fun _ url => match url with VStr s => Some s | _ => None end;
     VisionTool.chat := fun _ _ => Ok (json_text status_error) |}.

Definition two_urls : value :=
  VList [VStr (lit "http://a"); VStr (lit "http://b")].

Definition bike_link : ustr :=
  lit "https://www.kleinanzeigen.de/s-anzeige/rad/123-45-678".

(** A site with one page of results for the query "bike": a listing, an
    article without a link and a category page. *)
Definition small_site : MarketSearch.Site :=
  {| MarketSearch.search_page := fun url =>
       if ustr_eqb url (MarketSearch.search_url (lit "bike") 1)
       then Ok (200, [Some (lit "/s-anzeige/rad/123-45-678"); None;
                      Some (lit "/s-kategorie/rad")])
       else Ok (404, []);
     MarketSearch.listing := fun _ =>
       Ok (MarketSearch.mkListing 200 (Some (lit " Rad ")) (Some (lit "120"))
                                  None []) |}.

End ToolSamples.

(** * Properties *)

(** ** Strings and dicts *)

Lemma ustr_eqb_eq (a b : ustr) : ustr_eqb a b = true <-> a = b.
Proof.
  revert b; induction a as [|x a IH]; intros [|y b]; simpl;
    try (split; [discriminate | discriminate]); try tauto.
  rewrite andb_true_iff, N.eqb_eq, IH.
  split; [intros [-> ->]; reflexivity | intros H; inversion H; auto].
Qed.

Lemma ustr_eqb_refl (a : ustr) : ustr_eqb a a = true.
Proof. apply ustr_eqb_eq; reflexivity. Qed.


Lemma get_mkdict_head (k : string) (v default : value)
    (kvs : list (string * value)) :
  get_default (mkdict ((k, v) :: kvs)) k default = v.
Proof.
  unfold get_default, mkdict; simpl. rewrite ustr_eqb_refl. reflexivity.
Qed.



Lemma takewhile_dropwhile {A} (p : A -> bool) (l : list A) :
  takewhile p l ++ dropwhile p l = l.
Proof.
  induction l as [|x l IH]; simpl; [reflexivity|].
  destruct (p x); simpl; [f_equal; exact IH | reflexivity].
Qed.

Lemma takewhile_all {A} (p : A -> bool) (l : list A) :
  forallb p (takewhile p l) = true.
Proof.
  induction l as [|x l IH]; simpl; [reflexivity|].
  destruct (p x) eqn:E; simpl; [rewrite E; exact IH | reflexivity].
Qed.

Lemma dropwhile_head {A} (p : A -> bool) (l : list A) (x : A) (t : list A) :
  dropwhile p l = x :: t -> p x = false.
Proof.
  induction l as [|y l IH]; simpl; [discriminate|].
  destruct (p y) eqn:E; [exact IH | intros H; inversion H; subst; exact E].
Qed.

(** ** The price parser *)

Section PriceParser.
Context {rt : Runtime}.
Import PriceCalculation.

(** [_PRICE_RE.search] returns the leftmost maximal run of the class: no
    character before it is in the class, every character of it is, and
    the character after it, if any, is not. *)
Lemma search_leftmost_run (s m : ustr) :
  _PRICE_RE_search s = Some m ->
  exists pre post,
    s = pre ++ m ++ post /\
    forallb (fun c => negb (price_char c)) pre = true /\
    forallb price_char m = true /\ m <> [] /\
    match post with [] => True | c :: _ => price_char c = false end.
Proof.
  unfold _PRICE_RE_search.
  set (np := fun c => negb (price_char c)).
  destruct (takewhile price_char (dropwhile np s)) as [|x t] eqn:E;
    [discriminate|].
  intros H; inversion H; subst m; clear H.
  exists (takewhile np s), (dropwhile price_char (dropwhile np s)).
  repeat split.
  - rewrite <- E, takewhile_dropwhile, takewhile_dropwhile; reflexivity.
  - apply takewhile_all.
  - rewrite <- E; apply takewhile_all.
  - discriminate.
  - destruct (dropwhile price_char (dropwhile np s)) as [|c r] eqn:D; [exact I|].
    eapply dropwhile_head; exact D.
Qed.

(** No match exactly when no character of the string is in the class. *)
Lemma search_none (s : ustr) :
  _PRICE_RE_search s = None <-> existsb price_char s = false.
Proof.
  unfold _PRICE_RE_search.
  induction s as [|x s IH]; simpl; [tauto|].
  destruct (price_char x) eqn:E; simpl.
  - rewrite E. split; discriminate.
  - exact IH.
Qed.


(** The parser on a non-empty string, step by step: strip, remove the
    tokens, strip, search, apply the locale rule, convert. *)
Lemma parse_price_steps (c : codepoint) (s : ustr) :
  _parse_price (VStr (c :: s)) =
    match _PRICE_RE_search (strip_tokens (strip (c :: s))) with
    | None => raise ValueError "no numeric part"
    | Some num =>
        match float_of_str (normalize num) with
        | Ok f => Ok f
        | Raise _ => raise ValueError "could not parse"
        end
    end.
Proof. reflexivity. Qed.

(** The literals of the docstring that the parser handles, and the
    inputs it rejects. *)
Lemma parse_price_literals :
  _parse_price (VStr (lit "120 " ++ [EURO])) = Ok 120%float /\
  _parse_price (VStr (lit "199 " ++ [EURO] ++ lit " VB")) = Ok 199%float /\
  _parse_price (VStr (lit "1.234,56 " ++ [EURO])) = Ok 1234.56%float /\
  _parse_price (VStr (lit "1234")) = Ok 1234%float /\
  _parse_price (VStr (lit "")) = raise ValueError "invalid price" /\
  _parse_price VNone = raise ValueError "invalid price" /\
  _parse_price (VStr (lit "abc")) = raise ValueError "no numeric part".
Proof. repeat split; vm_compute; reflexivity. Qed.

(** Anything that is not a string is rejected. *)
Lemma parse_price_non_string (v : value) :
  (forall s, v <> VStr s) -> _parse_price v = raise ValueError "invalid price".
Proof.
  intros H. destruct v; try reflexivity. exfalso; apply (H s); reflexivity.
Qed.

(** A string without a digit, dot or comma is rejected. *)
Lemma parse_price_no_numeric_part (c : codepoint) (s : ustr) :
  existsb price_char (strip_tokens (strip (c :: s))) = false ->
  _parse_price (VStr (c :: s)) = raise ValueError "no numeric part".
Proof.
  intros H. rewrite parse_price_steps.
  apply search_none in H. rewrite H. reflexivity.
Qed.

(** C1.  The docstring of [_parse_price] and the specification promise
    ["1,234.56" -> 1234.56] (comma thousands, dot decimal).  The code
    applies the German rule whenever both separators occur: the dot is
    removed and the comma becomes the decimal point, so it returns
    [1.23456]. *)
Theorem parse_price_us_format :
  _parse_price (VStr (lit "1,234.56")) = Ok 1.23456%float /\
  _parse_price (VStr (lit "1,234.56")) <> Ok 1234.56%float.
Proof.
  split.
  - vm_compute; reflexivity.
  - vm_compute. intros H. inversion H.
Qed.

End PriceParser.

(** ** The sufficiency judge *)

Section SufficiencyJudge.
Context {rt : Runtime}.
Import MetricsTools.

(** C2.  For a non-empty list of evaluated items [_run] serialises the
    metrics in which [match_percentage] is [positive / total * 100] rounded
    to two decimals and [overall_sufficiency] is ["sufficient"] exactly
    when [match_percentage >= 50.0] and [positive >= 3], else
    ["not sufficient"]; with no items the percentage would be [0.0].
    5 of 8 gives 62.5 and is sufficient, 2 of 2 gives 100.0 and is not,
    3 of 10 gives 30.0 and is not. *)
Theorem sufficiency_judge (i : value) (items : list value) :
  let l := i :: items in
  let pos := Z.of_nat (List.length (filter is_positive l)) in
  let total := Z.of_nat (List.length l) in
  let pct := round_ (int_truediv pos total * 100)%float 2 in
  (_run (VList l) = json_dumps (Some 2) (VDict (metrics l)) /\
   get (metrics l) "count_positive" = VInt pos /\
   get (metrics l) "count_negative" = VInt (total - pos) /\
   get (metrics l) "total_listings" = VInt total /\
   get (metrics l) "match_percentage" = VFloat pct /\
   (get (metrics l) "overall_sufficiency" = VStr (lit "sufficient") <->
      PrimFloat.leb 50 pct = true /\ 3 <= pos) /\
   (get (metrics l) "overall_sufficiency" = VStr (lit "not sufficient") <->
      ~ (PrimFloat.leb 50 pct = true /\ 3 <= pos))) /\
  (forall p, match_percentage p 0 = 0%float) /\
  (match_percentage 5 8 = 62.5%float /\
   is_sufficient (match_percentage 5 8) 5 = true) /\
  (match_percentage 2 2 = 100%float /\
   is_sufficient (match_percentage 2 2) 2 = false) /\
  (match_percentage 3 10 = 30%float /\
   is_sufficient (match_percentage 3 10) 3 = false).
Proof.
  intros l pos total pct.
  assert (Hpct : match_percentage pos total = pct).
  { unfold match_percentage.
    replace (total >? 0) with true; [reflexivity|].
    symmetry; apply Z.gtb_lt. unfold total, l; simpl List.length; lia. }
  assert (Hsuff : is_sufficient pct pos = true <->
                  PrimFloat.leb 50 pct = true /\ 3 <= pos).
  { unfold is_sufficient. rewrite andb_true_iff, Z.geb_le. tauto. }
  split; [|repeat split; try intros p; vm_compute; reflexivity].
  split; [reflexivity|].
  unfold metrics. fold l pos total. rewrite Hpct.
  do 4 (split; [reflexivity|]).
  unfold get, get_default; simpl.
  destruct (is_sufficient pct pos) eqn:E.
  - split; split; intros H.
    + apply Hsuff; reflexivity.
    + reflexivity.
    + vm_compute in H; discriminate.
    + exfalso; apply H, Hsuff; reflexivity.
  - split; split; intros H.
    + vm_compute in H; discriminate.
    + apply Hsuff in H; congruence.
    + intros H'; apply Hsuff in H'; congruence.
    + reflexivity.
Qed.

End SufficiencyJudge.

(** Five matches of eight items are sufficient, at 62.5 percent. *)
Lemma sufficiency_judge_witness :
  get (MetricsTools.metrics Fixtures.five_of_eight) "overall_sufficiency"
    = VStr (lit "sufficient") /\
  get (MetricsTools.metrics Fixtures.five_of_eight) "match_percentage"
    = VFloat 62.5.
Proof.
  destruct (sufficiency_judge (rt := Fixtures.runtime)
              (VDict (mkdict [("is_match", VBool true)]))
              (List.tl Fixtures.five_of_eight))
    as ((_ & _ & _ & _ & Hpct & Hsuff & _) & _).
  split.
  - apply (proj2 Hsuff). split; [reflexivity | vm_compute; discriminate].
  - etransitivity; [exact Hpct | reflexivity].
Defined.

(** ** The order of floats *)

Lemma SFltb_irrefl (x : spec_float) : SFltb x x = false.
Proof.
  unfold SFltb, SFcompare.
  destruct x as [s| s| |s m e]; try reflexivity; destruct s; try reflexivity;
    rewrite Z.compare_refl, ?Pos.compare_cont_refl; reflexivity.
Qed.

Lemma SFltb_trans (x y z : spec_float) :
  SFltb x y = true -> SFltb y z = true -> SFltb x z = true.
Proof.
  unfold SFltb, SFcompare.
  destruct x as [sx| sx| |sx mx ex], y as [sy| sy| |sy my ey],
           z as [sz| sz| |sz mz ez];
    try destruct sx; try destruct sy; try destruct sz;
    try discriminate; try reflexivity.
  all: destruct (Z.compare_spec ex ey), (Z.compare_spec ey ez),
                (Z.compare_spec ex ez);
    try discriminate; try reflexivity; try lia.
  all: change (PosDef.Pos.compare_cont Eq mx my) with (Pos.compare mx my);
    change (PosDef.Pos.compare_cont Eq my mz) with (Pos.compare my mz);
    change (PosDef.Pos.compare_cont Eq mx mz) with (Pos.compare mx mz);
    destruct (Pos.compare_spec mx my), (Pos.compare_spec my mz),
             (Pos.compare_spec mx mz);
    cbn [CompOpp]; try discriminate; try reflexivity; lia.
Qed.

Lemma ltb_irrefl (x : float) : PrimFloat.ltb x x = false.
Proof. rewrite ltb_spec. apply SFltb_irrefl. Qed.

Lemma ltb_trans (x y z : float) :
  PrimFloat.ltb x y = true -> PrimFloat.ltb y z = true -> PrimFloat.ltb x z = true.
Proof. rewrite !ltb_spec. apply SFltb_trans. Qed.


(** If [p] is not below [m] and [y] is below [m], then [p] is not below
    [y]. *)
Lemma not_below_smaller (p m y : float) :
  PrimFloat.ltb p m = false -> PrimFloat.ltb y m = true -> PrimFloat.ltb p y = false.
Proof.
  intros Hpm Hym. destruct (PrimFloat.ltb p y) eqn:E; [|reflexivity].
  rewrite <- Hpm. symmetry. exact (ltb_trans _ _ _ E Hym).
Qed.

Lemma not_above_larger (p m y : float) :
  PrimFloat.ltb m p = false -> PrimFloat.ltb m y = true -> PrimFloat.ltb y p = false.
Proof.
  intros Hmp Hmy. destruct (PrimFloat.ltb y p) eqn:E; [|reflexivity].
  rewrite <- Hmp. symmetry. exact (ltb_trans _ _ _ Hmy E).
Qed.

Lemma fold_min_spec (t seen : list float) (m : float) :
  In m seen -> (forall p, In p seen -> PrimFloat.ltb p m = false) ->
  In (fold_left (fun m y => if PrimFloat.ltb y m then y else m) t m) (seen ++ t) /\
  forall p, In p (seen ++ t) ->
    PrimFloat.ltb p (fold_left (fun m y => if PrimFloat.ltb y m then y else m) t m)
    = false.
Proof.
  revert seen m. induction t as [|y t IH]; intros seen m Hin Hlow; cbn [fold_left].
  - rewrite app_nil_r. split; assumption.
  - replace (seen ++ y :: t) with ((seen ++ [y]) ++ t)
      by (rewrite <- app_assoc; reflexivity).
    apply IH.
    + destruct (PrimFloat.ltb y m); apply in_or_app; simpl; auto.
    + intros p Hp. apply in_app_or in Hp as [Hp|[<-|[]]].
      * destruct (PrimFloat.ltb y m) eqn:E; [|apply Hlow, Hp].
        eapply not_below_smaller; [apply Hlow, Hp | exact E].
      * destruct (PrimFloat.ltb y m) eqn:E; [apply ltb_irrefl | exact E].
Qed.

Lemma fold_max_spec (t seen : list float) (m : float) :
  In m seen -> (forall p, In p seen -> PrimFloat.ltb m p = false) ->
  In (fold_left (fun m y => if PrimFloat.ltb m y then y else m) t m) (seen ++ t) /\
  forall p, In p (seen ++ t) ->
    PrimFloat.ltb (fold_left (fun m y => if PrimFloat.ltb m y then y else m) t m) p
    = false.
Proof.
  revert seen m. induction t as [|y t IH]; intros seen m Hin Hlow; cbn [fold_left].
  - rewrite app_nil_r. split; assumption.
  - replace (seen ++ y :: t) with ((seen ++ [y]) ++ t)
      by (rewrite <- app_assoc; reflexivity).
    apply IH.
    + destruct (PrimFloat.ltb m y); apply in_or_app; simpl; auto.
    + intros p Hp. apply in_app_or in Hp as [Hp|[<-|[]]].
      * destruct (PrimFloat.ltb m y) eqn:E; [|apply Hlow, Hp].
        eapply not_above_larger; [apply Hlow, Hp | exact E].
      * destruct (PrimFloat.ltb m y) eqn:E; [apply ltb_irrefl | exact E].
Qed.

(** [min] returns an element no other element is below, [max] one no other
    element is above. *)
Lemma min_spec (ps : list float) (lo : float) :
  min_ ps = Ok lo ->
  In lo ps /\ forall p, In p ps -> PrimFloat.ltb p lo = false.
Proof.
  destruct ps as [|x t]; [discriminate|]. cbn [min_].
  intros H; inversion H; subst lo; clear H.
  apply (fold_min_spec t [x] x); [left; reflexivity|].
  intros p [<-|[]]. apply ltb_irrefl.
Qed.

Lemma max_spec (ps : list float) (hi : float) :
  max_ ps = Ok hi ->
  In hi ps /\ forall p, In p ps -> PrimFloat.ltb hi p = false.
Proof.
  destruct ps as [|x t]; [discriminate|]. cbn [max_].
  intros H; inversion H; subst hi; clear H.
  apply (fold_max_spec t [x] x); [left; reflexivity|].
  intros p [<-|[]]. apply ltb_irrefl.
Qed.

(** ** The statistics calculator *)

Section Statistics.
Context {rt : Runtime}.
Import PriceCalculation.





Lemma insert_sorted_length (x : float) (l : list float) :
  List.length (insert_sorted x l) = S (List.length l).
Proof.
  induction l as [|y l IH]; simpl; [reflexivity|].
  destruct (PrimFloat.ltb y x); simpl; [rewrite IH|]; reflexivity.
Qed.

Lemma sorted_length (l : list float) : List.length (sorted l) = List.length l.
Proof.
  induction l as [|x l IH]; simpl; [reflexivity|].
  rewrite insert_sorted_length, IH; reflexivity.
Qed.

(** [sorted] only reorders the data. *)
Lemma insert_sorted_In (x y : float) (l : list float) :
  In y (insert_sorted x l) <-> y = x \/ In y l.
Proof.
  induction l as [|z l IH]; simpl; [intuition congruence|].
  destruct (PrimFloat.ltb z x); simpl; rewrite ?IH; intuition congruence.
Qed.

Lemma sorted_In (y : float) (l : list float) : In y (sorted l) <-> In y l.
Proof.
  induction l as [|x l IH]; simpl; [tauto|].
  rewrite insert_sorted_In, IH. intuition congruence.
Qed.

(** The median of an odd number of values is the middle one of the sorted
    data, of an even number the mean of the two middle ones. *)
Lemma median_odd (data : list float) (k : nat) :
  List.length data = (2 * k + 1)%nat ->
  median data = Ok (nth k (sorted data) PrimFloat.zero).
Proof.
  intros H. unfold median. rewrite sorted_length, H.
  replace (Nat.eqb (2 * k + 1) 0) with false
    by (symmetry; apply Nat.eqb_neq; lia).
  replace ((2 * k + 1) mod 2)%nat with 1%nat
    by (apply Nat.mod_unique with k; lia).
  replace ((2 * k + 1) / 2)%nat with k
    by (apply Nat.div_unique with 1%nat; lia).
  reflexivity.
Qed.

Lemma median_even (data : list float) (k : nat) :
  List.length data = (2 * (k + 1))%nat ->
  median data =
    Ok ((nth k (sorted data) PrimFloat.zero +
         nth (k + 1) (sorted data) PrimFloat.zero) / 2)%float.
Proof.
  intros H. unfold median. rewrite sorted_length, H.
  replace (Nat.eqb (2 * (k + 1)) 0) with false
    by (symmetry; apply Nat.eqb_neq; lia).
  replace ((2 * (k + 1)) mod 2)%nat with 0%nat
    by (apply Nat.mod_unique with (k + 1)%nat; lia).
  replace ((2 * (k + 1)) / 2)%nat with (k + 1)%nat
    by (apply Nat.div_unique with 0%nat; lia).
  cbn [Nat.eqb]. replace (k + 1 - 1)%nat with k by lia.
  reflexivity.
Qed.

Lemma median_nonempty (x : float) (l : list float) :
  exists med, median (x :: l) = Ok med.
Proof.
  destruct (Nat.Even_or_Odd (List.length (x :: l))) as [[k Hk]|[k Hk]].
  - destruct k as [|k]; [simpl in Hk; lia|].
    eexists. apply (median_even _ k). rewrite Hk. lia.
  - eexists. apply (median_odd _ k). exact Hk.
Qed.

(** Statistics are [None] for no prices and else the three rounded
    aggregates. *)
Lemma price_statistics_populated (ps : list float) :
  match ps with
  | [] => price_statistics ps = Ok VNone
  | _ :: _ =>
      exists lo hi med,
        min_ ps = Ok lo /\ max_ ps = Ok hi /\ median ps = Ok med /\
        price_statistics ps =
          Ok (VDict (mkdict [("min", VFloat (round_ lo 2));
                             ("max", VFloat (round_ hi 2));
                             ("median", VFloat (round_ med 2))]))
  end.
Proof.
  destruct ps as [|x l]; [reflexivity|].
  destruct (median_nonempty x l) as [med Hmed].
  eexists _, _, med. split; [reflexivity|]. split; [reflexivity|].
  split; [exact Hmed|].
  unfold price_statistics. cbn [min_ max_ bind]. rewrite Hmed. reflexivity.
Qed.

Lemma price_statistics_total (ps : list float) :
  exists v, price_statistics ps = Ok v /\ (v = VNone <-> ps = []).
Proof.
  pose proof (price_statistics_populated ps) as H.
  destruct ps as [|x l].
  - exists VNone. split; [exact H | tauto].
  - destruct H as (lo & hi & med & _ & _ & _ & H).
    eexists. split; [exact H|]. split; discriminate.
Qed.

Lemma parsed_prices_cons (d : dict) (ds : list dict) :
  parsed_prices (d :: ds) =
    match parsed_price d with
    | Some p => p :: parsed_prices ds
    | None => parsed_prices ds
    end.
Proof.
  unfold parsed_prices; cbn [flat_map]. destruct (parsed_price d); reflexivity.
Qed.

Lemma parsed_prices_length (ds : list dict) :
  List.length (parsed_prices ds) = List.length (filter parses ds).
Proof.
  induction ds as [|d ds IH]; [reflexivity|].
  rewrite parsed_prices_cons. cbn [filter]. unfold parses at 1.
  destruct (parsed_price d); cbn [List.length]; rewrite IH; reflexivity.
Qed.



(** What the loop has collected after a list of listings. *)
Lemma collect_all_spec (listings : list dict) (acc : collected) :
  collect_all acc (map VDict listings) =
    Ok {| prices := prices acc ++ parsed_prices listings;
          prices_from_matches :=
            prices_from_matches acc ++ parsed_prices (filter flagged listings);
          parsed_count :=
            parsed_count acc + Z.of_nat (List.length (filter parses listings)) |}.
Proof.
  revert acc. induction listings as [|d ds IH]; intros acc.
  - simpl. rewrite !app_nil_r, Z.add_0_r. destruct acc; reflexivity.
  - cbn [map collect_all]. unfold collect. cbn [as_dict bind].
    rewrite parsed_prices_cons.
    cbn [filter]. fold (flagged d). unfold parses at 1.
    unfold parsed_price at 1 2.
    destruct (_parse_price (VStr (str (price_field d)))) as [p|e] eqn:E;
      cbn [bind].
    + rewrite IH. cbn [prices prices_from_matches parsed_count].
      f_equal. f_equal.
      * rewrite <- app_assoc. reflexivity.
      * destruct (flagged d).
        -- rewrite parsed_prices_cons. unfold parsed_price at 1. rewrite E.
           rewrite <- app_assoc. reflexivity.
        -- reflexivity.
      * cbn [List.length]. lia.
    + rewrite IH. f_equal. f_equal.
      destruct (flagged d); [|reflexivity].
      rewrite parsed_prices_cons. unfold parsed_price at 1. rewrite E.
      reflexivity.
Qed.

(** The result of the calculator in closed form. *)
Lemma calculate_spec (listings : list dict) (stats_all stats_matches : value) :
  price_statistics (parsed_prices listings) = Ok stats_all ->
  price_statistics (parsed_prices (filter flagged listings)) = Ok stats_matches ->
  calculate_from_evaluation (payload_of listings) =
    Ok (mkdict
          [("count_prices_parsed",
            VInt (Z.of_nat (List.length (filter parses listings))));
           ("count_listings", VInt (Z.of_nat (List.length listings)));
           ("price_statistics_all", stats_all);
           ("price_statistics_matches", stats_matches)]).
Proof.
  intros Ha Hm.
  unfold calculate_from_evaluation, payload_of.
  rewrite get_mkdict_head.
  assert (Hitems : or_ (VList (map VDict listings)) (VList []) =
                   VList (map VDict listings)).
  { destruct listings; reflexivity. }
  rewrite Hitems. cbn [iterate bind].
  rewrite (collect_all_spec listings (mkCollected [] [] 0)).
  cbn [bind prices prices_from_matches parsed_count len app].
  rewrite Ha, Hm. cbn [bind]. rewrite length_map. reflexivity.
Qed.


End Statistics.


(** ** One iteration of the workflow *)

Section Iteration.
Context {rt : Runtime}.
Import Workflow.

Lemma step_result_fields (i : Z) (query : value) (eval_data : dict)
    (cp cn tl mp : value) (stats : dict) :
  let r := step_result i query eval_data cp cn tl mp stats in
  get r "iteration" = VInt i /\ get r "query" = query /\
  get r "evaluation" = VDict eval_data /\
  get r "count_positive" = cp /\ get r "count_negative" = cn /\
  get r "total_listings" = tl /\ get r "match_percentage" = mp /\
  get r "price_statistics" = VDict stats /\
  get_default r "match_percentage" (VInt 0) = mp /\
  get_default r "match_percentage" (VInt (-1)) = mp /\
  get_default r "iteration" (VInt 0) = VInt i.
Proof. repeat split; reflexivity. Qed.

(** What steps 4 and 5 do when they do not raise. *)
Lemma record_evaluation_spec (img : value) (i : Z) (query : value)
    (eval_data : dict) (st : state) (fl : flow) :
  record_evaluation img i query eval_data st = Ok fl ->
  exists items stats cp cn tl,
    evaluated_items eval_data = Ok items /\
    PriceCalculation.calculate_from_evaluation
      (mkdict [("individual_results_evaluation",
                VList (values (merge (all_unique_matches st)
                                     (filter is_current_match items))))])
      = Ok stats /\
    cp = (if is_None (get eval_data "count_positive")
          then recount (fun e => truthy (get e "is_match")) items
          else get eval_data "count_positive") /\
    cn = (if is_None (get eval_data "count_negative")
          then recount (fun e => negb (truthy (get e "is_match"))) items
          else get eval_data "count_negative") /\
    (if is_None (get eval_data "total_listings")
     then add cp cn = Ok tl
     else tl = get eval_data "total_listings") /\
    (exists b, gt (get_default eval_data "match_percentage" (VInt 0))
                  (get_default (best_res st) "match_percentage" (VInt (-1)))
               = Ok b) /\
    let step_res :=
      step_result i query eval_data cp cn tl
                  (get_default eval_data "match_percentage" (VInt 0)) stats in
    let hist' := history st ++ [VDict step_res] in
    let best' := track (best_res st) (VDict step_res) in
    fl = if eq_lit (get eval_data "overall_sufficiency") "sufficient"
         then Return (_finalize true (VInt i) best' hist' img)
         else Next {| history := hist';
                      best_res := best';
                      current_query_json := current_query_json st;
                      feedback := get_default eval_data "query_improvement_feedback"
                                              (VStr (lit "None"));
                      all_unique_matches :=
                        merge (all_unique_matches st)
                              (filter is_current_match items) |}.
Proof.
  unfold record_evaluation, count_where.
  destruct (evaluated_items eval_data) as [items|e] eqn:Hitems;
    cbn [bind]; [|discriminate].
  destruct (PriceCalculation.calculate_from_evaluation _) as [stats|e] eqn:Hstats;
    cbn [bind]; [|discriminate].
  set (cp := if is_None (get eval_data "count_positive")
             then recount (fun e => truthy (get e "is_match")) items
             else get eval_data "count_positive").
  set (cn := if is_None (get eval_data "count_negative")
             then recount (fun e => negb (truthy (get e "is_match"))) items
             else get eval_data "count_negative").
  replace (if is_None (get eval_data "count_positive")
           then Ok (VInt (Z.of_nat (List.length
                      (filter (fun e => truthy (get e "is_match")) items))))
           else Ok (get eval_data "count_positive")) with (Ok cp)
    by (unfold cp, recount;
        destruct (is_None (get eval_data "count_positive")); reflexivity).
  cbn [bind].
  replace (if is_None (get eval_data "count_negative")
           then Ok (VInt (Z.of_nat (List.length
                      (filter (fun e => negb (truthy (get e "is_match"))) items))))
           else Ok (get eval_data "count_negative")) with (Ok cn)
    by (unfold cn, recount;
        destruct (is_None (get eval_data "count_negative")); reflexivity).
  cbn [bind].
  destruct (if is_None (get eval_data "total_listings")
            then add cp cn else Ok (get eval_data "total_listings"))
    as [tl|e] eqn:Htl; cbn [bind]; [|discriminate].
  destruct (gt _ _) as [b|e] eqn:Hgt; cbn [bind]; [|discriminate].
  intros H.
  exists items, stats, cp, cn, tl.
  split; [reflexivity|]. split; [first [exact Hstats | reflexivity]|].
  split; [reflexivity|]. split; [reflexivity|].
  split; [destruct (is_None (get eval_data "total_listings")); congruence|].
  split; [exists b; first [exact Hgt | reflexivity]|].
  cbv zeta.
  assert (Hbest : track (best_res st)
            (VDict (step_result i query eval_data cp cn tl
                      (get_default eval_data "match_percentage" (VInt 0)) stats))
          = if b then step_result i query eval_data cp cn tl
                        (get_default eval_data "match_percentage" (VInt 0)) stats
            else best_res st).
  { unfold track.
    replace (get_default (step_result i query eval_data cp cn tl
               (get_default eval_data "match_percentage" (VInt 0)) stats)
               "match_percentage" (VInt 0))
      with (get_default eval_data "match_percentage" (VInt 0)) by reflexivity.
    rewrite Hgt. destruct b; reflexivity. }
  rewrite Hbest.
  destruct (eq_lit (get eval_data "overall_sufficiency") "sufficient");
    inversion H; reflexivity.
Qed.

(** An iteration is skipped, or steps 4 and 5 run on a state that differs
    from the one it started with in the query only. *)
Lemma iteration_cases (app : App) (inputs : dict) (img : value) (i : Z)
    (st : state) :
  exists st1, same_progress st st1 /\
    (iteration app inputs img i st = Ok (Next st1) \/
     (data_ready (scraper_file app i) = true /\
      exists query eval_data,
        iteration app inputs img i st =
          record_evaluation img i query eval_data st1)).
Proof.
  unfold iteration.
  destruct (refine_query app inputs img i st) as [st1|] eqn:Hq.
  - assert (Hsame : same_progress st st1).
    { unfold refine_query in Hq. destruct (i >? 1).
      - destruct (query_regeneration_crew app i _); inversion Hq; subst.
        repeat split.
      - inversion Hq; subst. repeat split. }
    exists st1. split; [exact Hsame|].
    destruct (data_ready (scraper_file app i)); cbn [negb]; [|left; reflexivity].
    destruct (evaluation_crew app i _) as [eval_res|e]; [|left; reflexivity].
    right. split; [reflexivity|]. eexists _, _. reflexivity.
  - exists st. split; [repeat split | left; reflexivity].
Qed.


Lemma tracked_snoc (hist : list value) (h : value) :
  tracked (hist ++ [h]) = track (tracked hist) h.
Proof. unfold tracked. rewrite fold_left_app. reflexivity. Qed.

Lemma accumulated_snoc (hist : list value) (h : value) :
  accumulated (hist ++ [h]) = merge (accumulated hist) (matches_of h).
Proof. unfold accumulated. rewrite fold_left_app. reflexivity. Qed.

Lemma stats_recorded_snoc (hist : list value) (h : value) (stats : dict) :
  stats_recorded hist ->
  entry_field h "price_statistics" = VDict stats ->
  PriceCalculation.calculate_from_evaluation
    (mkdict [("individual_results_evaluation",
              VList (values (accumulated (hist ++ [h]))))]) = Ok stats ->
  stats_recorded (hist ++ [h]).
Proof.
  intros Hrec Hf Hs k h' Hk.
  destruct (Nat.lt_ge_cases k (List.length hist)) as [Hlt|Hge].
  - rewrite nth_error_app1 in Hk by exact Hlt.
    destruct (Hrec k h' Hk) as (stats' & Hf' & Hs').
    exists stats'. split; [exact Hf'|].
    rewrite firstn_app.
    replace (S k - List.length hist)%nat with 0%nat by lia.
    cbn [firstn]. rewrite app_nil_r. exact Hs'.
  - rewrite nth_error_app2 in Hk by exact Hge.
    destruct (k - List.length hist)%nat as [|n] eqn:E.
    + cbn [nth_error] in Hk. inversion Hk; subst h'.
      exists stats. split; [exact Hf|].
      rewrite firstn_all2; [exact Hs|]. rewrite length_app; simpl; lia.
    + cbn [nth_error] in Hk. destruct n; discriminate.
Qed.

(** Steps 4 and 5 keep the invariant: they append one entry for iteration
    [i], and either return with the tracker or go on. *)
Lemma record_evaluation_consistent (img : value) (i : Z) (query : value)
    (eval_data : dict) (st : state) (fl : flow) :
  consistent st ->
  record_evaluation img i query eval_data st = Ok fl ->
  exists h,
    entry_field h "iteration" = VInt i /\
    stats_recorded (history st ++ [h]) /\
    ((fl = Return (_finalize true (VInt i) (tracked (history st ++ [h]))
                             (history st ++ [h]) img)) \/
     (exists st', fl = Next st' /\ history st' = history st ++ [h] /\
                  consistent st')).
Proof.
  intros [Hb Ha Hs] H.
  apply record_evaluation_spec in H
    as (items & stats & cp & cn & tl & Hitems & Hstats & _ & _ & _ & _ & H).
  cbv zeta in H.
  set (step_res := step_result i query eval_data cp cn tl
                     (get_default eval_data "match_percentage" (VInt 0)) stats) in *.
  assert (Hm : matches_of (VDict step_res) = filter is_current_match items).
  { unfold matches_of.
    replace (entry_field (VDict step_res) "evaluation") with (VDict eval_data)
      by reflexivity.
    rewrite Hitems. reflexivity. }
  assert (Hacc : accumulated (history st ++ [VDict step_res]) =
                 merge (all_unique_matches st) (filter is_current_match items)).
  { rewrite accumulated_snoc, Hm, Ha. reflexivity. }
  assert (Hrec : stats_recorded (history st ++ [VDict step_res])).
  { apply stats_recorded_snoc with stats; [exact Hs | reflexivity|].
    rewrite Hacc. exact Hstats. }
  exists (VDict step_res).
  split; [reflexivity|]. split; [exact Hrec|].
  rewrite Hb, <- tracked_snoc in H.
  destruct (eq_lit (get eval_data "overall_sufficiency") "sufficient").
  - left. exact H.
  - right. eexists. split; [exact H|]. split; [reflexivity|].
    constructor; cbn [history best_res all_unique_matches].
    + reflexivity.
    + symmetry. exact Hacc.
    + exact Hrec.
Qed.

End Iteration.

(** ** The refinement loop *)

Section Loop.
Context {rt : Runtime}.
Import Workflow.
Variable app : App.
Variable inputs : dict.

Lemma prefix_nil {A} (l : list A) : prefix [] l.
Proof. exists l; reflexivity. Qed.

Lemma prefix_cons {A} (x : A) (l m : list A) : prefix l m -> prefix (x :: l) (x :: m).
Proof. intros [r ->]. exists r; reflexivity. Qed.




Lemma subseq_In {A} (l m : list A) (x : A) : subseq l m -> In x l -> In x m.
Proof. induction 1; simpl; intuition. Qed.


Lemma same_progress_consistent (st st1 : state) :
  same_progress st st1 -> consistent st -> consistent st1.
Proof.
  intros (Hh & Hb & Ha & _) [Cb Ca Cs].
  constructor; rewrite ?Hh, ?Hb, ?Ha; assumption.
Qed.

(** The loop on the indices [indices] from a consistent state. *)
Lemma loop_spec (img : value) (indices : list Z) (st : state) :
  consistent st ->
  prefix (attempts (loop app inputs img indices st)) indices /\
  forall final,
    returned (loop app inputs img indices st) = Ok final ->
    exists new,
      loop_result app img indices (attempts (loop app inputs img indices st))
                  (history st) new final.
Proof.
  revert st. induction indices as [|i rest IH]; intros st Hc.
  - cbn [loop attempts returned]. split; [apply prefix_nil|].
    intros final H. inversion H; subst final; clear H.
    exists [], []. rewrite app_nil_r.
    split; [reflexivity|]. split; [constructor|]. split; [constructor|].
    split; [apply Hc|]. left. split; [reflexivity|].
    rewrite (tracker_ok _ Hc). reflexivity.
  - cbn [loop].
    destruct (iteration_cases app inputs img i st) as (st1 & Hs & Hit).
    pose proof (same_progress_consistent _ _ Hs Hc) as Hc1.
    assert (Hh : history st1 = history st) by apply Hs.
    assert (Hnext : forall st', consistent st' ->
              forall h0, history st' = history st ++ h0 ->
              forall j0, iterations h0 = map VInt j0 ->
              (j0 = [] \/
               (j0 = [i] /\ data_ready (scraper_file app i) = true)) ->
              prefix (i :: attempts (loop app inputs img rest st')) (i :: rest) /\
              forall final,
                returned (loop app inputs img rest st') = Ok final ->
                exists new,
                  loop_result app img (i :: rest)
                    (i :: attempts (loop app inputs img rest st'))
                    (history st) new final).
    { intros st' Hc' h0 Hh0 j0 Hj0 Hj.
      destruct (IH st' Hc') as (Hp & Hf).
      split; [apply prefix_cons, Hp|].
      intros final Hfinal.
      destruct (Hf final Hfinal) as (new & js & Hjs & Hsub & Hready & Hrec & Hend).
      exists (h0 ++ new), (j0 ++ js).
      rewrite Hh0, <- app_assoc in Hrec, Hend.
      split; [unfold iterations in *; rewrite !map_app, Hj0, Hjs; reflexivity|].
      split; [destruct Hj as [-> | [-> _]];
              [apply subseq_skip | apply subseq_take]; exact Hsub|].
      split; [destruct Hj as [-> | [-> Hd]];
              [exact Hready | constructor; [exact Hd | exact Hready]]|].
      split; [exact Hrec|].
      destruct Hend as [[Ha Hfin]|(i' & js' & before & Hjs' & Ha & Hfin)].
      - left. split; [rewrite Ha; reflexivity | exact Hfin].
      - right. exists i', (j0 ++ js'), (i :: before).
        split; [rewrite Hjs', app_assoc; reflexivity|].
        split; [rewrite Ha; reflexivity | exact Hfin]. }
    destruct Hit as [Hskip | (Hd & query & eval_data & Hev)].
    + rewrite Hskip. cbn [attempts returned].
      apply (Hnext st1 Hc1 [] ltac:(rewrite app_nil_r; exact Hh) [] eq_refl).
      left; reflexivity.
    + rewrite Hev.
      destruct (record_evaluation img i query eval_data st1) as [fl|e] eqn:Hre.
      * destruct (record_evaluation_consistent _ _ _ _ _ _ Hc1 Hre)
          as (h & Hi & Hrec & [Hret | (st' & Hn & Hh' & Hc')]).
        -- subst fl. cbn [attempts returned].
           split; [apply prefix_cons, prefix_nil|].
           intros final H. inversion H; subst final; clear H.
           exists [h], [i]. rewrite Hh in *.
           split; [unfold iterations; cbn [map]; rewrite Hi; reflexivity|].
           split; [apply subseq_take, subseq_nil|].
           split; [repeat constructor; exact Hd|].
           split; [exact Hrec|].
           right. exists i, [], []. repeat split.
        -- subst fl. cbn [attempts returned].
           apply (Hnext st' Hc' [h] ltac:(rewrite Hh', Hh; reflexivity) [i]).
           ++ unfold iterations; cbn [map]; rewrite Hi; reflexivity.
           ++ right; split; [reflexivity | exact Hd].
      * cbn [attempts returned]. split; [apply prefix_cons, prefix_nil|].
        intros final H; discriminate.
Qed.

Lemma initial_state_consistent (query_json : ustr) :
  consistent (initial_state query_json).
Proof.
  constructor; cbn [history best_res all_unique_matches initial_state].
  - reflexivity.
  - reflexivity.
  - intros k h Hk. destruct k; discriminate.
Qed.

(** A run either fails in phase 1, without an attempt, or returns what the
    loop returns. *)
Lemma run_spec :
  prefix (attempts (run app inputs)) range_1_4 /\
  forall final,
    returned (run app inputs) = Ok final ->
    (attempts (run app inputs) = [] /\ exists error, final = failure error) \/
    exists img hist,
      loop_result app img range_1_4 (attempts (run app inputs)) [] hist final.
Proof.
  unfold run.
  destruct (analyse app inputs) as [[res_p1 img]|e].
  - destruct (reported_error img) as [error|].
    + cbn [attempts returned]. split; [apply prefix_nil|].
      intros final H; inversion H. left. split; [reflexivity|].
      exists error; reflexivity.
    + destruct (nth_error (tasks_output res_p1) 1) as [raw1|].
      * destruct (loop_spec img range_1_4 (initial_state raw1)
                    (initial_state_consistent raw1)) as (Hp & Hf).
        split; [exact Hp|]. intros final H. right.
        destruct (Hf final H) as (new & Hnew).
        exists img, new. exact Hnew.
      * cbn [attempts returned]. split; [apply prefix_nil|].
        intros final H; discriminate.
  - cbn [attempts returned]. split; [apply prefix_nil|].
    intros final H; inversion H. left. split; [reflexivity|].
    eexists; reflexivity.
Qed.


(** Phase 1: an exception ends the run with a failure whose message has at
    most 200 characters, and no iteration is attempted. *)
Lemma analysis_exception (e : exn) :
  analyse app inputs = Raise e ->
  exists msg,
    run app inputs = mkOutcome [] (Ok (failure (VStr msg))) /\
    (List.length msg <= 200)%nat.
Proof.
  intros H. unfold run. rewrite H.
  destruct (exn_cls e); eexists; (split; [reflexivity|]);
    try (unfold truncated; rewrite length_firstn; lia).
  apply Nat.leb_le. reflexivity.
Qed.

(** Phase 1: an analysis that reports an error ends the run with a failure
    that carries the reported error as it is. *)
Lemma analysis_error_status (res_p1 : crew_output) (img error : value) :
  analyse app inputs = Ok (res_p1, img) ->
  reported_error img = Some error ->
  run app inputs = mkOutcome [] (Ok (failure error)).
Proof. intros H1 H2. unfold run. rewrite H1, H2. reflexivity. Qed.

End Loop.

(** ** The outcome of a run *)

Section RunOutcome.
Context {rt : Runtime}.
Import Workflow.

Lemma finalize_fields (success : bool) (iter : value) (best : dict)
    (hist : list value) (img : value) :
  let final := _finalize success iter best hist img in
  get final "success" = VBool success /\ get final "best_iteration" = iter /\
  get final "best_result" = VDict best /\ get final "history" = VList hist /\
  lookup (lit "error") final = None.
Proof. repeat split; reflexivity. Qed.

Lemma failure_fields (error : value) :
  let final := failure error in
  get final "success" = VBool false /\ get final "best_iteration" = VInt 0 /\
  get final "best_result" = VDict [] /\ get final "history" = VList [] /\
  lookup (lit "error") final = Some error.
Proof. repeat split; reflexivity. Qed.


End RunOutcome.


(** The run stops on the key ["error"] only: an analysis in the shape
    [{"status": "ERROR", "reason": ...}] of the vision tool goes on to the
    loop. *)
Lemma status_error_goes_on :
  Workflow.attempts
    (Workflow.run (rt := Fixtures.runtime)
       (Fixtures.scripted Fixtures.status_error Fixtures.evals_zero
                          Fixtures.data_found) [])
  = [1; 2; 3].
Proof. vm_compute. reflexivity. Qed.

(** C7.  An image analysis that reports an error ends the run at once, with
    success=false, best_iteration=0, an empty history and an empty
    best_result, but the reported error is returned as it is: here a
    message of 201 characters, while the message of an exception is cut to
    200. *)
Theorem image_error_message_not_truncated :
  Workflow.run (rt := Fixtures.runtime)
    (Fixtures.scripted Fixtures.image_error Fixtures.evals_zero
                       Fixtures.data_found) []
  = Workflow.mkOutcome [] (Ok (Workflow.failure (VStr Fixtures.long_message))) /\
  List.length Fixtures.long_message = 201%nat.
Proof. split; vm_compute; reflexivity. Qed.

(** ** The best-result tracker *)

Section Tracker.
Context {rt : Runtime}.
Import Workflow.

Lemma get_default_of_get (d : dict) (k : string) (v default : value) :
  get d k = v -> v <> VNone -> get_default d k default = v.
Proof.
  unfold get, get_default. destruct (lookup (lit k) d); congruence.
Qed.

Lemma is_percent_not_None (z : Z) (v : value) : is_percent z v -> v <> VNone.
Proof. intros [-> | ->]; discriminate. Qed.


(** One step of the tracker on an entry whose percentage is known. *)
Lemma track_step (best d : dict) (v bmp : value) (b : bool) :
  get d "match_percentage" = v -> v <> VNone ->
  get_default best "match_percentage" (VInt (-1)) = bmp ->
  gt v bmp = Ok b ->
  track best (VDict d) = if b then d else best.
Proof.
  intros Hv Hn Hb Hgt. unfold track.
  rewrite (get_default_of_get _ _ _ _ Hv Hn), Hb, Hgt.
  destruct b; reflexivity.
Qed.

(** Entries with a percentage of 0 leave the initial tracker in place. *)
Lemma tracked_zero (hist : list value) :
  Forall (fun h => is_percent 0 (entry_field h "match_percentage")) hist ->
  tracked hist = initial_best.
Proof.
  unfold tracked. induction 1 as [|h hist Hh _ IH]; [reflexivity|].
  cbn [fold_left].
  replace (track initial_best h) with initial_best; [exact IH|].
  destruct h; try reflexivity. cbn [entry_field] in Hh.
  symmetry.
  rewrite (track_step initial_best d _ (VInt 0) false eq_refl
             (is_percent_not_None _ _ Hh) eq_refl); [reflexivity|].
  destruct Hh as [-> | ->]; vm_compute; reflexivity.
Qed.

(** What a run that returns has returned: the history and the tracker
    replayed on it. *)
Lemma returned_shape (app : App) (inputs : dict) (final : dict) :
  returned (run app inputs) = Ok final ->
  (exists error, final = failure error) \/
  exists hist js,
    get final "history" = VList hist /\
    get final "best_result" = VDict (tracked hist) /\
    lookup (lit "error") final = None /\
    iterations hist = map VInt js /\
    subseq js (attempts (run app inputs)) /\
    prefix (attempts (run app inputs)) [1; 2; 3] /\
    stats_recorded hist /\
    ((get final "success" = VBool false /\
      get final "best_iteration" =
        get_default (tracked hist) "iteration" (VInt 0)) \/
     (get final "success" = VBool true /\
      exists i js', js = js' ++ [i] /\ get final "best_iteration" = VInt i)).
Proof.
  intros H. destruct (run_spec app inputs) as (Hp & Hf).
  destruct (Hf final H)
    as [(_ & error & ->) |
        (img & hist & js & Hjs & Hsub & _ & Hrec & Hend)].
  - left. exists error. reflexivity.
  - right. exists hist, js.
    destruct Hend as [[_ ->] | (i & js' & before & Hjs' & _ & ->)];
      (split; [reflexivity|]); (split; [reflexivity|]);
      (split; [reflexivity|]); (split; [exact Hjs|]);
      (split; [exact Hsub|]); (split; [exact Hp|]); (split; [exact Hrec|]).
    + left. split; reflexivity.
    + right. split; [reflexivity|]. exists i, js'. split; [exact Hjs'|reflexivity].
Qed.

(** C9.  The tracker starts as [{"match_percentage": 0}], without an
    iteration number, and is replaced only by a greater percentage.  So
    when a run ends by exhaustion and every completed iteration has the
    percentage 0, the result has best_iteration=0 and the initial
    best_result, whatever the history holds; and an evaluation without a
    percentage is recorded with the percentage 0. *)
Theorem zero_percent_keeps_initial_best :
  (forall (app : App) (inputs final : dict) (hist : list value),
     returned (run app inputs) = Ok final ->
     get final "success" = VBool false ->
     lookup (lit "error") final = None ->
     get final "history" = VList hist ->
     Forall (fun h => is_percent 0 (entry_field h "match_percentage")) hist ->
     get final "best_iteration" = VInt 0 /\
     get final "best_result" = VDict (mkdict [("match_percentage", VInt 0)])) /\
  (forall (img : value) (i : Z) (query : value) (eval_data : dict)
          (st : state) (fl : flow),
     lookup (lit "match_percentage") eval_data = None ->
     record_evaluation img i query eval_data st = Ok fl ->
     exists h,
       history_after fl = history st ++ [h] /\
       entry_field h "match_percentage" = VInt 0).
Proof.
  split.
  - intros app inputs final hist Hr Hs He Hh Hz.
    destruct (returned_shape app inputs final Hr)
      as [(error & ->) | (hist' & js & Hh' & Hb & _ & _ & _ & _ & _ & Hend)];
      [discriminate|].
    rewrite Hh in Hh'. inversion Hh'; subst hist'.
    rewrite (tracked_zero hist Hz) in *.
    split; [|exact Hb].
    destruct Hend as [[_ ->] | [Hs' _]]; [reflexivity | congruence].
  - intros img i query eval_data st fl Habs H.
    apply record_evaluation_spec in H
      as (items & stats & cp & cn & tl & _ & _ & _ & _ & _ & _ & H).
    cbv zeta in H. eexists. split.
    + rewrite H.
      destruct (eq_lit (get eval_data "overall_sufficiency") "sufficient");
        reflexivity.
    + cbn [entry_field].
      unfold get_default at 1. rewrite Habs. reflexivity.
Qed.


End Tracker.

(** A run with the percentages 0 and none, one with 40, 40, 55 and one
    with 60, 60. *)
Lemma zero_percent_witness :
  (exists fl h,
     Workflow.record_evaluation (rt := Fixtures.runtime) Fixtures.profile 1
       (VStr (lit "bike")) [] (Workflow.initial_state []) = Ok fl /\
     Workflow.history_after fl = [h] /\
     Workflow.entry_field h "match_percentage" = VInt 0) /\
  exists final h1 h2,
    Workflow.returned
      (Workflow.run (rt := Fixtures.runtime)
         (Fixtures.scripted Fixtures.profile Fixtures.evals_zero
                            Fixtures.data_found) []) = Ok final /\
    get final "history" = VList [h1; h2] /\
    get final "best_iteration" = VInt 0.
Proof.
  split.
  { destruct (Workflow.record_evaluation (rt := Fixtures.runtime) Fixtures.profile 1
                (VStr (lit "bike")) [] (Workflow.initial_state []))
      as [fl|e] eqn:E; vm_compute in E; [|discriminate].
    injection E as E. exists fl.
    destruct (proj2 (zero_percent_keeps_initial_best (rt := Fixtures.runtime))
                Fixtures.profile 1 (VStr (lit "bike")) []
                (Workflow.initial_state []) fl eq_refl)
      as (h & Hh & Hmp).
    - subst fl. vm_compute. reflexivity.
    - exists h. split; [reflexivity|]. split; [exact Hh | exact Hmp]. }
  destruct (Workflow.returned
              (Workflow.run (rt := Fixtures.runtime)
                 (Fixtures.scripted Fixtures.profile Fixtures.evals_zero
                                    Fixtures.data_found) []))
    as [final|e] eqn:E; vm_compute in E; [|discriminate].
  injection E as E.
  exists final. subst final. eexists _, _.
  split; [reflexivity|]. split; [reflexivity|].
  refine (proj1 (proj1 (zero_percent_keeps_initial_best (rt := Fixtures.runtime))
            (Fixtures.scripted Fixtures.profile Fixtures.evals_zero
                               Fixtures.data_found) [] _ _ _ _ _ _ _)).
  - vm_compute. reflexivity.
  - reflexivity.
  - reflexivity.
  - reflexivity.
  - repeat constructor.
Defined.



(** ** The match accumulator *)

Section Accumulator.
Context {rt : Runtime}.
Import Workflow.



Lemma In_keys_setitem (k k' : ustr) (v : value) (d : dict) :
  In k' (keys (setitem k v d)) <-> k' = k \/ In k' (keys d).
Proof.
  induction d as [|[k0 v0] d IH]; simpl.
  - intuition.
  - destruct (ustr_eqb k k0) eqn:E; simpl.
    + apply ustr_eqb_eq in E; subst k0. intuition.
    + rewrite IH. intuition.
Qed.

(** An assignment keeps the keys distinct, and adds at most one entry. *)
Lemma setitem_NoDup (k : ustr) (v : value) (d : dict) :
  NoDup (keys d) -> NoDup (keys (setitem k v d)).
Proof.
  induction d as [|[k0 v0] d IH]; simpl; intros Hd.
  - constructor; [intros [] | constructor].
  - inversion Hd as [|? ? Hnin Hd']; subst.
    destruct (ustr_eqb k k0) eqn:E; simpl.
    + apply ustr_eqb_eq in E; subst k0. constructor; assumption.
    + constructor; [|apply IH, Hd'].
      rewrite In_keys_setitem. intros [->|Hin]; [|contradiction].
      rewrite ustr_eqb_refl in E. discriminate.
Qed.

Lemma merge_snoc (acc : dict) (ms : list dict) (m : dict) :
  merge acc (ms ++ [m]) = setitem (str (get m "id")) (VDict m) (merge acc ms).
Proof. unfold merge. rewrite fold_left_app. reflexivity. Qed.

Lemma merge_cons (acc : dict) (ms : list dict) (m : dict) :
  merge acc (m :: ms) = merge (setitem (str (get m "id")) (VDict m) acc) ms.
Proof. reflexivity. Qed.

Lemma merge_NoDup (acc : dict) (ms : list dict) :
  NoDup (keys acc) -> NoDup (keys (merge acc ms)).
Proof.
  revert acc. induction ms as [|m ms IH]; intros acc Hacc; [exact Hacc|].
  rewrite merge_cons. apply IH, setitem_NoDup, Hacc.
Qed.

Lemma accumulated_NoDup (hist : list value) : NoDup (keys (accumulated hist)).
Proof.
  induction hist as [|h hist IH] using rev_ind.
  - constructor.
  - rewrite accumulated_snoc. apply merge_NoDup, IH.
Qed.




End Accumulator.


(** ** Statistics over the accumulator *)

Section CumulativeStatistics.
Context {rt : Runtime}.
Import Workflow PriceCalculation.

Lemma setitem_holds_dicts (k : ustr) (m : dict) (d : dict) :
  holds_dicts d -> holds_dicts (setitem k (VDict m) d).
Proof.
  unfold holds_dicts, values.
  induction d as [|[k0 v0] d IH]; simpl; intros H.
  - repeat constructor. exists m; reflexivity.
  - inversion H; subst.
    destruct (ustr_eqb k k0); simpl; constructor; auto.
    exists m; reflexivity.
Qed.

Lemma merge_holds_dicts (acc : dict) (ms : list dict) :
  holds_dicts acc -> holds_dicts (merge acc ms).
Proof.
  revert acc. induction ms as [|m ms IH]; intros acc H; [exact H|].
  rewrite merge_cons. apply IH, setitem_holds_dicts, H.
Qed.

Lemma accumulated_holds_dicts (hist : list value) : holds_dicts (accumulated hist).
Proof.
  induction hist as [|h hist IH] using rev_ind.
  - constructor.
  - rewrite accumulated_snoc. apply merge_holds_dicts, IH.
Qed.

(** The values of an accumulator are its listings. *)
Lemma values_listings (d : dict) :
  holds_dicts d ->
  values d = map VDict (listings_of d) /\
  List.length (listings_of d) = List.length d.
Proof.
  unfold holds_dicts, listings_of, values.
  induction d as [|[k v] d IH]; simpl; intros H; [split; reflexivity|].
  inversion H as [|? ? [m ->] H']; subst.
  destruct (IH H') as [IH1 IH2]. simpl. split; [f_equal; exact IH1 | f_equal; exact IH2].
Qed.

Lemma setitem_length (k : ustr) (v : value) (d : dict) :
  (List.length d <= List.length (setitem k v d))%nat.
Proof.
  induction d as [|[k' v'] d IH]; cbn [setitem List.length]; [lia|].
  destruct (ustr_eqb k k'); cbn [List.length]; lia.
Qed.

Lemma merge_grows (ms : list dict) (acc : dict) :
  (List.length acc <= List.length (merge acc ms))%nat /\
  forall id, In id (keys acc) -> In id (keys (merge acc ms)).
Proof.
  revert acc. induction ms as [|m ms IH]; intros acc; [split; auto|].
  rewrite merge_cons.
  destruct (IH (setitem (str (get m "id")) (VDict m) acc)) as [IHl IHk].
  split.
  - pose proof (setitem_length (str (get m "id")) (VDict m) acc). lia.
  - intros id Hid. apply IHk. apply In_keys_setitem. right. exact Hid.
Qed.

Lemma accumulated_grows (later earlier : list value) :
  (List.length (accumulated earlier) <=
   List.length (accumulated (earlier ++ later)))%nat /\
  forall id, In id (keys (accumulated earlier)) ->
             In id (keys (accumulated (earlier ++ later))).
Proof.
  induction later as [|h later IH] using rev_ind.
  - rewrite app_nil_r. split; auto.
  - rewrite app_assoc, accumulated_snoc. destruct IH as [IHl IHk].
    destruct (merge_grows (matches_of h) (accumulated (earlier ++ later)))
      as [Hl Hk].
    split; [lia | intros id Hid; apply Hk, IHk, Hid].
Qed.

Lemma firstn_snoc {A} (l : list A) (k : nat) (x : A) :
  nth_error l k = Some x -> firstn (S k) l = firstn k l ++ [x].
Proof.
  revert k. induction l as [|y l IH]; intros [|k] H; try discriminate H.
  - injection H as ->. reflexivity.
  - cbn [nth_error] in H. cbn [firstn app]. f_equal. apply (IH k H).
Qed.

(** A merged match is a key of the accumulator. *)
Lemma merge_has_keys (ms : list dict) (acc : dict) (m : dict) :
  In m ms -> In (str (get m "id")) (keys (merge acc ms)).
Proof.
  revert acc. induction ms as [|m0 ms IH]; intros acc H; [destruct H|].
  rewrite merge_cons. destruct H as [-> | H]; [|apply IH, H].
  apply (proj2 (merge_grows ms _)). apply In_keys_setitem. left. reflexivity.
Qed.

Lemma In_values_setitem (k : ustr) (v x : value) (d : dict) :
  In x (values (setitem k v d)) -> x = v \/ In x (values d).
Proof.
  unfold values. induction d as [|[k' v'] d IH]; cbn [setitem map In fst snd].
  - intros [<- | []]. left. reflexivity.
  - destruct (ustr_eqb k k'); cbn [map In fst snd].
    + intros [<- | H]; [left; reflexivity | right; right; exact H].
    + intros [<- | H]; [right; left; reflexivity|].
      destruct (IH H) as [-> | H']; [left; reflexivity | right; right; exact H'].
Qed.

(** What the accumulator holds was there before or is a merged match. *)
Lemma merge_values (ms : list dict) (acc : dict) (x : value) :
  In x (values (merge acc ms)) ->
  In x (values acc) \/ exists m, In m ms /\ x = VDict m.
Proof.
  revert acc. induction ms as [|m0 ms IH]; intros acc H; [left; exact H|].
  rewrite merge_cons in H. destruct (IH _ H) as [H' | (m & Hm & ->)].
  - apply In_values_setitem in H' as [-> | H'].
    + right. exists m0. split; [left; reflexivity | reflexivity].
    + left. exact H'.
  - right. exists m. split; [right; exact Hm | reflexivity].
Qed.

Lemma accumulated_values (hist : list value) (x : value) :
  In x (values (accumulated hist)) ->
  exists h m, In h hist /\ In m (matches_of h) /\ x = VDict m.
Proof.
  induction hist as [|h hist IH] using rev_ind; [intros []|].
  rewrite accumulated_snoc. intros H.
  destruct (merge_values _ _ _ H) as [H' | (m & Hm & ->)].
  - destruct (IH H') as (h0 & m & Hh & Hm & ->).
    exists h0, m. split; [apply in_or_app; left; exact Hh | auto].
  - exists h, m. split; [apply in_or_app; right; left; reflexivity | auto].
Qed.

Lemma firstn_leq {A} (l : list A) (j k : nat) :
  (j <= k)%nat -> firstn k l = firstn j l ++ skipn j (firstn k l).
Proof.
  intros H. rewrite <- (firstn_skipn j (firstn k l)) at 1.
  rewrite firstn_firstn. replace (Nat.min j k) with j by lia. reflexivity.
Qed.

(** C5, as the code has it.  The price_statistics of every history entry
    are computed over the whole accumulator as it is after that entry's
    evaluation: the keys of the accumulator are distinct, [count_listings]
    is its size and [price_statistics_all] covers every accumulated listing
    whose price parses.  [price_statistics_matches] covers those of them
    whose own [is_match] field is [True]; it equals
    [price_statistics_all] when every accumulated listing has it.  The
    accumulator is cumulative: after an entry it is the accumulator before
    that entry with the entry's matches merged in; the id of every match of
    this and of every earlier entry is one of its keys, and every listing
    it holds is a match of this or of an earlier entry. *)
Theorem statistics_over_accumulator (app : App) (inputs final : dict)
    (hist : list value) (k : nat) (h : value) :
  returned (run app inputs) = Ok final ->
  get final "history" = VList hist ->
  nth_error hist k = Some h ->
  NoDup (keys (accumulated (firstn (S k) hist))) /\
  (exists stats,
    entry_field h "price_statistics" = VDict stats /\
    calculate_from_evaluation
      (payload_of (listings_of (accumulated (firstn (S k) hist)))) = Ok stats /\
    get stats "count_listings" =
      VInt (Z.of_nat (List.length (accumulated (firstn (S k) hist)))) /\
    price_statistics
      (parsed_prices (listings_of (accumulated (firstn (S k) hist))))
      = Ok (get stats "price_statistics_all") /\
    price_statistics
      (parsed_prices
         (filter flagged (listings_of (accumulated (firstn (S k) hist)))))
      = Ok (get stats "price_statistics_matches") /\
    (forallb flagged (listings_of (accumulated (firstn (S k) hist))) = true ->
     get stats "price_statistics_matches" = get stats "price_statistics_all")) /\
  accumulated (firstn (S k) hist) =
    merge (accumulated (firstn k hist)) (matches_of h) /\
  (forall j hj m,
     (j <= k)%nat -> nth_error hist j = Some hj -> In m (matches_of hj) ->
     In (str (get m "id")) (keys (accumulated (firstn (S k) hist)))) /\
  (forall d,
     In d (listings_of (accumulated (firstn (S k) hist))) ->
     exists j hj,
       (j <= k)%nat /\ nth_error hist j = Some hj /\ In d (matches_of hj)).
Proof.
  intros Hr Hh Hk.
  split; [apply accumulated_NoDup|].
  split; [|split; [|split]]; cycle 1.
  { rewrite (firstn_snoc hist k h Hk). apply accumulated_snoc. }
  { intros j hj m Hj Hnth Hm.
    rewrite (firstn_leq hist (S j) (S k)) by lia.
    apply (proj2 (accumulated_grows _ _)).
    rewrite (firstn_snoc hist j hj Hnth), accumulated_snoc.
    apply merge_has_keys, Hm. }
  { intros d Hd. unfold listings_of in Hd.
    apply in_flat_map in Hd as (x & Hx & Hd).
    destruct (accumulated_values _ _ Hx) as (hj & m & Hin & Hm & ->).
    destruct Hd as [<- | []].
    destruct (In_nth_error _ _ Hin) as (j & Hj).
    rewrite nth_error_firstn in Hj.
    destruct (Nat.ltb_spec j (S k)); [|discriminate Hj].
    exists j, hj. split; [lia|]. split; [exact Hj | exact Hm]. }
  destruct (returned_shape app inputs final Hr)
    as [(error & ->) | (hist' & js & Hh' & _ & _ & _ & _ & _ & Hrec & _)].
  - inversion Hh; subst hist. destruct k; discriminate.
  - rewrite Hh in Hh'. inversion Hh'; subst hist'; clear Hh'.
    destruct (Hrec k h Hk) as (stats & Hf & Hs).
    set (acc := accumulated (firstn (S k) hist)) in *.
    destruct (values_listings acc (accumulated_holds_dicts _)) as [Hv Hl].
    rewrite Hv in Hs. fold (payload_of (listings_of acc)) in Hs.
    destruct (price_statistics_total (parsed_prices (listings_of acc)))
      as (sa & Ha & _).
    destruct (price_statistics_total
                (parsed_prices (filter flagged (listings_of acc))))
      as (sm & Hm & _).
    pose proof (calculate_spec (listings_of acc) sa sm Ha Hm) as Hc.
    rewrite Hs in Hc. inversion Hc; subst stats; clear Hc.
    exists (mkdict
              [("count_prices_parsed",
                VInt (Z.of_nat (List.length (filter parses (listings_of acc)))));
               ("count_listings", VInt (Z.of_nat (List.length (listings_of acc))));
               ("price_statistics_all", sa);
               ("price_statistics_matches", sm)]).
    split; [exact Hf|]. split; [exact Hs|].
    split; [rewrite Hl; reflexivity|].
    split; [exact Ha|]. split; [exact Hm|].
    intros Hall.
    assert (Hfil : filter flagged (listings_of acc) = listings_of acc).
    { clear -Hall. induction (listings_of acc) as [|d l IH]; [reflexivity|].
      simpl in *. apply andb_true_iff in Hall as [Hd Hl].
      rewrite Hd, (IH Hl). reflexivity. }
    rewrite Hfil in Hm. change (sm = sa). congruence.
Qed.

End CumulativeStatistics.

(** A listing accumulated through [match_status] is in the accumulator and
    its price parses, but it is not in [price_statistics_matches]. *)
Lemma matches_do_not_cover_accumulator : ~ Workflow.matches_cover_accumulator.
Proof.
  intros H.
  specialize (H Fixtures.runtime
                (Fixtures.scripted Fixtures.profile
                   (Fixtures.by_iteration (Some (VDict Fixtures.match_by_status))
                                          None None)
                   Fixtures.data_found) []).
  destruct (Workflow.returned
              (Workflow.run (rt := Fixtures.runtime)
                 (Fixtures.scripted Fixtures.profile
                    (Fixtures.by_iteration (Some (VDict Fixtures.match_by_status))
                                           None None)
                    Fixtures.data_found) [])) as [final|e] eqn:E;
    vm_compute in E; [|discriminate].
  injection E as E. subst final.
  match type of H with
  | forall (final : dict) (hist : list value) (k : nat) (h : value) (stats : dict),
      Ok ?f = Ok final -> _ =>
      match eval vm_compute in (get f "history") with
      | VList [?h0] =>
          match eval vm_compute in (Workflow.entry_field h0 "price_statistics") with
          | VDict ?st =>
              specialize (H f [h0] 0%nat h0 st eq_refl eq_refl eq_refl eq_refl)
          end
      end
  end.
  vm_compute in H. discriminate.
Qed.

(** The run whose first evaluation holds the matches a and b, priced 100
    and 110, and whose second holds the match c, priced 120: the
    statistics of its second entry cover the three of them. *)
Lemma statistics_over_accumulator_witness :
  exists final h1 h2,
    Workflow.returned
      (Workflow.run (rt := Samples.runtime)
         (Fixtures.scripted Fixtures.profile Samples.evals_two_then_one
                            Fixtures.data_found) []) = Ok final /\
    get final "history" = VList [h1; h2] /\
    List.length (Workflow.matches_of h1) = 2%nat /\
    List.length (Workflow.matches_of h2) = 1%nat /\
    keys (Workflow.accumulated (rt := Samples.runtime) [h1; h2])
      = [lit "a"; lit "b"; lit "c"] /\
    Workflow.accumulated (rt := Samples.runtime) [h1; h2] =
      Workflow.merge (rt := Samples.runtime)
        (Workflow.accumulated (rt := Samples.runtime) [h1])
        (Workflow.matches_of h2) /\
    (forall m, In m (Workflow.matches_of h1) ->
       In (str (rt := Samples.runtime) (get m "id"))
          (keys (Workflow.accumulated (rt := Samples.runtime) [h1; h2]))) /\
    exists stats,
      Workflow.entry_field h2 "price_statistics" = VDict stats /\
      get stats "count_listings" = VInt 3 /\
      get stats "price_statistics_all" =
        VDict (mkdict [("min", VFloat 100); ("max", VFloat 120);
                       ("median", VFloat 110)]) /\
      get stats "price_statistics_matches" = get stats "price_statistics_all".
Proof.
  destruct (Workflow.returned
              (Workflow.run (rt := Samples.runtime)
                 (Fixtures.scripted Fixtures.profile Samples.evals_two_then_one
                                    Fixtures.data_found) []))
    as [final|e] eqn:E; vm_compute in E; [|discriminate].
  injection E as E. exists final. subst final. eexists _, _.
  split; [reflexivity|]. split; [reflexivity|].
  split; [vm_compute; reflexivity|]. split; [vm_compute; reflexivity|].
  split; [vm_compute; reflexivity|].
  match goal with
  | |- Workflow.accumulated [?h1; ?h2] = _ /\ _ =>
      destruct (statistics_over_accumulator (rt := Samples.runtime)
                  (Fixtures.scripted Fixtures.profile Samples.evals_two_then_one
                                     Fixtures.data_found) [] _ _ 1%nat h2
                  ltac:(vm_compute; reflexivity) eq_refl eq_refl)
        as (_ & (stats & Hf & _ & Hc & Hall & _ & Hsame) & Hmerge & Hkeys & _)
  end.
  split; [exact Hmerge|].
  split; [intros m Hm; exact (Hkeys 0%nat _ m (le_S _ _ (le_n 0)) eq_refl Hm)|].
  exists stats. split; [exact Hf|]. split; [exact Hc|].
  split; [|exact (Hsame eq_refl)].
  vm_compute in Hall. injection Hall as Hall. symmetry. exact Hall.
Defined.

(** ** The metrics of an iteration *)

Section IterationMetrics.
Context {rt : Runtime}.
Import Workflow.

(** C4, as the code has it.  [count_positive], [count_negative] and
    [total_listings] are the values the judgment reports; an absent count
    is replaced by the number of listings whose [is_match] is true, or is
    not, and an absent total by the sum of the two counts.  A reported
    [match_percentage] is recorded as it is, and the loop stops exactly
    when the reported [overall_sufficiency] is ["sufficient"]: the verdict
    is never recomputed.  The entry appended to the history holds these
    values. *)
Theorem reported_metrics_preferred (img : value) (i : Z) (query : value)
    (eval_data : dict) (st : state) (fl : flow) :
  record_evaluation img i query eval_data st = Ok fl ->
  exists items h,
    evaluated_items eval_data = Ok items /\
    history_after fl = history st ++ [h] /\
    entry_field h "count_positive" =
      (if is_None (get eval_data "count_positive")
       then recount (fun e => truthy (get e "is_match")) items
       else get eval_data "count_positive") /\
    entry_field h "count_negative" =
      (if is_None (get eval_data "count_negative")
       then recount (fun e => negb (truthy (get e "is_match"))) items
       else get eval_data "count_negative") /\
    (if is_None (get eval_data "total_listings")
     then add (entry_field h "count_positive") (entry_field h "count_negative")
          = Ok (entry_field h "total_listings")
     else entry_field h "total_listings" = get eval_data "total_listings") /\
    (forall v, lookup (lit "match_percentage") eval_data = Some v ->
               entry_field h "match_percentage" = v) /\
    returns fl = eq_lit (get eval_data "overall_sufficiency") "sufficient".
Proof.
  intros H.
  apply record_evaluation_spec in H
    as (items & stats & cp & cn & tl & Hitems & _ & Hcp & Hcn & Htl & _ & H).
  cbv zeta in H. exists items. eexists.
  split; [exact Hitems|].
  split; [rewrite H;
          destruct (eq_lit (get eval_data "overall_sufficiency") "sufficient");
          reflexivity|].
  cbn [entry_field].
  split; [exact Hcp|]. split; [exact Hcn|].
  split; [exact Htl|].
  split; [intros v Hv; change (get_default eval_data "match_percentage" (VInt 0) = v);
          unfold get_default; rewrite Hv; reflexivity|].
  rewrite H.
  destruct (eq_lit (get eval_data "overall_sufficiency") "sufficient");
    reflexivity.
Qed.

End IterationMetrics.

(** Four matching listings and no reported metrics: the loop goes on
    although 4 matches of 4 are sufficient, and the percentage recorded is
    not the 100.0 the flags give. *)
Lemma absent_metrics_not_recomputed : ~ Workflow.absent_metrics_recomputed.
Proof.
  intros H.
  destruct (Workflow.record_evaluation (rt := Fixtures.runtime) Fixtures.profile 1
              (VStr (lit "bike")) Fixtures.four_matches (Workflow.initial_state []))
    as [fl|e] eqn:E; vm_compute in E; [|discriminate].
  injection E as E.
  destruct (Workflow.evaluated_items Fixtures.four_matches) as [items|e] eqn:I;
    vm_compute in I; [|discriminate].
  injection I as I.
  destruct (H Fixtures.runtime Fixtures.profile 1 (VStr (lit "bike"))
              Fixtures.four_matches (Workflow.initial_state []) fl items)
    as [_ Hverdict].
  - subst fl. vm_compute. reflexivity.
  - subst items. vm_compute. reflexivity.
  - subst fl items. specialize (Hverdict eq_refl).
    vm_compute in Hverdict. discriminate.
Qed.

(** The evaluation of four matching listings that reports a percentage
    and nothing else. *)
Lemma reported_metrics_witness :
  exists fl h,
    Workflow.record_evaluation (rt := Fixtures.runtime) Fixtures.profile 1
      (VStr (lit "bike")) Fixtures.four_matches_100 (Workflow.initial_state [])
    = Ok fl /\
    Workflow.history_after fl = [h] /\
    Workflow.entry_field h "count_positive" = VInt 4 /\
    Workflow.entry_field h "match_percentage" = VInt 100 /\
    Workflow.returns fl = false.
Proof.
  destruct (Workflow.record_evaluation (rt := Fixtures.runtime) Fixtures.profile 1
              (VStr (lit "bike")) Fixtures.four_matches_100
              (Workflow.initial_state []))
    as [fl|e] eqn:E; vm_compute in E; [|discriminate].
  injection E as E. exists fl.
  destruct (reported_metrics_preferred (rt := Fixtures.runtime) Fixtures.profile 1
              (VStr (lit "bike")) Fixtures.four_matches_100
              (Workflow.initial_state []) fl)
    as (items & h & Hitems & Hh & Hcp & _ & _ & Hmp & Hret).
  - subst fl. vm_compute. reflexivity.
  - exists h. split; [reflexivity|]. split; [exact Hh|].
    vm_compute in Hitems. injection Hitems as Hitems. subst items.
    split; [exact Hcp|]. split; [exact (Hmp (VInt 100) eq_refl) | exact Hret].
Defined.

(** ** The price format in closed form *)

Section PriceFormatClosed.
Context {rt : Runtime}.
Import PriceCalculation PriceFormat.


Lemma filter_none {A} (p : A -> bool) (l : list A) :
  forallb (fun x => negb (p x)) l = true -> filter p l = [].
Proof.
  induction l as [|x l IH]; simpl; [reflexivity|].
  intros H. apply andb_true_iff in H as [Hx Hl].
  apply negb_true_iff in Hx. rewrite Hx. exact (IH Hl).
Qed.



Lemma isdecimal_COMMA : isdecimal COMMA = false.
Proof. reflexivity. Qed.


Lemma digits_all (s : ustr) : forallb isdecimal (digits s) = true.
Proof.
  unfold digits. induction s as [|c s IH]; simpl; [reflexivity|].
  destruct (isdecimal c) eqn:E; simpl; [rewrite E|]; exact IH.
Qed.







Section Separator.
Variable sep : codepoint.
Hypothesis sep_not_decimal : isdecimal sep = false.





End Separator.




End PriceFormatClosed.

(** ** The calculator: its domain, and the matches among all listings *)

Section CalculatorDomain.
Context {rt : Runtime}.
Import Workflow PriceCalculation Calculator.

Lemma collect_dict_total (acc : collected) (d : dict) :
  exists acc', collect acc (VDict d) = Ok acc'.
Proof.
  unfold collect. cbn [as_dict bind].
  destruct (_parse_price _); eexists; reflexivity.
Qed.

Lemma collect_all_raises (items : list value) (acc : collected) :
  forallb is_dict items = false ->
  exists e, collect_all acc items = Raise e /\ exn_cls e = AttributeError.
Proof.
  revert acc. induction items as [|x items IH]; intros acc H; [discriminate|].
  cbn [forallb] in H. cbn [collect_all].
  destruct x as [| | | | |l|d];
    try (eexists; split; [reflexivity | reflexivity]).
  cbn [is_dict andb] in H.
  destruct (collect_dict_total acc d) as (acc' & ->). cbn [bind].
  apply IH, H.
Qed.

Lemma all_dicts (items : list value) :
  forallb is_dict items = true -> exists listings, items = map VDict listings.
Proof.
  induction items as [|x items IH]; intros H.
  - exists []; reflexivity.
  - cbn [forallb] in H. apply andb_true_iff in H as [Hx Hl].
    destruct (IH Hl) as (ls & ->).
    destruct x; try discriminate. exists (d :: ls); reflexivity.
Qed.

(** X2.  The domain of [calculate_from_evaluation].  A payload without
    the key 'individual_results_evaluation', or with a falsy value under
    it, gives the counts 0 and no statistics.  On a list the calculator
    returns statistics exactly when every item is a dict: price strings
    that do not parse are skipped, but an item that is not a dict makes the
    call raise [AttributeError], since [it.get] stands outside the [try]. *)
Theorem calculator_domain (payload : dict) :
  (truthy (get payload "individual_results_evaluation") = false ->
   calculate_from_evaluation payload = Ok nothing_counted) /\
  (forall items,
     get payload "individual_results_evaluation" = VList items ->
     (forallb is_dict items = true ->
      exists stats, calculate_from_evaluation payload = Ok stats) /\
     (forallb is_dict items = false ->
      exists e, calculate_from_evaluation payload = Raise e /\
                exn_cls e = AttributeError)).
Proof.
  unfold calculate_from_evaluation, get, get_default.
  destruct (lookup (lit "individual_results_evaluation") payload) as [v|].
  - split.
    + intros Hv. unfold or_. rewrite Hv. reflexivity.
    + intros items ->.
      assert (Hitems : or_ (VList items) (VList []) = VList items)
        by (destruct items; reflexivity).
      rewrite Hitems. cbn [iterate bind]. split; intros H.
      * destruct (all_dicts items H) as (listings & ->).
        rewrite (collect_all_spec listings (mkCollected [] [] 0)).
        cbn [bind prices prices_from_matches parsed_count len app].
        destruct (price_statistics_total (parsed_prices listings)) as (sa & -> & _).
        destruct (price_statistics_total (parsed_prices (filter flagged listings)))
          as (sm & -> & _).
        cbn [bind]. eexists; reflexivity.
      * destruct (collect_all_raises items (mkCollected [] [] 0) H) as (e & -> & He).
        exists e. split; [reflexivity | exact He].
  - split; [reflexivity|]. intros items H; discriminate.
Qed.

Lemma parsed_prices_flagged (listings : list dict) :
  subseq (parsed_prices (filter flagged listings)) (parsed_prices listings).
Proof.
  induction listings as [|d ds IH]; [constructor|].
  cbn [filter]. rewrite (parsed_prices_cons d ds).
  destruct (flagged d).
  - rewrite parsed_prices_cons.
    destruct (parsed_price d); [apply subseq_take|]; exact IH.
  - destruct (parsed_price d); [apply subseq_skip|]; exact IH.
Qed.

(** X3.  The matches among all listings.  The prices behind
    [price_statistics_matches] are among the prices behind
    [price_statistics_all], in the same order; at most as many prices
    parse as there are listings; statistics of the matches are reported
    only when statistics of all listings are.  Before rounding, the
    smallest price of the matches is not below the smallest of all, and the
    largest not above the largest of all. *)
Theorem matches_within_all (listings : list dict) :
  subseq (parsed_prices (filter flagged listings)) (parsed_prices listings) /\
  (forall stats,
     calculate_from_evaluation (payload_of listings) = Ok stats ->
     exists parsed count,
       get stats "count_prices_parsed" = VInt parsed /\
       get stats "count_listings" = VInt count /\
       0 <= parsed <= count /\
       (get stats "price_statistics_all" = VNone ->
        get stats "price_statistics_matches" = VNone)) /\
  (forall lo lo_m,
     min_ (parsed_prices listings) = Ok lo ->
     min_ (parsed_prices (filter flagged listings)) = Ok lo_m ->
     PrimFloat.ltb lo_m lo = false) /\
  (forall hi hi_m,
     max_ (parsed_prices listings) = Ok hi ->
     max_ (parsed_prices (filter flagged listings)) = Ok hi_m ->
     PrimFloat.ltb hi hi_m = false).
Proof.
  pose proof (parsed_prices_flagged listings) as Hsub.
  split; [exact Hsub|]. split; [|split].
  - intros stats Hs.
    destruct (price_statistics_total (parsed_prices listings)) as (sa & Ha & Hae).
    destruct (price_statistics_total (parsed_prices (filter flagged listings)))
      as (sm & Hm & Hme).
    rewrite (calculate_spec listings sa sm Ha Hm) in Hs.
    injection Hs as <-.
    exists (Z.of_nat (List.length (filter parses listings))),
           (Z.of_nat (List.length listings)).
    split; [reflexivity|]. split; [reflexivity|]. split.
    + pose proof (filter_length_le parses listings). lia.
    + change (sa = VNone -> sm = VNone). intros Hnone.
      apply Hme. apply Hae in Hnone. rewrite Hnone in Hsub.
      inversion Hsub. reflexivity.
  - intros lo lo_m Hlo Hlom.
    destruct (min_spec _ _ Hlo) as [_ Hall].
    destruct (min_spec _ _ Hlom) as [Hin _].
    apply Hall. exact (subseq_In _ _ _ Hsub Hin).
  - intros hi hi_m Hhi Hhim.
    destruct (max_spec _ _ Hhi) as [_ Hall].
    destruct (max_spec _ _ Hhim) as [Hin _].
    apply Hall. exact (subseq_In _ _ _ Hsub Hin).
Qed.

End CalculatorDomain.

(** ** The sufficiency judge: order of the items, and the half rule *)

Section JudgeRules.
Context {rt : Runtime}.
Import MetricsTools.

Lemma filter_length_perm {A} (p : A -> bool) (l l' : list A) :
  Permutation l l' -> List.length (filter p l) = List.length (filter p l').
Proof.
  induction 1 as [|x l l' _ IH|x y l|l l' l'' _ IH1 _ IH2]; cbn [filter].
  - reflexivity.
  - destruct (p x); cbn [List.length]; rewrite IH; reflexivity.
  - destruct (p x), (p y); reflexivity.
  - rewrite IH1. exact IH2.
Qed.

(** X4.  The verdict does not depend on the order of the evaluated items:
    the tool returns the same text for a list and for any rearrangement of
    it. *)
Theorem metrics_order_independent (l l' : list value) :
  Permutation l l' ->
  metrics l = metrics l' /\ _run (VList l) = _run (VList l').
Proof.
  intros H.
  assert (Hm : metrics l = metrics l').
  { unfold metrics.
    rewrite (filter_length_perm is_positive l l' H), (Permutation_length H).
    reflexivity. }
  split; [exact Hm|].
  destruct l as [|i l].
  - apply Permutation_nil in H. subst l'. reflexivity.
  - destruct l' as [|i' l'].
    + apply Permutation_sym, Permutation_nil in H. discriminate.
    + unfold _run. rewrite Hm. reflexivity.
Qed.

Lemma holds_upto_spec (n total pos : nat) :
  HalfRule.holds_upto n = true ->
  (1 <= total <= n)%nat -> (pos <= total)%nat ->
  HalfRule.holds total pos = true.
Proof.
  unfold HalfRule.holds_upto. intros H Ht Hp.
  rewrite forallb_forall in H.
  specialize (H total ltac:(apply in_seq; lia)).
  rewrite forallb_forall in H.
  apply H. apply in_seq. lia.
Qed.

Lemma half_rule_100 : HalfRule.holds_upto 100 = true.
Proof. vm_compute. reflexivity. Qed.

(** X5.  The half rule.  For a list of at most 100 items the verdict is
    "sufficient" exactly when at least half of the items are positive and
    at least three are: on these sizes rounding the percentage to two
    decimals does not move it across 50. *)
Theorem sufficient_iff_half (items : list value) :
  (1 <= List.length items <= 100)%nat ->
  let pos := List.length (filter is_positive items) in
  get (metrics items) "overall_sufficiency" = VStr (lit "sufficient") <->
  (List.length items <= 2 * pos)%nat /\ (3 <= pos)%nat.
Proof.
  intros Hn pos.
  pose proof (holds_upto_spec 100 (List.length items) pos half_rule_100 Hn
                (filter_length_le is_positive items)) as Hh.
  unfold HalfRule.holds in Hh. apply eqb_prop in Hh.
  unfold metrics. fold pos. unfold get, get_default. cbn [mkdict map fst snd].
  change (lookup (lit "overall_sufficiency") _)
    with (Some (VStr (lit (if is_sufficient
                                (match_percentage (Z.of_nat pos)
                                   (Z.of_nat (List.length items)))
                                (Z.of_nat pos)
                           then "sufficient" else "not sufficient")))).
  unfold is_sufficient. rewrite Hh.
  destruct (Nat.leb_spec (List.length items) (2 * pos));
    destruct (Z.geb_spec (Z.of_nat pos) 3); cbn [andb];
    (split; [intros E; first [discriminate E | split; lia]
            | intros [? ?]; first [reflexivity | lia]]).
Qed.

End JudgeRules.

(** ** The verdicts and percentages a run records *)

Section Verdicts.
Context {rt : Runtime}.
Import Workflow History.
Variable app : App.
Variable inputs : dict.

Lemma gt_numeric (a b : value) (r : bool) :
  numeric b = true -> gt a b = Ok r -> numeric a = true.
Proof.
  unfold numeric, gt. destruct (as_number b) eqn:Eb; [|discriminate]. intros _.
  destruct (as_number a) eqn:Ea; [reflexivity|].
  destruct a; try discriminate Ea; destruct b; try discriminate Eb;
    intros H; discriminate H.
Qed.

Lemma track_numeric (best : dict) (h : value) :
  numeric (get_default best "match_percentage" (VInt (-1))) = true ->
  numeric (entry_field h "match_percentage") = true ->
  numeric (get_default (track best h) "match_percentage" (VInt (-1))) = true.
Proof.
  intros Hb Hh. unfold track. destruct h as [| | | | | |step_res]; try exact Hb.
  destruct (gt _ _) as [[|]|]; try exact Hb.
  cbn [entry_field] in Hh. unfold get in Hh. unfold get_default in *.
  destruct (lookup (lit "match_percentage") step_res); [exact Hh | discriminate Hh].
Qed.

(** One completed evaluation: the entry it appends, and how it ends. *)
Lemma record_evaluation_verdict (img : value) (i : Z) (query : value)
    (eval_data : dict) (st : state) (fl : flow) :
  numeric (get_default (best_res st) "match_percentage" (VInt (-1))) = true ->
  record_evaluation img i query eval_data st = Ok fl ->
  exists h,
    entry_field h "iteration" = VInt i /\
    entry_field h "match_percentage" =
      get_default eval_data "match_percentage" (VInt 0) /\
    numeric (entry_field h "match_percentage") = true /\
    ((reports_sufficient h = true /\
      exists best,
        fl = Return (_finalize true (VInt i) best (history st ++ [h]) img)) \/
     (reports_sufficient h = false /\
      exists st',
        fl = Next st' /\ history st' = history st ++ [h] /\
        numeric (get_default (best_res st') "match_percentage" (VInt (-1))) = true)).
Proof.
  intros Hbest H.
  apply record_evaluation_spec in H
    as (items & stats & cp & cn & tl & _ & _ & _ & _ & _ & (b & Hgt) & H).
  cbv zeta in H.
  set (step_res := step_result i query eval_data cp cn tl
                     (get_default eval_data "match_percentage" (VInt 0)) stats) in *.
  pose proof (gt_numeric _ _ _ Hbest Hgt) as Hnum.
  exists (VDict step_res).
  split; [reflexivity|]. split; [reflexivity|]. split; [exact Hnum|].
  assert (Hv : reports_sufficient (VDict step_res) =
               eq_lit (get eval_data "overall_sufficiency") "sufficient")
    by reflexivity.
  rewrite Hv.
  destruct (eq_lit (get eval_data "overall_sufficiency") "sufficient").
  - left. split; [reflexivity|]. eexists. exact H.
  - right. split; [reflexivity|]. eexists. split; [exact H|].
    split; [reflexivity|]. cbn [best_res].
    apply track_numeric; [exact Hbest | exact Hnum].
Qed.

(** The loop from a state whose entries were all passed. *)
Lemma loop_verdicts (img : value) (indices : list Z) (st : state) (final : dict) :
  Forall passed (history st) ->
  numeric (get_default (best_res st) "match_percentage" (VInt (-1))) = true ->
  returned (loop app inputs img indices st) = Ok final ->
  exists hist,
    get final "history" = VList hist /\
    ((get final "success" = VBool false /\ Forall passed hist /\
      attempts (loop app inputs img indices st) = indices) \/
     (get final "success" = VBool true /\
      exists before h i tried,
        hist = before ++ [h] /\ Forall passed before /\
        numeric (entry_field h "match_percentage") = true /\
        reports_sufficient h = true /\
        entry_field h "iteration" = VInt i /\
        get final "best_iteration" = VInt i /\
        attempts (loop app inputs img indices st) = tried ++ [i])).
Proof.
  revert st. induction indices as [|i rest IH]; intros st Hp Hb Hret.
  - cbn [loop attempts returned] in *. injection Hret as <-.
    exists (history st). split; [reflexivity|]. left.
    split; [reflexivity|]. split; [exact Hp | reflexivity].
  - cbn [loop] in *.
    destruct (iteration_cases app inputs img i st) as (st1 & Hs & Hit).
    destruct Hs as (Hh1 & Hb1 & _).
    assert (Hgo : forall st',
              Forall passed (history st') ->
              numeric (get_default (best_res st') "match_percentage" (VInt (-1)))
                = true ->
              returned (loop app inputs img rest st') = Ok final ->
              exists hist,
                get final "history" = VList hist /\
                ((get final "success" = VBool false /\ Forall passed hist /\
                  i :: attempts (loop app inputs img rest st') = i :: rest) \/
                 (get final "success" = VBool true /\
                  exists before h i' tried,
                    hist = before ++ [h] /\ Forall passed before /\
                    numeric (entry_field h "match_percentage") = true /\
                    reports_sufficient h = true /\
                    entry_field h "iteration" = VInt i' /\
                    get final "best_iteration" = VInt i' /\
                    i :: attempts (loop app inputs img rest st') = tried ++ [i']))).
    { intros st' Hp' Hb' Hret'.
      destruct (IH st' Hp' Hb' Hret') as (hist & Hhist & Hend).
      exists hist. split; [exact Hhist|].
      destruct Hend as [(Hf & Hall & Ha) |
                        (Ht & before & h & i' & tried & E & Hall & Hn & Hsuf & Hi & Hbi & Ha)].
      - left. rewrite Ha. auto.
      - right. split; [exact Ht|].
        exists before, h, i', (i :: tried). rewrite Ha. auto 10. }
    destruct Hit as [Hskip | (_ & query & eval_data & Hev)].
    + rewrite Hskip in *. cbn [attempts returned] in *.
      apply Hgo; [rewrite Hh1; exact Hp | rewrite Hb1; exact Hb | exact Hret].
    + rewrite Hev in *.
      destruct (record_evaluation img i query eval_data st1) as [fl|e] eqn:Hre;
        [|discriminate Hret].
      rewrite <- Hb1 in Hb.
      destruct (record_evaluation_verdict _ _ _ _ _ _ Hb Hre)
        as (h & Hi & _ & Hn & [(Hsuf & best & ->) | (Hsuf & st' & -> & Hh' & Hb')]).
      * cbn [attempts returned] in *. injection Hret as <-.
        exists (history st1 ++ [h]). split; [reflexivity|]. right.
        split; [reflexivity|].
        exists (history st1), h, i, []. rewrite Hh1. auto 10.
      * cbn [attempts returned] in *.
        apply Hgo; [|exact Hb' | exact Hret].
        rewrite Hh', Hh1. apply Forall_app. split; [exact Hp|].
        constructor; [split; assumption | constructor].
Qed.

Lemma run_verdicts (final : dict) :
  returned (run app inputs) = Ok final ->
  exists hist,
    get final "history" = VList hist /\
    ((get final "success" = VBool false /\ Forall passed hist) \/
     (get final "success" = VBool true /\
      exists before h i tried,
        hist = before ++ [h] /\ Forall passed before /\
        numeric (entry_field h "match_percentage") = true /\
        reports_sufficient h = true /\
        entry_field h "iteration" = VInt i /\
        get final "best_iteration" = VInt i /\
        attempts (run app inputs) = tried ++ [i])).
Proof.
  unfold run.
  destruct (analyse app inputs) as [[res_p1 img]|e].
  - destruct (reported_error img) as [error|].
    + cbn [returned]. intros H. injection H as <-.
      exists []. split; [reflexivity|]. left. split; [reflexivity | constructor].
    + destruct (nth_error (tasks_output res_p1) 1) as [raw1|]; [|discriminate].
      intros H.
      destruct (loop_verdicts img range_1_4 (initial_state raw1) final
                  ltac:(constructor) eq_refl H) as (hist & Hh & Hend).
      exists hist. split; [exact Hh|].
      destruct Hend as [(Hf & Hall & _) | Hright]; [left; auto | right; exact Hright].
  - cbn [returned]. intros H. injection H as <-.
    exists []. split; [reflexivity|]. left. split; [reflexivity | constructor].
Qed.

End Verdicts.

(** ** What a run records about verdicts, percentages and counts *)

Section RecordedVerdicts.
Context {rt : Runtime}.
Import Workflow History.

(** X6.  The loop stops at the first sufficient verdict.  A run returns
    success=true exactly when the evaluation of its last history entry
    reports "sufficient"; no earlier entry does; that entry belongs to the
    last iteration the run attempted, whose index is returned as
    best_iteration, so no later iteration is entered.  A run that returns
    success=false holds no entry with a sufficient verdict. *)
Theorem stops_at_first_sufficient (app : App) (inputs final : dict)
    (hist : list value) :
  returned (run app inputs) = Ok final ->
  get final "history" = VList hist ->
  (get final "success" = VBool false /\
   Forall (fun h => reports_sufficient h = false) hist) \/
  (get final "success" = VBool true /\
   exists before h i tried,
     hist = before ++ [h] /\
     Forall (fun h => reports_sufficient h = false) before /\
     reports_sufficient h = true /\
     entry_field h "iteration" = VInt i /\
     get final "best_iteration" = VInt i /\
     attempts (run app inputs) = tried ++ [i]).
Proof.
  intros Hret Hhist.
  destruct (run_verdicts app inputs final Hret) as (hist' & Hh & Hend).
  rewrite Hhist in Hh. injection Hh as <-.
  assert (Hweak : forall l, Forall passed l ->
            Forall (fun h => reports_sufficient h = false) l).
  { intros l Hl. eapply Forall_impl; [|exact Hl]. intros h [_ Hs]. exact Hs. }
  destruct Hend as [(Hf & Hall) |
                    (Ht & before & h & i & tried & E & Hall & _ & Hs & Hi & Hb & Ha)].
  - left. split; [exact Hf | apply Hweak, Hall].
  - right. split; [exact Ht|]. exists before, h, i, tried.
    split; [exact E|]. split; [apply Hweak, Hall|]. auto.
Qed.


(** X8.  When the judgment output reports none of the three counts, the
    counts recorded partition the evaluated listings: count_positive is the
    number of listings with a truthy is_match, count_negative the number of
    the others, and total_listings the number of evaluated listings. *)
Theorem absent_counts_partition (img : value) (i : Z) (query : value)
    (eval_data : dict) (st : state) (fl : flow) :
  record_evaluation img i query eval_data st = Ok fl ->
  get eval_data "count_positive" = VNone ->
  get eval_data "count_negative" = VNone ->
  get eval_data "total_listings" = VNone ->
  exists items h,
    evaluated_items eval_data = Ok items /\
    history_after fl = history st ++ [h] /\
    entry_field h "count_positive" =
      VInt (Z.of_nat (List.length
              (filter (fun e => truthy (get e "is_match")) items))) /\
    entry_field h "count_negative" =
      VInt (Z.of_nat (List.length
              (filter (fun e => negb (truthy (get e "is_match"))) items))) /\
    entry_field h "total_listings" = VInt (Z.of_nat (List.length items)).
Proof.
  intros H Hp Hn Ht.
  apply record_evaluation_spec in H
    as (items & stats & cp & cn & tl & Hitems & _ & Hcp & Hcn & Htl & _ & H).
  cbv zeta in H. rewrite Hp in Hcp. rewrite Hn in Hcn. rewrite Ht in Htl.
  cbn [is_None] in *. subst cp cn. unfold recount in *.
  cbn [add as_number number_add] in Htl. injection Htl as <-.
  exists items. eexists.
  split; [exact Hitems|].
  split; [rewrite H;
          destruct (eq_lit (get eval_data "overall_sufficiency") "sufficient");
          reflexivity|].
  cbn [entry_field].
  split; [reflexivity|]. split; [reflexivity|].
  change (VInt (Z.of_nat (List.length
                  (filter (fun e => truthy (get e "is_match")) items)) +
                Z.of_nat (List.length
                  (filter (fun e => negb (truthy (get e "is_match"))) items)))
          = VInt (Z.of_nat (List.length items))).
  rewrite <- Nat2Z.inj_add, filter_length. reflexivity.
Qed.

End RecordedVerdicts.

(** A sufficient verdict in the first iteration: one attempt, one entry. *)
Lemma stops_at_first_sufficient_witness :
  exists final h,
    Workflow.returned
      (Workflow.run (rt := Samples.runtime)
         (Fixtures.scripted Fixtures.profile Samples.evals_sufficient_first
                            Fixtures.data_found) []) = Ok final /\
    get final "history" = VList [h] /\
    get final "success" = VBool true /\
    get final "best_iteration" = VInt 1.
Proof.
  destruct (Workflow.returned
              (Workflow.run (rt := Samples.runtime)
                 (Fixtures.scripted Fixtures.profile Samples.evals_sufficient_first
                                    Fixtures.data_found) []))
    as [final|e] eqn:E; vm_compute in E; [|discriminate].
  injection E as E.
  destruct (Workflow.history_after (Workflow.Return final)) as [|h l] eqn:Eh;
    [subst final; vm_compute in Eh; discriminate|].
  exists final, h.
  assert (Hh : get final "history" = VList [h]).
  { subst final. vm_compute in Eh. injection Eh as <- <-. vm_compute. reflexivity. }
  destruct (stops_at_first_sufficient (rt := Samples.runtime)
              (Fixtures.scripted Fixtures.profile Samples.evals_sufficient_first
                                 Fixtures.data_found) [] final [h])
    as [(Hf & _) | (Ht & before & h' & i & tried & _ & _ & _ & Hi & Hb & _)].
  - subst final. vm_compute. reflexivity.
  - exact Hh.
  - subst final. vm_compute in Hf. discriminate.
  - split; [subst final; vm_compute; reflexivity|].
    split; [exact Hh|]. split; [exact Ht|].
    subst final. vm_compute. reflexivity.
Defined.


(** Three listings, two of them flagged, and no counts reported: 2, 1
    and 3 are recorded. *)
Lemma absent_counts_witness :
  exists fl h,
    Workflow.record_evaluation (rt := Samples.runtime) Fixtures.profile 1
      (VStr (lit "bike")) Samples.two_of_three (Workflow.initial_state [])
    = Ok fl /\
    Workflow.history_after fl = [h] /\
    Workflow.entry_field h "count_positive" = VInt 2 /\
    Workflow.entry_field h "count_negative" = VInt 1 /\
    Workflow.entry_field h "total_listings" = VInt 3.
Proof.
  destruct (Workflow.record_evaluation (rt := Samples.runtime) Fixtures.profile 1
              (VStr (lit "bike")) Samples.two_of_three
              (Workflow.initial_state []))
    as [fl|e] eqn:E; vm_compute in E; [|discriminate].
  injection E as E. exists fl.
  destruct (absent_counts_partition (rt := Samples.runtime) Fixtures.profile 1
              (VStr (lit "bike")) Samples.two_of_three
              (Workflow.initial_state []) fl)
    as (items & h & Hitems & Hh & Hcp & Hcn & Htl);
    try (vm_compute; reflexivity).
  - subst fl. vm_compute. reflexivity.
  - exists h. split; [reflexivity|]. split; [exact Hh|].
    vm_compute in Hitems. injection Hitems as Hitems. subst items.
    split; [exact Hcp|]. split; [exact Hcn | exact Htl].
Defined.

(** ** The best result, the summary and the growth of the accumulator *)

Section BestResult.
Context {rt : Runtime}.
Import Workflow History PriceCalculation.

Lemma track_cases (best : dict) (h : value) :
  track best h = best \/ exists step_res, h = VDict step_res /\ track best h = step_res.
Proof.
  unfold track. destruct h as [| | | | | |step_res]; try (left; reflexivity).
  destruct (gt _ _) as [[|]|]; try (left; reflexivity).
  right. exists step_res. split; reflexivity.
Qed.

Lemma tracked_cases (hist : list value) :
  tracked hist = initial_best \/
  exists d, In (VDict d) hist /\ tracked hist = d.
Proof.
  induction hist as [|h hist IH] using rev_ind; [left; reflexivity|].
  rewrite tracked_snoc.
  destruct (track_cases (tracked hist) h) as [-> | (step_res & -> & ->)].
  - destruct IH as [IH | (d & Hin & IH)]; [left; exact IH|].
    right. exists d. split; [apply in_or_app; left; exact Hin | exact IH].
  - right. exists step_res. split; [|reflexivity].
    apply in_or_app. right. left. reflexivity.
Qed.

Lemma price_statistics_shape (ps : list float) (v : value) :
  price_statistics ps = Ok v -> statistics_shape v.
Proof.
  intros H. pose proof (price_statistics_populated ps) as Hp.
  destruct ps as [|p ps].
  - rewrite Hp in H. injection H as <-. left. reflexivity.
  - destruct Hp as (lo & hi & med & _ & _ & _ & Hp). rewrite Hp in H.
    injection H as <-. right. do 3 eexists. reflexivity.
Qed.

Lemma calculate_shape (payload stats : dict) :
  calculate_from_evaluation payload = Ok stats ->
  exists parsed count sa sm,
    stats = mkdict [("count_prices_parsed", VInt parsed);
                    ("count_listings", VInt count);
                    ("price_statistics_all", sa);
                    ("price_statistics_matches", sm)] /\
    statistics_shape sa /\ statistics_shape sm.
Proof.
  unfold calculate_from_evaluation.
  destruct (iterate _) as [its|]; [|discriminate]. cbn [bind].
  destruct (collect_all _ its) as [acc|]; [|discriminate]. cbn [bind].
  destruct (len _) as [n|]; [|discriminate]. cbn [bind].
  destruct (price_statistics (prices acc)) as [sa|] eqn:Ea; [|discriminate].
  cbn [bind].
  destruct (price_statistics (prices_from_matches acc)) as [sm|] eqn:Em;
    [|discriminate].
  cbn [bind]. intros H. injection H as <-.
  exists (parsed_count acc), n, sa, sm.
  split; [reflexivity|].
  split; eapply price_statistics_shape; eassumption.
Qed.

(** The summary of a tracker that holds the statistics of the
    calculator. *)
Lemma item_price_of_statistics (best : dict) (img : value)
    (parsed count : Z) (sa sm : value) :
  get best "price_statistics" =
    VDict (mkdict [("count_prices_parsed", VInt parsed);
                   ("count_listings", VInt count);
                   ("price_statistics_all", sa);
                   ("price_statistics_matches", sm)]) ->
  statistics_shape sa -> statistics_shape sm ->
  exists summary,
    Summary.item_price best img = Ok summary /\
    ((sm = VNone /\ sa = VNone /\
      get summary "range" = VList [] /\ get summary "median" = VNone) \/
     (exists lo hi med,
        (if is_None sm then sa else sm) =
          VDict (mkdict [("min", VFloat lo); ("max", VFloat hi);
                         ("median", VFloat med)]) /\
        get summary "range" = VList [VFloat lo; VFloat hi] /\
        get summary "median" = VFloat med)).
Proof.
  intros Hps Ha Hm. unfold Summary.item_price. rewrite Hps.
  destruct Hm as [-> | (lo & hi & med & ->)].
  - destruct Ha as [-> | (lo & hi & med & ->)].
    + eexists. split; [reflexivity|]. left. repeat split; reflexivity.
    + eexists. split; [reflexivity|]. right. exists lo, hi, med.
      repeat split; reflexivity.
  - eexists. split; [reflexivity|]. right. exists lo, hi, med.
    repeat split; reflexivity.
Qed.

(** X9.  The summary [_finalize] writes for a run.  For the best result
    of every run that reached the loop the summary is built without an
    exception.  Its prices come from the statistics the best result holds:
    from price_statistics_matches when that is populated, else from
    price_statistics_all; range is then [[min, max]] and median the median
    of that source.  When the best result is the initial tracker, or holds
    neither statistics, range is empty and median is [None]. *)
Theorem summary_of_a_run (app : App) (inputs final best : dict) (img : value) :
  returned (run app inputs) = Ok final ->
  lookup (lit "error") final = None ->
  get final "best_result" = VDict best ->
  exists summary,
    Summary.item_price best img = Ok summary /\
    ((get summary "range" = VList [] /\ get summary "median" = VNone /\
      (best = initial_best \/
       exists stats,
         get best "price_statistics" = VDict stats /\
         get stats "price_statistics_matches" = VNone /\
         get stats "price_statistics_all" = VNone)) \/
     (exists stats lo hi med,
        get best "price_statistics" = VDict stats /\
        (if is_None (get stats "price_statistics_matches")
         then get stats "price_statistics_all"
         else get stats "price_statistics_matches") =
          VDict (mkdict [("min", VFloat lo); ("max", VFloat hi);
                         ("median", VFloat med)]) /\
        get summary "range" = VList [VFloat lo; VFloat hi] /\
        get summary "median" = VFloat med)).
Proof.
  intros Hret Herr Hbest.
  destruct (returned_shape app inputs final Hret)
    as [(error & ->) | (hist & js & _ & Hb & _ & _ & _ & _ & Hrec & _)];
    [discriminate Herr|].
  rewrite Hbest in Hb. injection Hb as ->.
  destruct (tracked_cases hist) as [-> | (d & Hin & ->)].
  - eexists. split; [reflexivity|]. left.
    split; [reflexivity|]. split; [reflexivity|]. left. reflexivity.
  - destruct (In_nth_error _ _ Hin) as (k & Hk).
    destruct (Hrec k _ Hk) as (stats & Hps & Hcalc).
    cbn [entry_field] in Hps.
    destruct (calculate_shape _ _ Hcalc) as (parsed & count & sa & sm & E & Ha & Hm).
    rewrite E in Hps.
    destruct (item_price_of_statistics d img parsed count sa sm Hps Ha Hm)
      as (summary & Hs & Hcases).
    exists summary. split; [exact Hs|].
    destruct Hcases as [(-> & -> & Hr & Hmed) | (lo & hi & med & Hsrc & Hr & Hmed)].
    + left. split; [exact Hr|]. split; [exact Hmed|]. right.
      eexists. split; [exact Hps|]. split; reflexivity.
    + right. eexists. exists lo, hi, med.
      split; [exact Hps|]. split; [exact Hsrc|]. split; [exact Hr | exact Hmed].
Qed.

End BestResult.

Section AccumulatorGrowth.
Context {rt : Runtime}.
Import Workflow History PriceCalculation.

Lemma count_listings_recorded (hist : list value) (k : nat) (h : value) :
  stats_recorded hist -> nth_error hist k = Some h ->
  count_listings_of h =
    VInt (Z.of_nat (List.length (accumulated (firstn (S k) hist)))).
Proof.
  intros Hrec Hk. destruct (Hrec k h Hk) as (stats & Hps & Hcalc).
  unfold count_listings_of. rewrite Hps.
  destruct (values_listings _ (accumulated_holds_dicts (firstn (S k) hist)))
    as [Hv Hl].
  rewrite Hv in Hcalc.
  set (ls := listings_of (accumulated (firstn (S k) hist))) in *.
  destruct (price_statistics_total (parsed_prices ls)) as (sa & Ha & _).
  destruct (price_statistics_total (parsed_prices (filter flagged ls)))
    as (sm & Hm & _).
  pose proof (calculate_spec ls sa sm Ha Hm) as Hspec. unfold payload_of in Hspec.
  rewrite Hspec in Hcalc. injection Hcalc as <-. rewrite <- Hl. reflexivity.
Qed.

(** X10.  The accumulator only grows.  Along the history of a run the
    recorded count_listings never decreases, and an id that is a key of the
    accumulator after one evaluation is a key after every later one: a
    listing once accumulated is replaced under its id but never dropped. *)
Theorem accumulator_grows (app : App) (inputs final : dict)
    (hist : list value) (k k' : nat) (h h' : value) :
  returned (run app inputs) = Ok final ->
  get final "history" = VList hist ->
  (k <= k')%nat ->
  nth_error hist k = Some h -> nth_error hist k' = Some h' ->
  exists n n',
    count_listings_of h = VInt n /\ count_listings_of h' = VInt n' /\
    0 <= n <= n' /\
    forall id, In id (keys (accumulated (firstn (S k) hist))) ->
               In id (keys (accumulated (firstn (S k') hist))).
Proof.
  intros Hret Hhist Hle Hk Hk'.
  destruct (returned_shape app inputs final Hret)
    as [(error & ->) | (hist0 & js & Hh & _ & _ & _ & _ & _ & Hrec & _)].
  - injection Hhist as <-. destruct k; discriminate Hk.
  - rewrite Hhist in Hh. injection Hh as <-.
    assert (Hsplit : firstn (S k') hist =
                     firstn (S k) hist ++ skipn (S k) (firstn (S k') hist)).
    { rewrite <- (firstn_skipn (S k) (firstn (S k') hist)) at 1.
      rewrite firstn_firstn. replace (Nat.min (S k) (S k')) with (S k) by lia.
      reflexivity. }
    destruct (accumulated_grows (skipn (S k) (firstn (S k') hist))
                                (firstn (S k) hist)) as [Hl Hkeys].
    rewrite <- Hsplit in Hl, Hkeys.
    eexists. eexists.
    split; [exact (count_listings_recorded hist k h Hrec Hk)|].
    split; [exact (count_listings_recorded hist k' h' Hrec Hk')|].
    split; [lia | exact Hkeys].
Qed.

Lemma prefix_In {A} (l m : list A) (x : A) : prefix l m -> In x l -> In x m.
Proof. intros [rest ->] H. apply in_or_app. left. exact H. Qed.

(** X11.  The best result is a recorded one.  In every run that reached
    the loop best_iteration is 0, 1, 2 or 3, and best_result is the initial
    tracker or one of the history entries; when the run ends without a
    sufficient verdict, best_iteration is 0 for the initial tracker and
    else the iteration number of the entry returned as best_result. *)
Theorem best_is_recorded (app : App) (inputs final : dict) :
  returned (run app inputs) = Ok final ->
  lookup (lit "error") final = None ->
  exists hist best b,
    get final "history" = VList hist /\
    get final "best_result" = VDict best /\
    get final "best_iteration" = VInt b /\
    0 <= b <= 3 /\
    (best = initial_best \/ In (VDict best) hist) /\
    (get final "success" = VBool false ->
     (best = initial_best /\ b = 0) \/
     (In (VDict best) hist /\ get best "iteration" = VInt b)).
Proof.
  intros Hret Herr.
  destruct (returned_shape app inputs final Hret)
    as [(error & ->) |
        (hist & js & Hh & Hb & _ & Hjs & Hsub & Hpre & _ & Hend)];
    [discriminate Herr|].
  assert (Hrange : forall j, In j js -> 1 <= j <= 3).
  { intros j Hj. pose proof (prefix_In _ _ _ Hpre (subseq_In _ _ _ Hsub Hj)) as H3.
    cbn [In] in H3. lia. }
  assert (Hentry : forall d, In (VDict d) hist ->
            exists j, In j js /\ get d "iteration" = VInt j).
  { intros d Hd.
    assert (Hi : In (entry_field (VDict d) "iteration") (iterations hist))
      by (apply in_map_iff; exists (VDict d); split; [reflexivity | exact Hd]).
    rewrite Hjs in Hi. apply in_map_iff in Hi as (j & Ej & Hj).
    exists j. split; [exact Hj | symmetry; exact Ej]. }
  exists hist, (tracked hist).
  destruct Hend as [(Hf & Hbi) | (Ht & i & js' & -> & Hbi)].
  - destruct (tracked_cases hist) as [E | (d & Hd & E)].
    + exists 0. rewrite Hbi, E.
      split; [exact Hh|]. split; [rewrite <- E; exact Hb|].
      split; [reflexivity|]. split; [lia|]. split; [left; reflexivity|].
      intros _. left. split; reflexivity.
    + destruct (Hentry d Hd) as (j & Hj & Hit).
      exists j. rewrite Hbi, E.
      split; [exact Hh|]. split; [rewrite <- E; exact Hb|].
      split; [apply get_default_of_get; [exact Hit | discriminate]|].
      split; [pose proof (Hrange j Hj); lia|]. split; [right; exact Hd|].
      intros _. right. split; [exact Hd | exact Hit].
  - exists i.
    split; [exact Hh|]. split; [exact Hb|]. split; [exact Hbi|].
    split; [pose proof (Hrange i ltac:(apply in_or_app; right; left; reflexivity));
            lia|].
    split.
    + destruct (tracked_cases hist) as [E | (d & Hd & E)];
        [left; exact E | right; rewrite E; exact Hd].
    + rewrite Ht. intros H; discriminate H.
Qed.

End AccumulatorGrowth.

(** Four matches at 100 percent in the first iteration, a known listing
    in the second: the summary gives the range and the median of the four
    prices of the best result. *)
Lemma summary_of_a_run_witness :
  exists final best summary,
    Workflow.returned
      (Workflow.run (rt := Samples.runtime)
         (Fixtures.scripted Fixtures.profile Samples.evals_four_then_one
                            Fixtures.data_found) []) = Ok final /\
    get final "best_result" = VDict best /\
    Summary.item_price best Fixtures.profile = Ok summary /\
    get summary "range" = VList [VFloat 100; VFloat 130] /\
    get summary "median" = VFloat 115.
Proof.
  destruct (Workflow.returned
              (Workflow.run (rt := Samples.runtime)
                 (Fixtures.scripted Fixtures.profile Samples.evals_four_then_one
                                    Fixtures.data_found) []))
    as [final|e] eqn:E; vm_compute in E; [|discriminate].
  injection E as E.
  destruct (get final "best_result") as [| | | | | |best] eqn:Eb;
    try (subst final; vm_compute in Eb; discriminate).
  destruct (summary_of_a_run (rt := Samples.runtime)
              (Fixtures.scripted Fixtures.profile Samples.evals_four_then_one
                                 Fixtures.data_found) [] final best Fixtures.profile)
    as (summary & Hs & _).
  - subst final. vm_compute. reflexivity.
  - subst final. vm_compute. reflexivity.
  - exact Eb.
  - exists final, best, summary. split; [reflexivity|]. split; [exact Eb|].
    split; [exact Hs|].
    subst final. vm_compute in Eb. injection Eb as <-.
    vm_compute in Hs. injection Hs as <-. split; vm_compute; reflexivity.
Defined.

(** The same run: four listings after the first evaluation, four after
    the second. *)
Lemma accumulator_grows_witness :
  exists final h1 h2,
    Workflow.returned
      (Workflow.run (rt := Samples.runtime)
         (Fixtures.scripted Fixtures.profile Samples.evals_four_then_one
                            Fixtures.data_found) []) = Ok final /\
    get final "history" = VList [h1; h2] /\
    History.count_listings_of h1 = VInt 4 /\
    History.count_listings_of h2 = VInt 4.
Proof.
  destruct (Workflow.returned
              (Workflow.run (rt := Samples.runtime)
                 (Fixtures.scripted Fixtures.profile Samples.evals_four_then_one
                                    Fixtures.data_found) []))
    as [final|e] eqn:E; vm_compute in E; [|discriminate].
  injection E as E.
  destruct (Workflow.history_after (Workflow.Return final)) as [|h1 [|h2 [|h3 l]]] eqn:Eh;
    try (subst final; vm_compute in Eh; discriminate).
  assert (Hh : get final "history" = VList [h1; h2]).
  { subst final. vm_compute in Eh. injection Eh as <- <-. vm_compute. reflexivity. }
  destruct (accumulator_grows (rt := Samples.runtime)
              (Fixtures.scripted Fixtures.profile Samples.evals_four_then_one
                                 Fixtures.data_found) [] final [h1; h2]
              0%nat 1%nat h1 h2)
    as (n & n' & Hn & Hn' & _ & _).
  - subst final. vm_compute. reflexivity.
  - exact Hh.
  - lia.
  - reflexivity.
  - reflexivity.
  - exists final, h1, h2. split; [reflexivity|]. split; [exact Hh|].
    subst final. vm_compute in Eh. injection Eh as <- <-.
    split; vm_compute; reflexivity.
Defined.

(** The percentages 40, 40 and 55: the third entry is the best result. *)
Lemma best_is_recorded_witness :
  exists final hist best,
    Workflow.returned
      (Workflow.run (rt := Fixtures.runtime)
         (Fixtures.scripted Fixtures.profile Fixtures.evals_40_40_55
                            Fixtures.data_found) []) = Ok final /\
    get final "history" = VList hist /\
    get final "best_result" = VDict best /\
    get final "best_iteration" = VInt 3 /\
    In (VDict best) hist.
Proof.
  destruct (Workflow.returned
              (Workflow.run (rt := Fixtures.runtime)
                 (Fixtures.scripted Fixtures.profile Fixtures.evals_40_40_55
                                    Fixtures.data_found) []))
    as [final|e] eqn:E; vm_compute in E; [|discriminate].
  injection E as E.
  destruct (best_is_recorded (rt := Fixtures.runtime)
              (Fixtures.scripted Fixtures.profile Fixtures.evals_40_40_55
                                 Fixtures.data_found) [] final)
    as (hist & best & b & Hh & Hb & Hbi & _ & Hin & _).
  - subst final. vm_compute. reflexivity.
  - subst final. vm_compute. reflexivity.
  - exists final, hist, best. split; [reflexivity|]. split; [exact Hh|].
    split; [exact Hb|].
    split; [subst final; vm_compute; reflexivity|].
    destruct Hin as [Hinit | Hin]; [|exact Hin].
    subst final best. vm_compute in Hb. discriminate Hb.
Defined.

(** An item that is the number 1 makes the calculator raise; the empty
    payload gives the empty statistics. *)
Lemma calculator_domain_witness :
  (exists e,
     PriceCalculation.calculate_from_evaluation (rt := Fixtures.runtime)
       (mkdict [("individual_results_evaluation", VList [VInt 1])]) = Raise e /\
     exn_cls e = AttributeError) /\
  PriceCalculation.calculate_from_evaluation (rt := Fixtures.runtime) []
    = Ok Calculator.nothing_counted.
Proof.
  split.
  - destruct (proj2 (calculator_domain (rt := Fixtures.runtime)
                       (mkdict [("individual_results_evaluation", VList [VInt 1])]))
                [VInt 1] eq_refl) as [_ H].
    apply H. reflexivity.
  - apply (proj1 (calculator_domain (rt := Fixtures.runtime) [])). reflexivity.
Defined.

(** The three listings of the statistics example: two prices of three
    parse, and the smallest matching price 120 is not below the smallest
    price 120. *)
Lemma matches_within_all_witness :
  (exists stats parsed count,
     PriceCalculation.calculate_from_evaluation (rt := Fixtures.runtime)
       (PriceCalculation.payload_of Fixtures.three_listings) = Ok stats /\
     get stats "count_prices_parsed" = VInt parsed /\
     get stats "count_listings" = VInt count /\
     0 <= parsed <= count) /\
  PrimFloat.ltb 120 120 = false.
Proof.
  destruct (matches_within_all (rt := Fixtures.runtime) Fixtures.three_listings)
    as (_ & Hcount & Hmin & _).
  split.
  - destruct (PriceCalculation.calculate_from_evaluation (rt := Fixtures.runtime)
                (PriceCalculation.payload_of Fixtures.three_listings))
      as [stats|e] eqn:E; [|vm_compute in E; discriminate].
    destruct (Hcount stats eq_refl) as (parsed & count & Hp & Hc & Hle & _).
    exists stats, parsed, count. auto.
  - apply Hmin; vm_compute; reflexivity.
Defined.

(** A match and a non-match, in either order. *)
Lemma metrics_order_witness :
  MetricsTools.metrics
    [VDict (mkdict [("is_match", VBool true)]); VDict (mkdict [("is_match", VBool false)])]
  = MetricsTools.metrics
    [VDict (mkdict [("is_match", VBool false)]); VDict (mkdict [("is_match", VBool true)])].
Proof.
  apply (metrics_order_independent (rt := Fixtures.runtime)). apply perm_swap.
Defined.

(** Five matches of eight items: at least half, and at least three. *)
Lemma sufficient_iff_half_witness :
  get (MetricsTools.metrics Fixtures.five_of_eight) "overall_sufficiency"
    = VStr (lit "sufficient").
Proof.
  apply (sufficient_iff_half Fixtures.five_of_eight); cbn; lia.
Defined.

(** ** [_parse]: the code fences *)

Section ParseFences.
Context {rt : Runtime}.
Import Workflow Text.

Lemma is_prefix_cons (a : codepoint) (p : ustr) (x : codepoint) (s : ustr) :
  is_prefix (a :: p) (x :: s) = N.eqb a x && is_prefix p s.
Proof. reflexivity. Qed.

(** Removing every [ccc] from the left leaves no [ccc] behind, and does
    not lengthen the run of [c] at the start. *)
Lemma replace_triple (c : codepoint) (n : nat) (s : ustr) :
  (List.length s <= n)%nat ->
  is_infix [c; c; c] (replace_from [c; c; c] [] 0 s) = false /\
  (is_prefix [c; c] (replace_from [c; c; c] [] 0 s) = true ->
   is_prefix [c; c] s = true) /\
  (is_prefix [c] (replace_from [c; c; c] [] 0 s) = true ->
   is_prefix [c] s = true).
Proof.
  revert s. induction n as [|n IH]; intros s Hn.
  - destruct s; [|cbn [List.length] in Hn; lia].
    cbn. repeat split; intros H; discriminate H.
  - destruct s as [|x s']; [cbn; repeat split; intros H; discriminate H|].
    cbn [replace_from].
    destruct (is_prefix [c; c; c] (x :: s')) eqn:P.
    + destruct s' as [|y [|z s'']]; cbn [is_prefix] in P;
        try (rewrite ?andb_false_r in P; discriminate P).
      apply andb_true_iff in P as [Hx P]. apply andb_true_iff in P as [Hy P].
      apply andb_true_iff in P as [Hz _].
      cbn [List.length Nat.sub app replace_from].
      cbn [List.length] in Hn.
      destruct (IH s'' ltac:(lia)) as (Hinf & _ & _).
      split; [exact Hinf|].
      cbn [is_prefix]. rewrite Hx, Hy. split; intros _; reflexivity.
    + cbn [List.length] in Hn.
      destruct (IH s' ltac:(lia)) as (Hinf & H2 & H1).
      cbn [is_infix]. rewrite Hinf, orb_false_r.
      rewrite (is_prefix_cons c [c; c] x) in *.
      rewrite !(is_prefix_cons c [c] x), !(is_prefix_cons c [] x).
      destruct (N.eqb c x); cbn [andb] in *.
      * split; [|split; [exact H1 | intros _; reflexivity]].
        destruct (is_prefix [c; c] (replace_from [c; c; c] [] 0 s'));
          [|reflexivity].
        rewrite (H2 eq_refl) in P. discriminate P.
      * repeat split; intros H; discriminate H.
Qed.

(** X12.  [_parse] removes every code fence: the text it hands to
    [json.loads] is the stripped output without "```json" and then
    without "```", and no three backticks in a row are left in it.  The
    result is the decoded value, or the stripped output when decoding
    fails. *)
Theorem parse_removes_fences (raw : ustr) :
  let cleaned :=
    replace (lit "```") [] (replace (lit "```json") [] (strip raw)) in
  is_infix (lit "```") cleaned = false /\
  _parse raw = match json_loads cleaned with
               | Some v => v
               | None => VStr (strip raw)
               end.
Proof.
  split; [|reflexivity].
  exact (proj1 (replace_triple BACKTICK _ _ (Nat.le_refl _))).
Qed.

End ParseFences.

(** ** The data file *)

Section DataFile.
Import Paths.

Lemma parent_joinpath (p : path) (name : string) : parent (joinpath p name) = p.
Proof. apply removelast_last. Qed.

(** X13.  The scraper writes where the workflow and the read tool read.
    For every project root, with the three modules at their places under
    [src/resell_app] and the default output folder, the file
    [MarketSearch._run] replaces is the file [ResellWorkflow] checks before
    an evaluation and the file [UTF8FileReadTool._run] reads by default:
    [<root>/Kleinanzeigen_Data/kleinanzeigen_items.json]. *)
Theorem one_data_file (root : path) :
  let package := joinpath (joinpath root "src") "resell_app" in
  let data_file :=
    joinpath (joinpath root "Kleinanzeigen_Data") "kleinanzeigen_items.json" in
  written_by_scraper (joinpath package "market_search.py") "Kleinanzeigen_Data"
    = data_file /\
  read_by_workflow (joinpath package "workflow.py") = data_file /\
  read_by_tool (joinpath (joinpath package "tools") "file_read_tool.py")
    = data_file.
Proof.
  unfold written_by_scraper, read_by_workflow, read_by_tool.
  cbv zeta. rewrite !parent_joinpath. repeat split.
Qed.

End DataFile.

(** ** The vision tool: how often it asks the model *)

Section VisionToolBounds.
Context {rt : Runtime}.
Import VisionTool Text.
Variable vision : Vision.

Lemma loaded_length (depth : nat) (urls : list value) :
  (List.length (loaded vision depth urls) <= List.length urls)%nat.
Proof.
  unfold loaded. induction urls as [|u urls IH]; cbn [flat_map List.length]; [lia|].
  rewrite length_app. destruct (load_image vision depth u); cbn [List.length]; lia.
Qed.

(** A call on one image never calls again. *)
Lemma call_single (again : value -> option answer) (depth : nat) (x : value) :
  exists a,
    (forall again', call vision again' depth (VList [x]) = Some a) /\
    (List.length (requests a) <= 1)%nat /\
    Forall (fun images => List.length images = 1%nat) (requests a).
Proof.
  unfold call. cbn [sanitize firstn List.length].
  pose proof (loaded_length depth [x]) as Hl. cbn [List.length] in Hl.
  destruct (loaded vision depth [x]) as [|image images]; cbn [List.length] in Hl.
  - eexists. split; [intros; reflexivity|]. split; [cbn; lia | constructor].
  - assert (images = []) as -> by (destruct images; [reflexivity | cbn in Hl; lia]).
    destruct (chat vision depth [image]) as [text|e].
    + cbv zeta. destruct (json_loads _) as [[| | | | | |result_json]|];
        try (eexists; split; [intros; reflexivity|];
             split; [cbn; lia | repeat constructor]).
      rewrite andb_false_r.
      eexists; split; [intros; reflexivity|];
        split; [cbn; lia | repeat constructor].
    + eexists; split; [intros; reflexivity|];
        split; [cbn; lia | repeat constructor].
Qed.

(** A call whose second call answers as a call on one image does. *)
Lemma call_spec (again : value -> option answer) (depth : nat) (image_urls : value) :
  (forall x, exists a,
     again (VList [x]) = Some a /\
     (List.length (requests a) <= 1)%nat /\
     Forall (fun images => List.length images = 1%nat) (requests a)) ->
  exists a,
    call vision again depth image_urls = Some a /\
    (forall again',
       (forall x, again' (VList [x]) = again (VList [x])) ->
       call vision again' depth image_urls = Some a) /\
    (List.length (requests a) <= 2)%nat /\
    Forall (fun images => (1 <= List.length images <= 4)%nat) (requests a) /\
    (forall first second,
       requests a = [first; second] -> List.length second = 1%nat).
Proof.
  intros Hagain. unfold call.
  assert (Hnone : forall out,
            exists a,
              Some (mkAnswer [] out) = Some a /\
              (forall again' : value -> option answer,
                 (forall x, again' (VList [x]) = again (VList [x])) ->
                 Some (mkAnswer [] out) = Some a) /\
              (List.length (requests a) <= 2)%nat /\
              Forall (fun images => (1 <= List.length images <= 4)%nat) (requests a) /\
              (forall first second,
                 requests a = [first; second] -> List.length second = 1%nat)).
  { intros out. eexists. split; [reflexivity|]. split; [intros; reflexivity|].
    split; [cbn; lia|]. split; [constructor|]. intros ? ? H; discriminate H. }
  destruct (sanitize image_urls) as [| | | | |urls|]; try apply Hnone.
  destruct urls as [|u urls]; [apply Hnone|].
  set (limited := firstn 4 (u :: urls)).
  assert (H4 : (List.length limited <= 4)%nat) by apply firstn_le_length.
  pose proof (loaded_length depth limited) as Hl.
  destruct (loaded vision depth limited) as [|image images] eqn:El; [apply Hnone|].
  assert (Himages : (1 <= List.length (image :: images) <= 4)%nat)
    by (cbn [List.length] in *; lia).
  assert (Hone : forall out,
            exists a,
              Some (mkAnswer [image :: images] out) = Some a /\
              (forall again' : value -> option answer,
                 (forall x, again' (VList [x]) = again (VList [x])) ->
                 Some (mkAnswer [image :: images] out) = Some a) /\
              (List.length (requests a) <= 2)%nat /\
              Forall (fun images => (1 <= List.length images <= 4)%nat) (requests a) /\
              (forall first second,
                 requests a = [first; second] -> List.length second = 1%nat)).
  { intros out. eexists. split; [reflexivity|]. split; [intros; reflexivity|].
    cbn [requests]. split; [cbn; lia|].
    split; [constructor; [exact Himages | constructor]|].
    intros ? ? H; discriminate H. }
  destruct (chat vision depth (image :: images)) as [text|e]; [|apply Hone].
  cbv zeta.
  destruct (json_loads _) as [[| | | | | |result_json]|]; try apply Hone.
  destruct (eq_lit (get result_json "status") "ERROR" &&
            (1 <? List.length limited)%nat); [|apply Hone].
  destruct (Hagain (hd VNone limited)) as (retried & Hr & Hlen & Hall).
  rewrite Hr. eexists. split; [reflexivity|].
  split; [intros again' Hsame; rewrite Hsame, Hr; reflexivity|].
  cbn [requests List.length]. split; [lia|].
  split.
  - constructor; [exact Himages|].
    eapply Forall_impl; [|exact Hall]. cbn beta. intros l Hl1. lia.
  - intros first second H. injection H as _ H.
    rewrite H in Hall. inversion Hall; assumption.
Qed.

(** X14.  The vision tool asks the model at most twice.  For every input
    and whatever the collaborators answer, [_run] returns a string; two
    nested calls suffice.  Every request to the model carries between one
    and four images, and a second request, the retry after an ERROR status
    on several images, carries exactly one. *)
Theorem vision_tool_bounded (image_urls : value) :
  exists a,
    _run vision 2 0 image_urls = Some a /\
    (forall more, _run vision (2 + more) 0 image_urls = Some a) /\
    (List.length (requests a) <= 2)%nat /\
    Forall (fun images => (1 <= List.length images <= 4)%nat) (requests a) /\
    (forall first second,
       requests a = [first; second] -> List.length second = 1%nat).
Proof.
  assert (Hretry : forall x, exists a,
            _run vision 1 1 (VList [x]) = Some a /\
            (List.length (requests a) <= 1)%nat /\
            Forall (fun images => List.length images = 1%nat) (requests a)).
  { intros x. cbn [_run].
    destruct (call_single (_run vision 0 2) 1%nat x) as (a & Ha & Hrest).
    exists a. split; [apply Ha | exact Hrest]. }
  change (_run vision 2 0 image_urls)
    with (call vision (_run vision 1 1) 0%nat image_urls).
  destruct (call_spec (_run vision 1 1) 0%nat image_urls Hretry)
    as (a & Ha & Hext & Hrest).
  exists a. split; [exact Ha|]. split; [|exact Hrest].
  intros more.
  change (_run vision (2 + more) 0 image_urls)
    with (call vision (_run vision (1 + more) 1) 0%nat image_urls).
  apply Hext. intros x. cbn [_run Nat.add].
  destruct (call_single (_run vision 0 2) 1%nat x) as (b & Hb & _).
  rewrite (Hb (_run vision more 2)), (Hb (_run vision 0 2)). reflexivity.
Qed.

End VisionToolBounds.

(** ** The market search: pages, links and ids *)

Section MarketSearchBounds.
Import MarketSearch Text.
Variable site : Site.

Lemma is_prefix_app (p s : ustr) : is_prefix p (p ++ s) = true.
Proof.
  induction p as [|x p IH]; [reflexivity|].
  cbn [app]. rewrite is_prefix_cons, N.eqb_refl. exact IH.
Qed.

Lemma add_spec (x : ustr) (s : list ustr) :
  (List.length (add x s) <= S (List.length s))%nat /\
  (NoDup s -> NoDup (add x s)) /\
  (forall P : ustr -> Prop, Forall P s -> P x -> Forall P (add x s)).
Proof.
  unfold add. destruct (existsb (ustr_eqb x) s) eqn:E.
  - split; [lia|]. split; auto.
  - split; [rewrite length_app; cbn [List.length]; lia|]. split.
    + intros Hs. apply NoDup_app; [exact Hs | repeat constructor; intros [] |].
      intros a Ha [<- | []].
      assert (existsb (ustr_eqb x) s = true)
        by (apply existsb_exists; exists x; split; [exact Ha | apply ustr_eqb_refl]).
      congruence.
    + intros P Hs Hx. apply Forall_app. split; [exact Hs | repeat constructor; exact Hx].
Qed.

Lemma scan_spec (min_items : Z) (articles : list (option ustr)) (links : list ustr) :
  Z.of_nat (List.length links) < min_items ->
  NoDup links -> Forall kept links ->
  Z.of_nat (List.length (scan min_items articles links)) <= min_items /\
  NoDup (scan min_items articles links) /\
  Forall kept (scan min_items articles links).
Proof.
  revert links. induction articles as [|art rest IH]; intros links Hlt Hnd Hk.
  - cbn [scan]. split; [lia|]. split; assumption.
  - cbn [scan]. destruct art as [href|]; [|apply IH; assumption].
    destruct (truthy (VStr href)); [|apply IH; assumption].
    destruct (is_infix (lit "/s-anzeige/") (BASE_URL ++ href)) eqn:Ei;
      [|apply IH; assumption].
    destruct (add_spec (BASE_URL ++ href) links) as (Hlen & Hnd' & Hk').
    specialize (Hnd' Hnd).
    specialize (Hk' kept Hk (conj Ei (is_prefix_app BASE_URL href))).
    destruct (Z.geb_spec (Z.of_nat (List.length (add (BASE_URL ++ href) links)))
                         min_items).
    + split; [lia|]. split; assumption.
    + apply IH; [lia | assumption | assumption].
Qed.

Lemma paginate_spec (search_query : ustr) (min_items : Z) (fuel p : nat) (c : crawl) :
  (11 - p <= fuel)%nat -> sound min_items c ->
  exists c' k,
    (forall more,
       paginate site (fuel + more) search_query min_items (Z.of_nat p) c = Some c') /\
    sound min_items c' /\ (k = 0 \/ p + k <= 11)%nat /\
    requested c' =
      requested c ++ map (fun n => search_url search_query (Z.of_nat n)) (seq p k).
Proof.
  revert p c. induction fuel as [|fuel IH]; intros p c Hfuel Hs.
  - exists c, 0%nat. split; [|split; [exact Hs | split; [left; reflexivity|]]].
    + intros more.
      assert (Hcond : (Z.of_nat (List.length (item_links c)) <? min_items) &&
                      (Z.of_nat p <=? max_pages) = false).
      { apply andb_false_iff. right. apply Z.leb_gt. unfold max_pages. lia. }
      destruct more; cbn [Nat.add paginate]; rewrite Hcond; reflexivity.
    + cbn [seq map]. rewrite app_nil_r. reflexivity.
  - destruct ((Z.of_nat (List.length (item_links c)) <? min_items) &&
              (Z.of_nat p <=? max_pages)) eqn:Hcond.
    2:{ exists c, 0%nat. split; [|split; [exact Hs | split; [left; reflexivity|]]].
        - intros more. cbn [Nat.add paginate]. rewrite Hcond. reflexivity.
        - cbn [seq map]. rewrite app_nil_r. reflexivity. }
    apply andb_true_iff in Hcond as [Hlt Hpage].
    apply Z.ltb_lt in Hlt. apply Z.leb_le in Hpage. unfold max_pages in Hpage.
    assert (Hstep : forall more,
              paginate site (S fuel + more) search_query min_items (Z.of_nat p) c =
              let url := search_url search_query (Z.of_nat p) in
              let c1 := mkCrawl (item_links c) (requested c ++ [url]) in
              match search_page site url with
              | Raise _ => Some c1
              | Ok (status, articles) =>
                  if negb (status =? 200) then Some c1
                  else
                    match articles with
                    | [] => Some c1
                    | _ :: _ =>
                        let links := scan min_items articles (item_links c1) in
                        let c2 := mkCrawl links (requested c1) in
                        if Z.of_nat (List.length links) >=? min_items then Some c2
                        else paginate site (fuel + more) search_query min_items
                                      (Z.of_nat p + 1) c2
                    end
              end).
    { intros more. cbn [Nat.add paginate].
      assert (Hc : (Z.of_nat (List.length (item_links c)) <? min_items) &&
                   (Z.of_nat p <=? max_pages) = true).
      { apply andb_true_iff. split; [apply Z.ltb_lt | apply Z.leb_le]; assumption. }
      rewrite Hc. reflexivity. }
    assert (Hone : forall c1,
              item_links c1 = item_links c ->
              requested c1 = requested c ++ [search_url search_query (Z.of_nat p)] ->
              sound min_items c1 /\ (1 = 0 \/ p + 1 <= 11)%nat /\
              requested c1 =
                requested c ++
                map (fun n => search_url search_query (Z.of_nat n)) (seq p 1)).
    { intros c1 Hl Hr. split; [unfold sound; rewrite Hl; exact Hs|].
      split; [right; lia | exact Hr]. }
    cbv zeta in Hstep.
    destruct (search_page site (search_url search_query (Z.of_nat p)))
      as [[status articles]|e].
    + destruct (negb (status =? 200)).
      * eexists; exists 1%nat. split; [intros more; rewrite Hstep; reflexivity|].
        apply Hone; reflexivity.
      * destruct articles as [|art rest].
        -- eexists; exists 1%nat. split; [intros more; rewrite Hstep; reflexivity|].
           apply Hone; reflexivity.
        -- cbn [item_links requested] in Hstep.
           destruct Hs as (_ & Hnd & Hk).
           destruct (scan_spec min_items (art :: rest) (item_links c) Hlt Hnd Hk)
             as (Hlen & Hnd' & Hk').
           destruct (Z.of_nat (List.length (scan min_items (art :: rest) (item_links c)))
                     >=? min_items) eqn:Hfull.
           ++ eexists; exists 1%nat.
              split; [intros more; rewrite Hstep; reflexivity|].
              split; [split; [exact Hlen | split; assumption]|].
              split; [right; lia | reflexivity].
           ++ replace (Z.of_nat p + 1) with (Z.of_nat (S p)) in Hstep by lia.
              destruct (IH (S p)
                          (mkCrawl (scan min_items (art :: rest) (item_links c))
                                   (requested c ++
                                    [search_url search_query (Z.of_nat p)])))
                as (c' & k & Hrun & Hs' & Hk1 & Hreq).
              ** lia.
              ** split; [exact Hlen | split; assumption].
              ** exists c', (S k).
                 split; [intros more; rewrite Hstep; apply Hrun|].
                 split; [exact Hs'|]. split; [right; lia|].
                 rewrite Hreq. cbn [requested seq map]. rewrite <- app_assoc.
                 reflexivity.
    + eexists; exists 1%nat. split; [intros more; rewrite Hstep; reflexivity|].
      apply Hone; reflexivity.
Qed.

(** X15.  The crawl is bounded.  For every query and target, and whatever
    the site answers, the collection of links ends within ten passes of
    the loop: it requests the search pages 1, 2, ... in order and at most
    ten of them, and it ends with at most [max(5, min_items)] links, all
    distinct, each a listing URL under the base URL. *)
Theorem crawl_bounded (search_query : ustr) (min_items : Z) :
  exists c k,
    collect_links site 10 search_query min_items = Some c /\
    (forall more, collect_links site (10 + more) search_query min_items = Some c) /\
    (k <= 10)%nat /\
    requested c = map (fun n => search_url search_query (Z.of_nat n)) (seq 1 k) /\
    Z.of_nat (List.length (item_links c)) <= Z.max 5 min_items /\
    NoDup (item_links c) /\
    Forall (fun link => is_infix (lit "/s-anzeige/") link = true /\
                        is_prefix BASE_URL link = true) (item_links c).
Proof.
  unfold collect_links.
  destruct (paginate_spec search_query (Z.max 5 min_items) 10 1 (mkCrawl [] []))
    as (c & k & Hrun & (Hlen & Hnd & Hk) & Hpages & Hreq).
  - lia.
  - split; [cbn [item_links List.length]; lia|]. split; constructor.
  - exists c, k.
    split; [rewrite <- (Hrun 0%nat); reflexivity|].
    split; [exact Hrun|]. split; [lia|].
    split; [exact Hreq|]. split; [exact Hlen|]. split; [exact Hnd | exact Hk].
Qed.

Lemma split_fields (sep : codepoint) (s : ustr) :
  Forall (fun f => contains sep f = false) (split sep s).
Proof.
  induction s as [|c s IH]; [repeat constructor|].
  cbn [split]. destruct (N.eqb c sep) eqn:E.
  - constructor; [reflexivity | exact IH].
  - destruct (split sep s) as [|p ps].
    + repeat constructor. unfold contains. cbn [existsb].
      rewrite N.eqb_sym, E. reflexivity.
    + inversion IH as [|? ? Hp Hps]; subst. constructor; [|exact Hps].
      unfold contains in *. cbn [existsb]. rewrite N.eqb_sym, E. exact Hp.
Qed.

Lemma split_keeps (c sep : codepoint) (s : ustr) :
  contains c s = false -> Forall (fun f => contains c f = false) (split sep s).
Proof.
  unfold contains. induction s as [|x s IH]; intros H; [repeat constructor|].
  cbn [existsb] in H. apply orb_false_iff in H as [Hx Hs].
  specialize (IH Hs). cbn [split]. destruct (N.eqb x sep).
  - constructor; [reflexivity | exact IH].
  - destruct (split sep s) as [|p ps].
    + repeat constructor. cbn [existsb]. rewrite Hx. reflexivity.
    + inversion IH as [|? ? Hp Hps]; subst. constructor; [|exact Hps].
      cbn [existsb]. rewrite Hx. exact Hp.
Qed.

Lemma last_Forall {A} (P : A -> Prop) (l : list A) (d : A) :
  Forall P l -> P d -> P (last l d).
Proof.
  intros Hl Hd. induction Hl as [|x l Hx Hl IH]; [exact Hd|].
  cbn [last]. destruct l; [exact Hx | exact IH].
Qed.

Lemma is_prefix_contains (c : codepoint) (p s : ustr) :
  is_prefix p s = true -> In c p -> contains c s = true.
Proof.
  revert s. induction p as [|x p IH]; intros s H Hin; [destruct Hin|].
  destruct s as [|y s]; [discriminate H|].
  rewrite is_prefix_cons in H. apply andb_true_iff in H as [Hxy Hp].
  apply N.eqb_eq in Hxy. subst y. unfold contains in *. cbn [existsb].
  destruct Hin as [-> | Hin]; [rewrite N.eqb_refl; reflexivity|].
  rewrite (IH s Hp Hin). apply orb_true_r.
Qed.

Lemma is_infix_contains (c : codepoint) (p s : ustr) :
  is_infix p s = true -> In c p -> contains c s = true.
Proof.
  intros H Hin. induction s as [|x s IH].
  - apply (is_prefix_contains c p [] H Hin).
  - cbn [is_infix] in H. apply orb_true_iff in H as [H | H].
    + apply (is_prefix_contains c p _ H Hin).
    + unfold contains in *. cbn [existsb]. rewrite (IH H). apply orb_true_r.
Qed.

(** The id of a listing URL. *)
Lemma item_id_of_listing (link : ustr) (i : Z) :
  is_infix (lit "/s-anzeige/") link = true ->
  item_id link i = last_field DASH (last_field SLASH link) /\
  contains DASH (item_id link i) = false /\
  contains SLASH (item_id link i) = false.
Proof.
  intros H.
  assert (Hd : contains DASH link = true).
  { apply (is_infix_contains DASH _ _ H). cbn. auto. }
  unfold item_id. rewrite Hd. split; [reflexivity|]. unfold last_field. split.
  - apply (last_Forall (fun f => contains DASH f = false));
      [apply split_fields | reflexivity].
  - apply (last_Forall (fun f => contains SLASH f = false)); [|reflexivity].
    apply split_keeps.
    apply (last_Forall (fun f => contains SLASH f = false));
      [apply split_fields | reflexivity].
Qed.

Lemma extract_all_spec (links : list ustr) (i : Z) :
  Forall (fun link => is_infix (lit "/s-anzeige/") link = true) links ->
  (List.length (extract_all site i links) <= List.length links)%nat /\
  Forall (fun item =>
            exists link,
              In link links /\ get item "url" = VStr link /\
              get item "id" = VStr (last_field DASH (last_field SLASH link)))
         (extract_all site i links).
Proof.
  intros H. revert i. induction H as [|link links Hl _ IH]; intros i.
  - split; [cbn; lia | constructor].
  - cbn [extract_all]. destruct (IH (i + 1)) as [IHlen IHall].
    assert (Hrest : Forall (fun item =>
              exists link0,
                In link0 (link :: links) /\ get item "url" = VStr link0 /\
                get item "id" = VStr (last_field DASH (last_field SLASH link0)))
              (extract_all site (i + 1) links)).
    { eapply Forall_impl; [|exact IHall]. cbn beta.
      intros item (l & Hin & Hu & Hi). exists l. split; [right; exact Hin | auto]. }
    destruct (extract site i link) as [item|] eqn:E.
    + split; [cbn [List.length]; lia|]. constructor; [|exact Hrest].
      exists link. split; [left; reflexivity|].
      unfold extract in E.
      destruct (listing site link) as [page|]; [|discriminate E].
      destruct (negb (status_code page =? 200)); [discriminate E|].
      destruct (title page); [|discriminate E].
      injection E as <-. split; [reflexivity|].
      change (VStr (item_id link i) =
              VStr (last_field DASH (last_field SLASH link))).
      rewrite (proj1 (item_id_of_listing link i Hl)). reflexivity.
    + split; [cbn [List.length]; lia | exact Hrest].
Qed.

(** X16.  The scraped items.  At most [max(5, min_items)] items are
    written, each for one of the collected links.  The id of an item is the
    text behind the last dash of the last path segment of its URL: it holds
    no dash and no slash, and, a listing URL holding "/s-anzeige/", the
    fallback id "item_<i>" is never used. *)
Theorem scraped_items (min_items : Z) (links : list ustr) :
  Forall (fun link => is_infix (lit "/s-anzeige/") link = true) links ->
  Z.of_nat (List.length (dataset site min_items links)) <= Z.max 5 min_items /\
  Forall (fun item =>
            exists link,
              In link links /\ get item "url" = VStr link /\
              get item "id" = VStr (last_field DASH (last_field SLASH link)) /\
              contains DASH (last_field DASH (last_field SLASH link)) = false /\
              contains SLASH (last_field DASH (last_field SLASH link)) = false)
         (dataset site min_items links).
Proof.
  intros H. unfold dataset.
  set (n := Z.to_nat (Z.max 5 min_items)).
  assert (Hfirst : Forall (fun link => is_infix (lit "/s-anzeige/") link = true)
                          (firstn n links)).
  { apply Forall_forall. intros l Hl. rewrite Forall_forall in H.
    apply H. rewrite <- (firstn_skipn n links). apply in_or_app. left. exact Hl. }
  destruct (extract_all_spec (firstn n links) 0 Hfirst) as [Hlen Hall].
  split.
  - pose proof (firstn_le_length n links). subst n. lia.
  - eapply Forall_impl; [|exact Hall]. cbn beta.
    intros item (link & Hin & Hu & Hi). exists link.
    assert (Hin' : In link links)
      by (rewrite <- (firstn_skipn n links); apply in_or_app; left; exact Hin).
    split; [exact Hin'|]. split; [exact Hu|]. split; [exact Hi|].
    rewrite Forall_forall in H.
    destruct (item_id_of_listing link 0 (H link Hin')) as (E & Hd & Hs).
    rewrite E in Hd, Hs. split; assumption.
Qed.

End MarketSearchBounds.

(** Two images and a model that reports an error: a request with both
    images, then one with the first. *)
Lemma vision_tool_witness :
  exists a,
    VisionTool._run (rt := Fixtures.runtime) ToolSamples.strict_vision 2 0
      ToolSamples.two_urls = Some a /\
    VisionTool.requests a = [[lit "http://a"; lit "http://b"]; [lit "http://a"]].
Proof.
  destruct (vision_tool_bounded (rt := Fixtures.runtime) ToolSamples.strict_vision
              ToolSamples.two_urls) as (a & Ha & _).
  exists a. split; [exact Ha|].
  vm_compute in Ha. injection Ha as <-. reflexivity.
Defined.

(** One page with one listing, then a page that is not found: two
    requests, one link. *)
Lemma crawl_witness :
  exists c,
    MarketSearch.collect_links ToolSamples.small_site 10 (lit "bike") 10 = Some c /\
    MarketSearch.item_links c = [ToolSamples.bike_link] /\
    List.length (MarketSearch.requested c) = 2%nat.
Proof.
  destruct (crawl_bounded ToolSamples.small_site (lit "bike") 10)
    as (c & k & Hc & _).
  exists c. split; [exact Hc|].
  vm_compute in Hc. injection Hc as <-. split; reflexivity.
Defined.

(** The listing ".../s-anzeige/rad/123-45-678" is written with the id
    "678". *)
Lemma scraped_items_witness :
  exists item,
    MarketSearch.dataset ToolSamples.small_site 10 [ToolSamples.bike_link] = [item] /\
    get item "id" = VStr (lit "678").
Proof.
  destruct (scraped_items ToolSamples.small_site 10 [ToolSamples.bike_link])
    as (_ & Hall).
  - repeat constructor.
  - destruct (MarketSearch.dataset ToolSamples.small_site 10 [ToolSamples.bike_link])
      as [|item [|item2 rest]] eqn:E; try (vm_compute in E; discriminate E).
    exists item. split; [reflexivity|].
    inversion Hall as [|? ? (link & Hin & _ & Hid & _) _]; subst.
    destruct Hin as [<- | []]. rewrite Hid. vm_compute. reflexivity.
Defined.

(** ** Phase 1: what ends a run before the loop *)

Section PhaseOne.
Context {rt : Runtime}.
Import Workflow.
Variable app : App.
Variable inputs : dict.

(** X17.  The failures of phase 1.  When the analysis crew raises, the
    run returns the failure dict without attempting an iteration; its error
    is the text of the exception cut to 200 characters, or the fixed text
    "maximum recursion depth exceeded" for a [RecursionError].  A crew
    output without any task output ends the same way, with the text of the
    [IndexError].  But a crew output with the analysis and no second task
    output is read outside the [try]: unless the analysis reports an
    error, [run] raises [IndexError] instead of returning. *)
Theorem phase_one_failures :
  let first_inputs :=
    extend inputs [("iteration", VInt 1);
                   ("image_analysis", VStr (lit "Context"));
                   ("feedback", VStr (lit "None"))] in
  (forall e,
     analysis_and_query_crew app first_inputs = Raise e ->
     exists msg,
       run app inputs = mkOutcome [] (Ok (failure (VStr msg))) /\
       (List.length msg <= 200)%nat /\
       msg = match exn_cls e with
             | RecursionError => lit "maximum recursion depth exceeded"
             | _ => firstn 200 (exn_msg e)
             end) /\
  (forall res,
     analysis_and_query_crew app first_inputs = Ok res ->
     tasks_output res = [] ->
     run app inputs =
       mkOutcome [] (Ok (failure (VStr (lit "list index out of range"))))) /\
  (forall res raw0,
     analysis_and_query_crew app first_inputs = Ok res ->
     tasks_output res = [raw0] ->
     reported_error (_parse raw0) = None ->
     exists e, run app inputs = mkOutcome [] (Raise e) /\ exn_cls e = IndexError).
Proof.
  cbv zeta. split; [|split].
  - intros e H. unfold run, analyse. rewrite H. cbn [bind].
    destruct (exn_cls e); eexists; (split; [reflexivity|]);
      (split; [|reflexivity]);
      try (unfold truncated; rewrite length_firstn; lia).
    apply Nat.leb_le. reflexivity.
  - intros res H Ht. unfold run, analyse. rewrite H. cbn [bind]. rewrite Ht.
    reflexivity.
  - intros res raw0 H Ht Hr. unfold run, analyse. rewrite H. cbn [bind].
    rewrite Ht. cbn [nth_error]. rewrite Hr, Ht. cbn [nth_error].
    eexists. split; reflexivity.
Qed.

End PhaseOne.

(** A crew that raises "crew failed", and a crew that returns the analysis
    without a query. *)
Lemma phase_one_witness :
  Workflow.run (rt := Fixtures.runtime) Samples.analysis_down []
    = Workflow.mkOutcome [] (Ok (Workflow.failure (VStr (lit "crew failed")))) /\
  exists e,
    Workflow.run (rt := Fixtures.runtime) Samples.analysis_only []
      = Workflow.mkOutcome [] (Raise e) /\
    exn_cls e = IndexError.
Proof.
  destruct (phase_one_failures (rt := Fixtures.runtime) Samples.analysis_down [])
    as (Hraise & _ & _).
  destruct (phase_one_failures (rt := Fixtures.runtime) Samples.analysis_only [])
    as (_ & _ & Hshort).
  split.
  - destruct (Hraise Fixtures.crew_down eq_refl) as (msg & Hrun & _ & ->).
    exact Hrun.
  - apply (Hshort _ (Fixtures.json_text Fixtures.profile) eq_refl eq_refl).
    vm_compute. reflexivity.
Defined.

(** ** The sufficiency judge: the forms of its input *)

Section JudgeInput.
Context {rt : Runtime}.
Import MetricsTools.

(** X18.  The inputs of the sufficiency tool.  A string that is not JSON
    gives the error "Input must be a valid JSON list."; a string that
    decodes to anything but a string is treated as the decoded value is.
    Metrics are computed for a non-empty list only: every other value, and
    a JSON text that decodes to a string (a list encoded twice), gives the
    error "Empty dataset provided.". *)
Theorem metrics_input_forms :
  (forall text,
     json_loads text = None ->
     _run (VStr text) =
       json_dumps None (VDict (error_result "Input must be a valid JSON list."))) /\
  (forall text v,
     json_loads text = Some v -> (forall s, v <> VStr s) ->
     _run (VStr text) = _run v) /\
  (forall text s,
     json_loads text = Some (VStr s) ->
     _run (VStr text) =
       json_dumps None (VDict (error_result "Empty dataset provided."))) /\
  (forall v,
     (forall s, v <> VStr s) -> (forall i l, v <> VList (i :: l)) ->
     _run v = json_dumps None (VDict (error_result "Empty dataset provided."))).
Proof.
  split; [|split; [|split]].
  - intros text H. unfold _run. rewrite H. reflexivity.
  - intros text v H Hv. unfold _run. rewrite H.
    destruct v; try reflexivity. exfalso. exact (Hv s eq_refl).
  - intros text s H. unfold _run. rewrite H. reflexivity.
  - intros v Hs Hl. unfold _run.
    destruct v as [| | | |s|[|i l]|]; try reflexivity.
    + exfalso. exact (Hs s eq_refl).
    + exfalso. exact (Hl i l eq_refl).
Qed.

End JudgeInput.

(** A text that is not JSON, and the empty list. *)
Lemma metrics_input_witness :
  MetricsTools._run (rt := Fixtures.runtime) (VStr (lit "oops")) =
    json_dumps (Runtime := Fixtures.runtime) None
      (VDict (MetricsTools.error_result "Input must be a valid JSON list.")) /\
  MetricsTools._run (rt := Fixtures.runtime) (VList []) =
    json_dumps (Runtime := Fixtures.runtime) None
      (VDict (MetricsTools.error_result "Empty dataset provided.")).
Proof.
  destruct (metrics_input_forms (rt := Fixtures.runtime)) as (Hbad & _ & _ & Hother).
  split.
  - apply Hbad. reflexivity.
  - apply Hother; intros; discriminate.
Defined.

(** ** The best result holds the highest percentage *)

Section HighestPercentage.
Context {rt : Runtime}.
Import Workflow History.

Lemma sign_compare (s : bool) (m : positive) (e : Z) :
  (0 * 2 ^ Z.max (- e) 0 ?= (if s then Zneg m else Zpos m) * 2 ^ Z.max e 0)
  = if s then Gt else Lt.
Proof.
  assert (0 < 2 ^ Z.max e 0) by (apply Z.pow_pos_nonneg; lia).
  destruct s; [apply Z.compare_gt_iff | apply Z.compare_lt_iff]; nia.
Qed.

(** A float above 0 is not below a float that is not above 0. *)
Lemma positive_above (y p : float) :
  number_gt (NFloat y) (NInt 0) = true ->
  number_gt (NFloat p) (NInt 0) = false ->
  PrimFloat.ltb y p = false.
Proof.
  unfold number_gt, compare_int_float. rewrite ltb_spec.
  destruct (Prim2SF y) as [sy|sy| |sy my ey]; rewrite ?sign_compare;
    try (intros H; discriminate H);
    destruct sy; try (intros H; discriminate H); intros _;
    destruct (Prim2SF p) as [sp|sp| |sp mp ep]; rewrite ?sign_compare;
    try destruct sp; try (intros H; discriminate H); intros _; reflexivity.
Qed.

Lemma gt_chain_floats (m y p : value) :
  m = VInt 0 \/ is_float m = true -> is_float y = true -> is_float p = true ->
  gt y m = Ok true -> gt p m = Ok false -> gt p y = Ok false.
Proof.
  intros [-> | Hm] Hy Hp;
    destruct y; try discriminate Hy; destruct p; try discriminate Hp;
    try (destruct m; try discriminate Hm);
    cbn [gt as_number]; intros H1 H2; injection H1 as H1; injection H2 as H2;
    f_equal.
  - exact (positive_above _ _ H1 H2).
  - cbn [number_gt] in *. exact (not_above_larger _ _ _ H2 H1).
Qed.

Lemma gt_chain_ints (m y p : value) :
  m = VInt 0 \/ is_int m = true -> is_int y = true -> is_int p = true ->
  gt y m = Ok true -> gt p m = Ok false -> gt p y = Ok false.
Proof.
  intros Hm Hy Hp.
  assert (Hm' : is_int m = true) by (destruct Hm as [-> | Hm]; [reflexivity | exact Hm]).
  destruct m; try discriminate Hm'; destruct y; try discriminate Hy;
    destruct p; try discriminate Hp.
  cbn [gt as_number number_gt]. intros H1 H2.
  injection H1 as H1; injection H2 as H2. f_equal.
  apply Z.gtb_lt in H1. rewrite Z.gtb_ltb in *. apply Z.ltb_ge in H2.
  apply Z.ltb_ge. lia.
Qed.

Section OneKind.
Variable kind : value -> bool.
Hypothesis chain : forall m y p,
  m = VInt 0 \/ kind m = true -> kind y = true -> kind p = true ->
  gt y m = Ok true -> gt p m = Ok false -> gt p y = Ok false.
Hypothesis irreflexive : forall v, kind v = true -> gt v v = Ok false.
Hypothesis comparable : forall v b,
  kind v = true -> b = VInt 0 \/ kind b = true -> exists r, gt v b = Ok r.

(** The tracker of a history of dicts whose percentages are of the kind:
    no entry has a percentage above the tracker's. *)
Lemma tracked_highest (hist : list value) :
  Forall (fun h => exists d, h = VDict d /\
                             lookup (lit "match_percentage") d <> None) hist ->
  forallb kind (percentages hist) = true ->
  (tracked_percentage (tracked hist) = VInt 0 \/
   kind (tracked_percentage (tracked hist)) = true) /\
  Forall (fun h => gt (entry_field h "match_percentage")
                      (tracked_percentage (tracked hist)) = Ok false) hist.
Proof.
  induction hist as [|h hist IH] using rev_ind; intros Hd Hk.
  - split; [left; reflexivity | constructor].
  - apply Forall_app in Hd as [Hd Hh].
    inversion Hh as [|? ? (d & -> & Hmp) _]; subst.
    unfold percentages in Hk. rewrite map_app, forallb_app in Hk.
    apply andb_true_iff in Hk as [Hk Hv]. cbn [map forallb] in Hv.
    rewrite andb_true_r in Hv.
    destruct (IH Hd Hk) as (Hb & Hall).
    assert (Hvd : forall default,
              get_default d "match_percentage" default =
              entry_field (VDict d) "match_percentage").
    { intros default. cbn [entry_field]. unfold get, get_default.
      destruct (lookup (lit "match_percentage") d); [reflexivity | contradiction]. }
    assert (Hkinds : Forall (fun h => kind (entry_field h "match_percentage") = true)
                            hist).
    { apply Forall_forall. intros h Hin. rewrite forallb_forall in Hk.
      apply Hk, in_map_iff. exists h. split; [reflexivity | exact Hin]. }
    destruct (comparable _ _ Hv Hb) as (r & Hgt).
    rewrite tracked_snoc.
    assert (Htrack : track (tracked hist) (VDict d) =
                     if r then d else tracked hist).
    { unfold track. rewrite (Hvd (VInt 0)).
      fold (tracked_percentage (tracked hist)). rewrite Hgt.
      destruct r; reflexivity. }
    rewrite Htrack. destruct r.
    + assert (Hnew : tracked_percentage d = entry_field (VDict d) "match_percentage")
        by apply Hvd.
      rewrite Hnew. split; [right; exact Hv|].
      apply Forall_app. split.
      * rewrite Forall_forall in *. intros h Hin.
        exact (chain _ _ _ Hb Hv (Hkinds h Hin) Hgt (Hall h Hin)).
      * constructor; [apply irreflexive, Hv | constructor].
    + split; [exact Hb|]. apply Forall_app. split; [exact Hall|].
      constructor; [exact Hgt | constructor].
Qed.

End OneKind.

Lemma history_of_dicts (app : App) (inputs final : dict) (hist : list value) :
  returned (run app inputs) = Ok final ->
  get final "history" = VList hist ->
  Forall (fun h => exists d, h = VDict d /\
                             lookup (lit "match_percentage") d <> None) hist.
Proof.
  intros Hret Hhist.
  destruct (run_verdicts app inputs final Hret) as (hist' & Hh & Hend).
  rewrite Hhist in Hh. injection Hh as <-.
  assert (Hentry : forall h,
            numeric (entry_field h "match_percentage") = true ->
            exists d, h = VDict d /\ lookup (lit "match_percentage") d <> None).
  { intros h Hn. destruct h; try discriminate Hn. exists d. split; [reflexivity|].
    cbn [entry_field] in Hn. unfold get, get_default in Hn.
    destruct (lookup (lit "match_percentage") d); [discriminate | discriminate Hn]. }
  assert (Hweak : forall l, Forall passed l ->
            Forall (fun h => exists d, h = VDict d /\
                             lookup (lit "match_percentage") d <> None) l).
  { intros l Hl. eapply Forall_impl; [|exact Hl]. intros h [Hn _]. apply Hentry, Hn. }
  destruct Hend as [(_ & Hall) | (_ & before & h & i & tried & -> & Hall & Hn & _)].
  - apply Hweak, Hall.
  - apply Forall_app. split; [apply Hweak, Hall|].
    constructor; [apply Hentry, Hn | constructor].
Qed.

(** X19.  The best result holds the highest percentage.  When the
    percentages a run records are all floats, as the sufficiency tool
    reports them, or all ints, no history entry has a percentage greater
    than the percentage of best_result. *)
Theorem best_result_is_highest (app : App) (inputs final best : dict)
    (hist : list value) :
  returned (run app inputs) = Ok final ->
  lookup (lit "error") final = None ->
  get final "history" = VList hist ->
  get final "best_result" = VDict best ->
  one_kind (percentages hist) ->
  Forall (fun h => gt (entry_field h "match_percentage")
                      (get_default best "match_percentage" (VInt (-1)))
                   = Ok false) hist.
Proof.
  intros Hret Herr Hhist Hbest Hkind.
  pose proof (history_of_dicts app inputs final hist Hret Hhist) as Hd.
  destruct (returned_shape app inputs final Hret)
    as [(error & ->) | (hist' & js & Hh & Hb & _)]; [discriminate Herr|].
  rewrite Hhist in Hh. injection Hh as <-.
  rewrite Hbest in Hb. injection Hb as ->.
  fold (tracked_percentage (tracked hist)).
  destruct Hkind as [Hk | Hk].
  - refine (proj2 (tracked_highest is_float gt_chain_floats _ _ hist Hd Hk)).
    + intros v Hv. destruct v; try discriminate Hv.
      cbn [gt as_number number_gt]. f_equal. apply ltb_irrefl.
    + intros v b Hv [-> | Hb]; destruct v; try discriminate Hv;
        try (destruct b; try discriminate Hb); eexists; reflexivity.
  - refine (proj2 (tracked_highest is_int gt_chain_ints _ _ hist Hd Hk)).
    + intros v Hv. destruct v; try discriminate Hv.
      cbn [gt as_number number_gt]. f_equal. rewrite Z.gtb_ltb. apply Z.ltb_irrefl.
    + intros v b Hv [-> | Hb]; destruct v; try discriminate Hv;
        try (destruct b; try discriminate Hb); eexists; reflexivity.
Qed.

End HighestPercentage.

(** The percentages 40, 40 and 55: none is above the percentage of the
    best result. *)
Lemma best_result_is_highest_witness :
  exists final best hist,
    Workflow.returned
      (Workflow.run (rt := Fixtures.runtime)
         (Fixtures.scripted Fixtures.profile Fixtures.evals_40_40_55
                            Fixtures.data_found) []) = Ok final /\
    get final "history" = VList hist /\
    get final "best_result" = VDict best /\
    Forall (fun h => gt (rt := Fixtures.runtime)
                        (Workflow.entry_field h "match_percentage")
                        (get_default best "match_percentage" (VInt (-1)))
                     = Ok false) hist.
Proof.
  destruct (Workflow.returned
              (Workflow.run (rt := Fixtures.runtime)
                 (Fixtures.scripted Fixtures.profile Fixtures.evals_40_40_55
                                    Fixtures.data_found) []))
    as [final|e] eqn:E; vm_compute in E; [|discriminate].
  injection E as E.
  destruct (get final "history") as [| | | | |hist|] eqn:Eh;
    try (subst final; vm_compute in Eh; discriminate).
  destruct (get final "best_result") as [| | | | | |best] eqn:Eb;
    try (subst final; vm_compute in Eb; discriminate).
  exists final, best, hist. split; [reflexivity|]. split; [exact Eh|].
  split; [exact Eb|].
  refine (best_result_is_highest (rt := Fixtures.runtime)
            (Fixtures.scripted Fixtures.profile Fixtures.evals_40_40_55
                               Fixtures.data_found) [] final best hist _ _ Eh Eb _).
  - subst final. vm_compute. reflexivity.
  - subst final. vm_compute. reflexivity.
  - right. subst final. vm_compute in Eh. injection Eh as <-. vm_compute. reflexivity.
Defined.
